(** * Groot behaviour-tree editor: the document engine of [MainWindow]

    A shallow embedding of [bt_editor/mainwindow.cpp]: the undo/redo
    snapshot store, the restore path, load from XML, save to XML, the
    validity check that drives the tool bar, and the orientation toggle.

    The window is a record threaded through every slot.  Signals are
    modelled as the code has them: a scene operation emits
    [undoableChange] from its container at intermediate scenes, and the
    two slots connected in [createTab] ([onPushUndo], then
    [onSceneChanged]) run unless a [QSignalBlocker] holds the container.

    What lives outside [mainwindow.cpp] (the flow scene, the XML helper
    functions, tinyxml2, Qt) is an interface, [External]; module [Ref]
    gives one executable instance of it, and module [Examples] a few
    windows over that instance. *)

From Stdlib Require Import String Ascii List Bool Arith ZArith Lia.
Import ListNotations.
Open Scope string_scope.
Open Scope list_scope.

Set Warnings "-register-all".

Set Implicit Arguments.

(** ** Qt and standard types *)

Definition QString := string.
Definition QByteArray := string.

Inductive GraphicMode := EDITOR | MONITOR | REPLAY.

Definition GraphicMode_eqb (a b : GraphicMode) : bool :=
  match a, b with
  | EDITOR, EDITOR | MONITOR, MONITOR | REPLAY, REPLAY => true
  | _, _ => false
  end.

Inductive PortLayout := Horizontal | Vertical.

Definition PortLayout_eqb (a b : PortLayout) : bool :=
  match a, b with
  | Horizontal, Horizontal | Vertical, Vertical => true
  | _, _ => false
  end.

(** [std::runtime_error] and [std::logic_error], the two exception
    classes the file catches, with their [what()]. *)
Inductive exn :=
| runtime_error (what : string)
| logic_error (what : string).

Definition what (e : exn) : string :=
  match e with runtime_error w | logic_error w => w end.

(** What the window shows or prints: message boxes, [qDebug] lines with
    the two stack sizes, and [std::cout] lines.  Most recent first. *)
Inductive Event :=
| MsgWarning (title text : string)
| MsgCritical (title text : string)
| DebugSizes (tag : string) (undo_size redo_size : nat)
| Cout (text : string).

Definition is_push_line (e : Event) : bool :=
  match e with
  | DebugSizes tag _ _ => String.eqb tag "P"
  | _ => false
  end.

Definition is_message (e : Event) : bool :=
  match e with
  | MsgWarning _ _ | MsgCritical _ _ => true
  | _ => false
  end.

(** ** tinyxml2 documents *)

(** A parsed document is read only through [RootElement] and
    [FirstChildElement], so it is a tree. *)
Inductive XMLNode :=
| XMLElement (name : string) (attrs : list (string * string))
             (children : list XMLNode)
| XMLComment (text : string).

Definition element_named (n : string) (x : XMLNode) : bool :=
  match x with
  | XMLElement m _ _ => String.eqb m n
  | XMLComment _ => false
  end.

Definition FirstChildElement (x : XMLNode) (n : string) : option XMLNode :=
  match x with
  | XMLElement _ _ cs => find (element_named n) cs
  | XMLComment _ => None
  end.

Fixpoint comments_in (x : XMLNode) : list string :=
  match x with
  | XMLComment t => [t]
  | XMLElement _ _ cs => flat_map comments_in cs
  end.

(** The text of a comment as XML 1.0 allows it (production 15): no two
    hyphens in a row, and no hyphen at the end, right before the
    closing mark. *)
Fixpoint xml_comment_ok (t : string) : bool :=
  match t with
  | EmptyString => true
  | String a r =>
      match r with
      | EmptyString => negb (Ascii.eqb a "-")
      | String b _ =>
          negb (Ascii.eqb a "-" && Ascii.eqb b "-") && xml_comment_ok r
      end
  end.

(** A document under construction is a heap of nodes: a node pointer is
    an index, index 0 is the document itself.  [InsertEndChild] first
    unlinks the child from the parent it has, as tinyxml2 does. *)
Inductive DomKind :=
| DomDocument
| DomElement (name : string)
| DomComment (text : string).

Record DomNode := {
  dom_kind : DomKind;
  dom_attrs : list (string * string);
  dom_parent : option nat;
  dom_children : list nat
}.

Definition XMLDocument := list DomNode.

(** The parent pointer of a cell, and the three ways a cell is
    rewritten when a node is inserted. *)
Definition parent_of (d : list DomNode) (c : nat) : option nat :=
  match nth_error d c with
  | Some n => dom_parent n
  | None => None
  end.

Definition drop_child (c : nat) (n : DomNode) : DomNode :=
  {| dom_kind := dom_kind n; dom_attrs := dom_attrs n;
     dom_parent := dom_parent n;
     dom_children := filter (fun x => negb (Nat.eqb x c)) (dom_children n) |}.

Definition add_child (c : nat) (n : DomNode) : DomNode :=
  {| dom_kind := dom_kind n; dom_attrs := dom_attrs n;
     dom_parent := dom_parent n; dom_children := dom_children n ++ [c] |}.

Definition set_parent (p : nat) (n : DomNode) : DomNode :=
  {| dom_kind := dom_kind n; dom_attrs := dom_attrs n;
     dom_parent := Some p; dom_children := dom_children n |}.

(** The cell at [j] after [InsertEndChild p c], when the parent of [c]
    was [par]. *)
Definition inserted_cell (p c : nat) (par : option nat) (j : nat)
                         (n : DomNode) : DomNode :=
  let n1 := match par with
            | Some q => if Nat.eqb j q then drop_child c n else n
            | None => n
            end in
  let n2 := if Nat.eqb j p then add_child c n1 else n1 in
  if Nat.eqb j c then set_parent p n2 else n2.

Definition new_XMLDocument : XMLDocument :=
  [ {| dom_kind := DomDocument; dom_attrs := []; dom_parent := None;
       dom_children := [] |} ].

Fixpoint dom_update (i : nat) (f : DomNode -> DomNode) (d : XMLDocument)
  : XMLDocument :=
  match d, i with
  | [], _ => []
  | n :: d', O => f n :: d'
  | n :: d', S i' => n :: dom_update i' f d'
  end.

Definition NewElement (name : string) (d : XMLDocument) : XMLDocument * nat :=
  (d ++ [ {| dom_kind := DomElement name; dom_attrs := [];
             dom_parent := None; dom_children := [] |} ], length d).

Definition NewComment (text : string) (d : XMLDocument) : XMLDocument * nat :=
  (d ++ [ {| dom_kind := DomComment text; dom_attrs := [];
             dom_parent := None; dom_children := [] |} ], length d).

Fixpoint set_assoc (k v : string) (l : list (string * string))
  : list (string * string) :=
  match l with
  | [] => [(k, v)]
  | (k', v') :: l' =>
      if String.eqb k' k then (k, v) :: l' else (k', v') :: set_assoc k v l'
  end.

Definition SetAttribute (e : nat) (k v : string) (d : XMLDocument)
  : XMLDocument :=
  dom_update e (fun n => {| dom_kind := dom_kind n;
                            dom_attrs := set_assoc k v (dom_attrs n);
                            dom_parent := dom_parent n;
                            dom_children := dom_children n |}) d.

Definition Unlink (p c : nat) (d : XMLDocument) : XMLDocument :=
  dom_update p (fun n => {| dom_kind := dom_kind n;
                            dom_attrs := dom_attrs n;
                            dom_parent := dom_parent n;
                            dom_children :=
                              filter (fun x => negb (Nat.eqb x c))
                                     (dom_children n) |}) d.

Definition InsertEndChild (p c : nat) (d : XMLDocument) : XMLDocument :=
  let d1 := match nth_error d c with
            | Some n => match dom_parent n with
                        | Some q => Unlink q c d
                        | None => d
                        end
            | None => d
            end in
  let d2 := dom_update p (fun n => {| dom_kind := dom_kind n;
                                      dom_attrs := dom_attrs n;
                                      dom_parent := dom_parent n;
                                      dom_children := dom_children n ++ [c] |})
                       d1 in
  dom_update c (fun n => {| dom_kind := dom_kind n;
                            dom_attrs := dom_attrs n;
                            dom_parent := Some p;
                            dom_children := dom_children n |}) d2.

(** The tree below a heap node, as the printer walks it.  The fuel
    bounds the depth; a finished document is acyclic. *)
Fixpoint dom_tree (fuel : nat) (d : XMLDocument) (i : nat) : option XMLNode :=
  match fuel with
  | O => None
  | S fuel' =>
      match nth_error d i with
      | None => None
      | Some n =>
          match dom_kind n with
          | DomComment t => Some (XMLComment t)
          | DomElement name =>
              Some (XMLElement name (dom_attrs n)
                      (flat_map (fun c => match dom_tree fuel' d c with
                                          | Some x => [x]
                                          | None => []
                                          end) (dom_children n)))
          | DomDocument =>
              Some (XMLElement EmptyString []
                      (flat_map (fun c => match dom_tree fuel' d c with
                                          | Some x => [x]
                                          | None => []
                                          end) (dom_children n)))
          end
      end
  end.

(** ** The interface to the rest of the program *)

(** A scene operation, seen from the window: the scenes at which the
    container emits [undoableChange] while the operation runs, and the
    scene it leaves. *)
Record SceneRun (A : Type) := {
  emitted : list A;
  final : A
}.

(** One entry of [TreeNodesModel]: the category and the declared
    parameters of a node type. *)
Record TreeNodeModel (NT PT : Type) := {
  node_type : NT;
  params : list (QString * PT)
}.

(** Everything [mainwindow.cpp] calls and does not define.  [Node] is a
    [QtNodes::Node*]; [isRootNodeModel] is the
    [dynamic_cast<RootNodeModel*>] on its data model.  The two functions
    that the file calls inside [try] return the exception they throw,
    next to the state they leave behind.  A scene creates its nodes
    from the registry it shares with the window ([createTab] hands
    [_model_registry] to the container), so [CreateTreeInSceneFromXML]
    is given the registry as it is when called.  The other operations
    are taken not to throw.  [XMLDocument_Parse] returns the error code
    (0 is [XML_SUCCESS]) and [RootElement()]. *)
Class External := {
  FlowScene : Type;
  Node : Type;
  AbsBehaviorTree : Type;
  DataModelRegistry : Type;
  NodeType : Type;
  ParamType : Type;
  NodeType_toStr : NodeType -> string;
  ParamType_toStr : ParamType -> string;
  TreeNodesModel := list (QString * TreeNodeModel NodeType ParamType);
  (* QtNodes::FlowScene *)
  new_FlowScene : FlowScene;
  saveToMemory : FlowScene -> QByteArray;
  loadFromMemory : QByteArray -> FlowScene -> SceneRun FlowScene;
  clearScene : FlowScene -> SceneRun FlowScene;
  layout : FlowScene -> PortLayout;
  setLayout : PortLayout -> FlowScene -> FlowScene;
  (* utils.h *)
  findRoots : FlowScene -> list Node;
  getChildren : FlowScene -> Node -> list Node;
  isRootNodeModel : FlowScene -> Node -> bool;
  BuildBehaviorTreeFromScene : FlowScene -> AbsBehaviorTree;
  BuildSceneFromBehaviorTree :
    FlowScene -> AbsBehaviorTree -> SceneRun FlowScene;
  NodeReorder : FlowScene -> AbsBehaviorTree -> SceneRun FlowScene;
  (* GraphicContainer *)
  nodeReorder : FlowScene -> SceneRun FlowScene;
  (* XML_utilities.hpp *)
  ReadTreeNodesModel :
    option XMLNode -> DataModelRegistry -> TreeNodesModel ->
    DataModelRegistry * TreeNodesModel * option exn;
  CreateTreeInSceneFromXML :
    option XMLNode -> DataModelRegistry -> FlowScene ->
    SceneRun FlowScene * option exn;
  RecursivelyCreateXml :
    FlowScene -> XMLDocument -> nat -> Node -> XMLDocument;
  (* tinyxml2 *)
  XMLDocument_Parse : string -> nat -> nat * option XMLNode;
  XMLPrinter_CStr : XMLDocument -> string;
  (* Qt *)
  new_DataModelRegistry : DataModelRegistry;
  toStdString : QString -> string;
  absolutePath : QString -> QString
}.

Section Window.

Context {E : External}.

(** ** The window *)

Record GraphicContainer := {
  scene : FlowScene;
  signalsBlocked : bool;
  locked : bool
}.

Record Ui := {
  toolButtonLayout_enabled : bool;
  toolButtonReorder_enabled : bool;
  actionSave_enabled : bool;
  labelSemaphore_pixmap : string;
  labelSemaphore_toolTip : string;
  toolButtonLayout_icon : string
}.

(** What the window writes outside itself: the event log, the files
    (latest write first) and the one setting [on_actionSave_triggered]
    stores. *)
Record World := {
  events : list Event;
  files : list (QString * string);
  lastSaveDirectory : QString
}.

(** The members of [MainWindow].  The two stacks are lists whose head is
    [back()]: [push_back] is cons, [pop_back] is tail.  [_tab_info] is
    kept in key order around the tab that [currentTabInfo()] returns. *)
Record MainWindow := {
  _current_mode : GraphicMode;
  _current_layout : PortLayout;
  _undo_enabled : bool;
  _undo_stack : list QByteArray;
  _redo_stack : list QByteArray;
  _current_state : QByteArray;
  _model_registry : DataModelRegistry;
  _tree_nodes_model : TreeNodesModel;
  tabs_before : list GraphicContainer;
  currentTabInfo : GraphicContainer;
  tabs_after : list GraphicContainer;
  ui : Ui;
  world : World
}.

Definition set_current_mode (v : GraphicMode) (s : MainWindow) : MainWindow :=
  {| _current_mode := v; _current_layout := _current_layout s;
     _undo_enabled := _undo_enabled s; _undo_stack := _undo_stack s;
     _redo_stack := _redo_stack s; _current_state := _current_state s;
     _model_registry := _model_registry s;
     _tree_nodes_model := _tree_nodes_model s;
     tabs_before := tabs_before s; currentTabInfo := currentTabInfo s;
     tabs_after := tabs_after s; ui := ui s; world := world s |}.

Definition set_current_layout (v : PortLayout) (s : MainWindow) : MainWindow :=
  {| _current_mode := _current_mode s; _current_layout := v;
     _undo_enabled := _undo_enabled s; _undo_stack := _undo_stack s;
     _redo_stack := _redo_stack s; _current_state := _current_state s;
     _model_registry := _model_registry s;
     _tree_nodes_model := _tree_nodes_model s;
     tabs_before := tabs_before s; currentTabInfo := currentTabInfo s;
     tabs_after := tabs_after s; ui := ui s; world := world s |}.

Definition set_undo_enabled (v : bool) (s : MainWindow) : MainWindow :=
  {| _current_mode := _current_mode s; _current_layout := _current_layout s;
     _undo_enabled := v; _undo_stack := _undo_stack s;
     _redo_stack := _redo_stack s; _current_state := _current_state s;
     _model_registry := _model_registry s;
     _tree_nodes_model := _tree_nodes_model s;
     tabs_before := tabs_before s; currentTabInfo := currentTabInfo s;
     tabs_after := tabs_after s; ui := ui s; world := world s |}.

(** The three members of the snapshot store change together. *)
Definition set_history (u r : list QByteArray) (c : QByteArray)
                       (s : MainWindow) : MainWindow :=
  {| _current_mode := _current_mode s; _current_layout := _current_layout s;
     _undo_enabled := _undo_enabled s; _undo_stack := u;
     _redo_stack := r; _current_state := c;
     _model_registry := _model_registry s;
     _tree_nodes_model := _tree_nodes_model s;
     tabs_before := tabs_before s; currentTabInfo := currentTabInfo s;
     tabs_after := tabs_after s; ui := ui s; world := world s |}.

Definition set_models (g : DataModelRegistry) (m : TreeNodesModel)
                      (s : MainWindow) : MainWindow :=
  {| _current_mode := _current_mode s; _current_layout := _current_layout s;
     _undo_enabled := _undo_enabled s; _undo_stack := _undo_stack s;
     _redo_stack := _redo_stack s; _current_state := _current_state s;
     _model_registry := g; _tree_nodes_model := m;
     tabs_before := tabs_before s; currentTabInfo := currentTabInfo s;
     tabs_after := tabs_after s; ui := ui s; world := world s |}.

Definition set_tabs (b : list GraphicContainer) (c : GraphicContainer)
                    (a : list GraphicContainer) (s : MainWindow)
  : MainWindow :=
  {| _current_mode := _current_mode s; _current_layout := _current_layout s;
     _undo_enabled := _undo_enabled s; _undo_stack := _undo_stack s;
     _redo_stack := _redo_stack s; _current_state := _current_state s;
     _model_registry := _model_registry s;
     _tree_nodes_model := _tree_nodes_model s;
     tabs_before := b; currentTabInfo := c; tabs_after := a;
     ui := ui s; world := world s |}.

Definition set_ui (v : Ui) (s : MainWindow) : MainWindow :=
  {| _current_mode := _current_mode s; _current_layout := _current_layout s;
     _undo_enabled := _undo_enabled s; _undo_stack := _undo_stack s;
     _redo_stack := _redo_stack s; _current_state := _current_state s;
     _model_registry := _model_registry s;
     _tree_nodes_model := _tree_nodes_model s;
     tabs_before := tabs_before s; currentTabInfo := currentTabInfo s;
     tabs_after := tabs_after s; ui := v; world := world s |}.

Definition set_world (v : World) (s : MainWindow) : MainWindow :=
  {| _current_mode := _current_mode s; _current_layout := _current_layout s;
     _undo_enabled := _undo_enabled s; _undo_stack := _undo_stack s;
     _redo_stack := _redo_stack s; _current_state := _current_state s;
     _model_registry := _model_registry s;
     _tree_nodes_model := _tree_nodes_model s;
     tabs_before := tabs_before s; currentTabInfo := currentTabInfo s;
     tabs_after := tabs_after s; ui := ui s; world := v |}.

Definition log (e : Event) (s : MainWindow) : MainWindow :=
  set_world {| events := e :: events (world s);
               files := files (world s);
               lastSaveDirectory := lastSaveDirectory (world s) |} s.

(** ** Tabs, signals and blockers *)

(** A position in [_tab_info], in iteration order. *)
Inductive TabPos :=
| TabBefore (i : nat)
| TabCurrent
| TabAfter (i : nat).

Definition tab_at (p : TabPos) (s : MainWindow) : option GraphicContainer :=
  match p with
  | TabBefore i => nth_error (tabs_before s) i
  | TabCurrent => Some (currentTabInfo s)
  | TabAfter i => nth_error (tabs_after s) i
  end.

Fixpoint list_set (A : Type) (i : nat) (x : A) (l : list A) : list A :=
  match l, i with
  | [], _ => []
  | _ :: l', O => x :: l'
  | y :: l', S i' => y :: list_set i' x l'
  end.

Definition set_tab (p : TabPos) (c : GraphicContainer) (s : MainWindow)
  : MainWindow :=
  match p with
  | TabBefore i =>
      set_tabs (list_set i c (tabs_before s)) (currentTabInfo s)
               (tabs_after s) s
  | TabCurrent => set_tabs (tabs_before s) c (tabs_after s) s
  | TabAfter i =>
      set_tabs (tabs_before s) (currentTabInfo s)
               (list_set i c (tabs_after s)) s
  end.

Definition set_scene (p : TabPos) (sc : FlowScene) (s : MainWindow)
  : MainWindow :=
  match tab_at p s with
  | Some c => set_tab p {| scene := sc; signalsBlocked := signalsBlocked c;
                           locked := locked c |} s
  | None => s
  end.

Definition all_tabs (s : MainWindow) : list TabPos :=
  map TabBefore (seq 0 (length (tabs_before s)))
  ++ TabCurrent :: map TabAfter (seq 0 (length (tabs_after s))).

(** [blockSignals] on [currentTabInfo()].  A [QSignalBlocker] calls it
    with [true] and, when it goes out of scope, with the value it found. *)
Definition blockSignals (b : bool) (s : MainWindow) : MainWindow :=
  set_tab TabCurrent {| scene := scene (currentTabInfo s);
                        signalsBlocked := b;
                        locked := locked (currentTabInfo s) |} s.

Definition set_locked (v : bool) (c : GraphicContainer) : GraphicContainer :=
  {| scene := scene c; signalsBlocked := signalsBlocked c; locked := v |}.

Definition lockEditing (v : bool) (s : MainWindow) : MainWindow :=
  set_tabs (map (set_locked v) (tabs_before s))
           (set_locked v (currentTabInfo s))
           (map (set_locked v) (tabs_after s)) s.

(** ** The snapshot store *)

(** [scene()->update()] only schedules a repaint and is left out.  The
    blocker of this slot is released at the end of the function, after
    the [qDebug] line. *)
Definition onPushUndo (s : MainWindow) : MainWindow :=
  if negb (_undo_enabled s) then s
  else
    let was := signalsBlocked (currentTabInfo s) in
    let s1 := set_undo_enabled false (blockSignals true s) in
    let state := saveToMemory (scene (currentTabInfo s1)) in
    let push :=
      match _undo_stack s1 with
      | [] => true
      | back :: _ =>
          negb (String.eqb state (_current_state s1))
          && negb (String.eqb back (_current_state s1))
      end in
    let s2 := if push
              then set_history (_current_state s1 :: _undo_stack s1) []
                               (_current_state s1) s1
              else s1 in
    let s3 := set_history (_undo_stack s2) (_redo_stack s2) state s2 in
    let s4 := set_undo_enabled true s3 in
    let s5 := log (DebugSizes "P" (length (_undo_stack s4))
                              (length (_redo_stack s4))) s4 in
    blockSignals was s5.

(** ** Validity *)

Definition valid_BT (s : MainWindow) : bool :=
  Nat.eqb (length (findRoots (scene (currentTabInfo s)))) 1.

Definition onSceneChanged (s : MainWindow) : MainWindow :=
  let v := valid_BT s in
  set_ui {| toolButtonLayout_enabled := v;
            toolButtonReorder_enabled := v;
            actionSave_enabled := v;
            labelSemaphore_pixmap :=
              if v then ":/icons/green-circle.png"
              else ":/icons/red-circle.png";
            labelSemaphore_toolTip :=
              if v then "Valid Tree" else "NOT a valid Tree";
            toolButtonLayout_icon := toolButtonLayout_icon (ui s) |} s.

(** ** Running a scene operation *)

(** [createTab] connects [undoableChange] to [onPushUndo] and then to
    [onSceneChanged]; a blocked container delivers nothing. *)
Definition emit_undoableChange (p : TabPos) (s : MainWindow) : MainWindow :=
  match tab_at p s with
  | Some c => if signalsBlocked c then s else onSceneChanged (onPushUndo s)
  | None => s
  end.

Definition run (p : TabPos) (r : SceneRun FlowScene) (s : MainWindow)
  : MainWindow :=
  set_scene p (final r)
    (fold_left (fun acc sc => emit_undoableChange p (set_scene p sc acc))
               (emitted r) s).

(** ** Layout *)

(** [zoomHomeView] moves the view, not the document. *)
Definition on_toolButtonCenterView_pressed (s : MainWindow) : MainWindow := s.

Definition relayout_tab (new_layout : PortLayout) (acc : MainWindow * bool)
                        (p : TabPos) : MainWindow * bool :=
  match tab_at p (fst acc) with
  | None => acc
  | Some c =>
      if PortLayout_eqb (layout (scene c)) new_layout then acc
      else
        let abstract_tree := BuildBehaviorTreeFromScene (scene c) in
        let sc := setLayout new_layout (scene c) in
        (run p (NodeReorder sc abstract_tree) (set_scene p sc (fst acc)),
         true)
  end.

Definition refreshNodesLayout (new_layout : PortLayout) (s : MainWindow)
  : MainWindow :=
  let s0 :=
    if PortLayout_eqb new_layout (_current_layout s) then s
    else set_ui {| toolButtonLayout_enabled := toolButtonLayout_enabled (ui s);
                   toolButtonReorder_enabled :=
                     toolButtonReorder_enabled (ui s);
                   actionSave_enabled := actionSave_enabled (ui s);
                   labelSemaphore_pixmap := labelSemaphore_pixmap (ui s);
                   labelSemaphore_toolTip := labelSemaphore_toolTip (ui s);
                   toolButtonLayout_icon :=
                     match new_layout with
                     | Horizontal => ":/icons/BT-horizontal.png"
                     | Vertical => ":/icons/BT-vertical.png"
                     end |} s in
  let was := signalsBlocked (currentTabInfo s0) in
  let looped := fold_left (relayout_tab new_layout) (all_tabs s0)
                          (blockSignals true s0, false) in
  let s1 := on_toolButtonCenterView_pressed (fst looped) in
  let s2 := blockSignals was s1 in
  let s3 := set_current_layout new_layout s2 in
  if snd looped then onPushUndo s3 else s3.

Definition on_toolButtonLayout_clicked (s : MainWindow) : MainWindow :=
  match _current_layout s with
  | Horizontal => refreshNodesLayout Vertical s
  | Vertical => refreshNodesLayout Horizontal s
  end.

(** ** Restore, undo and redo *)

Definition loadSceneFromYAML (state : QByteArray) (s : MainWindow)
  : MainWindow :=
  let was := signalsBlocked (currentTabInfo s) in
  let s1 := set_undo_enabled false (blockSignals true s) in
  let s2 := run TabCurrent (clearScene (scene (currentTabInfo s1))) s1 in
  let s3 := run TabCurrent
                (loadFromMemory state (scene (currentTabInfo s2))) s2 in
  let s4 := refreshNodesLayout (layout (scene (currentTabInfo s3))) s3 in
  let s5 := set_undo_enabled true s4 in
  onSceneChanged (blockSignals was s5).

Definition onUndoInvoked (s : MainWindow) : MainWindow :=
  if negb (GraphicMode_eqb (_current_mode s) EDITOR) then s
  else
    match _undo_stack s with
    | [] => s
    | back :: rest =>
        let s1 := set_history rest (_current_state s :: _redo_stack s)
                              back s in
        let s2 := loadSceneFromYAML (_current_state s1) s1 in
        log (DebugSizes "U" (length (_undo_stack s2))
                        (length (_redo_stack s2))) s2
    end.

Definition onRedoInvoked (s : MainWindow) : MainWindow :=
  if negb (GraphicMode_eqb (_current_mode s) EDITOR) then s
  else
    match _redo_stack s with
    | [] => s
    | back :: rest =>
        let s1 := set_history (_current_state s :: _undo_stack s) rest
                              back s in
        let s2 := loadSceneFromYAML (_current_state s1) s1 in
        log (DebugSizes "R" (length (_undo_stack s2))
                        (length (_redo_stack s2))) s2
    end.

(** ** A tree delivered by the monitor or the replay panel *)

Definition on_loadBehaviorTree (tree : AbsBehaviorTree) (s : MainWindow)
  : MainWindow :=
  let was := signalsBlocked (currentTabInfo s) in
  let s1 := blockSignals true s in
  let s2 := run TabCurrent (clearScene (scene (currentTabInfo s1))) s1 in
  let s3 := run TabCurrent
                (BuildSceneFromBehaviorTree (scene (currentTabInfo s2)) tree)
                s2 in
  let s4 := onSceneChanged s3 in
  let s5 := run TabCurrent (nodeReorder (scene (currentTabInfo s4))) s4 in
  let s6 := lockEditing (negb (GraphicMode_eqb (_current_mode s5) EDITOR)) s5 in
  let s7 := blockSignals was s6 in
  onPushUndo (set_history [] [] (_current_state s7) s7).

(** ** Load from XML *)

(** How a slot ends: it returns, an exception leaves it, or it
    dereferences the null [RootElement()]. *)
Inductive Outcome :=
| Returned (s : MainWindow)
| Escaped (e : exn) (s : MainWindow)
| NullDereference.

Definition nl : string := String "010"%char EmptyString.

Definition parse_failure_text (err_message : string) : string :=
  String.append "It was not possible to parse the file. Error:"
                (String.append nl (String.append nl err_message)).

(** The scene is cleared and rebuilt under blockers (lines 157-172);
    the second component is what [CreateTreeInSceneFromXML] threw, if
    anything ([nodeReorder] is taken not to throw). *)
Definition rebuild_from_XML (root : XMLNode) (s : MainWindow)
  : MainWindow * option exn :=
  let was := signalsBlocked (currentTabInfo s) in
  let s1 := log (Cout "Starting parsing") (blockSignals true s) in
  let built := CreateTreeInSceneFromXML
                 (FirstChildElement root "BehaviorTree")
                 (_model_registry s1)
                 (scene (currentTabInfo s1)) in
  let s2 := run TabCurrent (fst built) s1 in
  let s3 := match snd built with
            | Some _ => s2
            | None =>
                let s' := log (Cout "XML Parsed Successfully!") s2 in
                run TabCurrent (nodeReorder (scene (currentTabInfo s'))) s'
            end in
  (blockSignals was s3, snd built).

Definition clear_for_load (s : MainWindow) : MainWindow :=
  let was := signalsBlocked (currentTabInfo s) in
  let s1 := blockSignals true s in
  blockSignals was
    (run TabCurrent (clearScene (scene (currentTabInfo s1))) s1).

(** [xml_text.size()] counts UTF-16 units while the parsed buffer is the
    UTF-8 [toStdString()]; both are passed on as the code passes them.
    [_editor_widget->updateTreeView()] redraws a side panel. *)
Definition loadFromXML (xml_text : QString) (s : MainWindow) : Outcome :=
  let parsed := XMLDocument_Parse (toStdString xml_text)
                                  (String.length xml_text) in
  let lock := fun t : MainWindow =>
    lockEditing (negb (GraphicMode_eqb (_current_mode t) EDITOR)) t in
  match fst parsed with
  | S _ => Returned (lock s)
  | O =>
      match ReadTreeNodesModel (snd parsed) (_model_registry s)
                               (_tree_nodes_model s) with
      | (g, m, Some (runtime_error w)) =>
          Returned (log (MsgCritical "Error" w) (set_models g m s))
      | (g, m, Some e) => Escaped e (set_models g m s)
      | (g, m, None) =>
          let s1 := clear_for_load (set_models g m s) in
          let saved_state := _current_state s1 in
          match snd parsed with
          | None => NullDereference
          | Some root =>
              let rebuilt := rebuild_from_XML root s1 in
              match snd rebuilt with
              | Some err =>
                  let s2 := loadSceneFromYAML saved_state (fst rebuilt) in
                  let s3 := log (DebugSizes "R" (length (_undo_stack s2))
                                            (length (_redo_stack s2))) s2 in
                  Returned
                    (lock (log (MsgWarning "Exception!"
                                  (parse_failure_text (what err))) s3))
              | None =>
                  Returned (lock (onPushUndo (onSceneChanged (fst rebuilt))))
              end
          end
      end
  end.

(** ** Save to XML *)

Definition dashes : string := "-----------------------------------".

(** Lines 284-307.  [param_node->InsertEndChild(root_models)] moves
    [root_models] below each [Parameter] in turn; the last
    [InsertEndChild] of [on_actionSave_triggered] unlinks it again. *)
Definition save_params (node root_models : nat)
                       (ps : list (QString * ParamType)) (d : XMLDocument)
  : XMLDocument :=
  fold_left
    (fun d it =>
       let created := NewElement "Parameter" d in
       let param_node := snd created in
       let d1 := InsertEndChild param_node root_models (fst created) in
       let d2 := SetAttribute param_node "label" (toStdString (fst it)) d1 in
       let d3 := SetAttribute param_node "type" (ParamType_toStr (snd it)) d2 in
       InsertEndChild node param_node d3)
    ps d.

Definition save_models (root_models : nat) (models : TreeNodesModel)
                       (d : XMLDocument) : XMLDocument :=
  fold_left
    (fun d it =>
       let created := NewElement (NodeType_toStr (node_type (snd it))) d in
       let node := snd created in
       let d1 := SetAttribute node "ID" (toStdString (fst it)) (fst created) in
       let d2 := save_params node root_models (params (snd it)) d1 in
       InsertEndChild root_models node d2)
    models d.

Definition build_save_document (sc : FlowScene) (current_node : Node)
                               (models : TreeNodesModel) : XMLDocument :=
  let r := NewElement "root" new_XMLDocument in
  let root := snd r in
  let d1 := InsertEndChild 0 root (fst r) in
  let c1 := NewComment dashes d1 in
  let d2 := InsertEndChild root (snd c1) (fst c1) in
  let t := NewElement "BehaviorTree" d2 in
  let root_tree := snd t in
  let d3 := InsertEndChild root root_tree (fst t) in
  let d4 := RecursivelyCreateXml sc d3 root_tree current_node in
  let c2 := NewComment dashes d4 in
  let d5 := InsertEndChild root (snd c2) (fst c2) in
  let m := NewElement "TreeNodesModel" d5 in
  let root_models := snd m in
  let d6 := save_models root_models models (fst m) in
  let d7 := InsertEndChild root root_models d6 in
  let c3 := NewComment dashes d7 in
  InsertEndChild root (snd c3) (fst c3).

(** The node to save below [BehaviorTree]: the only child of the only
    root, when that root is a [RootNodeModel]. *)
Definition save_entry (sc : FlowScene) : option Node :=
  let roots := findRoots sc in
  let valid_root :=
    Nat.eqb (length roots) 1
    && match roots with
       | front :: _ => isRootNodeModel sc front
       | [] => false
       end in
  if valid_root
  then match roots with
       | front :: _ =>
           match getChildren sc front with
           | [child] => Some child
           | _ => None
           end
       | [] => None
       end
  else None.

Definition write_file (name : QString) (text : string) (s : MainWindow)
  : MainWindow :=
  set_world {| events := events (world s);
               files := (name, text) :: files (world s);
               lastSaveDirectory := lastSaveDirectory (world s) |} s.

Definition set_lastSaveDirectory (dir : QString) (s : MainWindow)
  : MainWindow :=
  set_world {| events := events (world s);
               files := files (world s);
               lastSaveDirectory := dir |} s.

(** The save dialog and the file system answer from outside:
    [accepted] and [selectedFiles] are the dialog's result, [opens] is
    whether [file.open(WriteOnly)] succeeds. *)
Definition on_actionSave_triggered (accepted : bool)
                                   (selectedFiles : list QString)
                                   (opens : bool) (s : MainWindow)
  : MainWindow :=
  let sc := scene (currentTabInfo s) in
  match save_entry sc with
  | None =>
      log (MsgWarning "Oops!"
             "Malformed behavior tree. There must be only 1 root node") s
  | Some current_node =>
      let doc := build_save_document sc current_node (_tree_nodes_model s) in
      let fileName :=
        if accepted && Nat.eqb (length selectedFiles) 1
        then nth 0 selectedFiles EmptyString
        else EmptyString in
      if String.eqb fileName EmptyString then s
      else
        let s1 := if opens
                  then write_file fileName
                         (String.append (XMLPrinter_CStr doc) nl) s
                  else s in
        set_lastSaveDirectory (absolutePath fileName) s1
  end.

(** ** Modes and construction *)

Definition on_actionEditor_Mode_triggered (s : MainWindow) : MainWindow :=
  set_current_mode EDITOR s.

Definition on_actionMonitor_mode_triggered (s : MainWindow) : MainWindow :=
  set_current_mode MONITOR s.

Definition on_actionReplay_mode_triggered (s : MainWindow) : MainWindow :=
  set_current_mode REPLAY s.

(** The constructor: both branches on the stored layout choose
    [Horizontal]; one tab is created; [_current_state] starts as the
    empty byte array; [onSceneChanged] runs last. *)
Definition new_MainWindow (initial_mode : GraphicMode) : MainWindow :=
  onSceneChanged
    {| _current_mode := initial_mode;
       _current_layout := Horizontal;
       _undo_enabled := true;
       _undo_stack := [];
       _redo_stack := [];
       _current_state := EmptyString;
       _model_registry := new_DataModelRegistry;
       _tree_nodes_model := [];
       tabs_before := [];
       currentTabInfo := {| scene := setLayout Horizontal new_FlowScene;
                            signalsBlocked := false;
                            locked := false |};
       tabs_after := [];
       ui := {| toolButtonLayout_enabled := false;
                toolButtonReorder_enabled := false;
                actionSave_enabled := false;
                labelSemaphore_pixmap := EmptyString;
                labelSemaphore_toolTip := EmptyString;
                toolButtonLayout_icon := EmptyString |};
       world := {| events := []; files := [];
                   lastSaveDirectory := EmptyString |} |}.

(** A change made by the user on the canvas: the scene of the current
    tab becomes [sc] and its container emits [undoableChange]. *)
Definition user_edit (sc : FlowScene) (s : MainWindow) : MainWindow :=
  run TabCurrent {| emitted := [sc]; final := sc |} s.

(** ** Observations used in the statements *)

(** How many times [onPushUndo] ran past its guard: it prints one "P"
    line each time. *)
Definition pushes (s : MainWindow) : nat :=
  length (filter is_push_line (events (world s))).

(** The snapshot store is the same in [s] and [s']. *)
Definition same_store (s s' : MainWindow) : Prop :=
  _undo_stack s' = _undo_stack s
  /\ _redo_stack s' = _redo_stack s
  /\ _current_state s' = _current_state s.

(** [s'] is [s] as far as the history goes: same store, same mode, no
    new "P" line, the undo switch where it was; and the node models are
    the same. *)
Definition same_history (s s' : MainWindow) : Prop :=
  same_store s s'
  /\ _current_mode s' = _current_mode s
  /\ _undo_enabled s' = _undo_enabled s
  /\ pushes s' = pushes s
  /\ _tree_nodes_model s' = _tree_nodes_model s
  /\ _model_registry s' = _model_registry s.

(** The rule of [push_if_changed] in the words of the specification:
    push when the fresh snapshot differs from [current_state] and from
    the top of the undo stack. *)
Definition spec_push_rule (s : MainWindow) : bool :=
  let state := saveToMemory (scene (currentTabInfo s)) in
  negb (String.eqb state (_current_state s))
  && match _undo_stack s with
     | [] => true
     | back :: _ => negb (String.eqb state back)
     end.

(** The rule of the code. *)
Definition push_rule (s : MainWindow) : bool :=
  let state := saveToMemory (scene (currentTabInfo s)) in
  match _undo_stack s with
  | [] => true
  | back :: _ =>
      negb (String.eqb state (_current_state s))
      && negb (String.eqb back (_current_state s))
  end.

(** The condition under which [on_actionSave_triggered] goes on to
    write: one root, a [RootNodeModel], with one child. *)
Definition strict_valid (sc : FlowScene) : bool :=
  match findRoots sc with
  | [r] => isRootNodeModel sc r && Nat.eqb (length (getChildren sc r)) 1
  | _ => false
  end.

Definition save_check_ok (s : MainWindow) : Prop :=
  actionSave_enabled (ui s) = valid_BT s.

Definition messages (s : MainWindow) : list Event :=
  filter is_message (events (world s)).

(** The snapshot store by itself, and undo and redo as they act on
    it: no-op on an empty stack, otherwise the current state moves to
    the other stack and the popped snapshot becomes current. *)
Definition Store : Type := list QByteArray * list QByteArray * QByteArray.

Definition store_of (s : MainWindow) : Store :=
  (_undo_stack s, _redo_stack s, _current_state s).

Definition undo_store (st : Store) : Store :=
  match st with
  | ([], _, _) => st
  | (back :: rest, r, c) => (rest, c :: r, back)
  end.

Definition redo_store (st : Store) : Store :=
  match st with
  | (_, [], _) => st
  | (u, back :: rest, c) => (c :: u, rest, back)
  end.

(** A container with its scene replaced. *)
Definition with_scene (sc : FlowScene) (c : GraphicContainer)
  : GraphicContainer :=
  {| scene := sc; signalsBlocked := signalsBlocked c; locked := locked c |}.

(** The tabs other than the current one. *)
Definition background (p : TabPos) : bool :=
  match p with TabCurrent => false | _ => true end.

(** The window a slot returned, when it returned. *)
Definition returned (o : Outcome) : option MainWindow :=
  match o with
  | Returned s => Some s
  | _ => None
  end.

(** The scene [sc] was rebuilt from the snapshot [b]: cleared, then
    loaded from [b]. *)
Definition restored_from (b : QByteArray) (sc : FlowScene) : Prop :=
  exists old : FlowScene,
    sc = final (loadFromMemory b (final (clearScene old))).

(** The live scene of [s] is the one rebuilt from its current state. *)
Definition restored (s : MainWindow) : Prop :=
  restored_from (_current_state s) (scene (currentTabInfo s)).

(** [n] edits, each followed by the push its signal triggers. *)
Definition after_edits (edits : list FlowScene) (s : MainWindow)
  : MainWindow :=
  fold_left (fun acc sc => user_edit sc acc) edits s.

(** Each edit changes the snapshot: no snapshot in the chain equals the
    one before it, starting from [c]. *)
Fixpoint each_changes (c : QByteArray) (l : list QByteArray) : bool :=
  match l with
  | [] => true
  | x :: l' => negb (String.eqb x c) && each_changes x l'
  end.

Definition other_layout (l : PortLayout) : PortLayout :=
  match l with Horizontal => Vertical | Vertical => Horizontal end.

Definition differs (new_layout : PortLayout) (c : GraphicContainer) : bool :=
  negb (PortLayout_eqb (layout (scene c)) new_layout).

(** Some open document has a layout other than [new_layout]. *)
Definition any_differs (new_layout : PortLayout) (s : MainWindow) : bool :=
  existsb (differs new_layout)
          (tabs_before s ++ currentTabInfo s :: tabs_after s).

(** A document after the toggle: laid out again under [new_layout] when
    its layout differed, untouched otherwise. *)
Definition relaid_scene (new_layout : PortLayout) (sc : FlowScene)
  : FlowScene :=
  if PortLayout_eqb (layout sc) new_layout then sc
  else final (NodeReorder (setLayout new_layout sc)
                          (BuildBehaviorTreeFromScene sc)).

Definition relaid (new_layout : PortLayout) (c : GraphicContainer)
  : GraphicContainer :=
  {| scene := relaid_scene new_layout (scene c);
     signalsBlocked := signalsBlocked c;
     locked := locked c |}.

(** Laying out a tab that is not the current one reaches no slot: the
    container is blocked or [NodeReorder] emits nothing there. *)
Definition quiet_tab (new_layout : PortLayout) (c : GraphicContainer) : Prop :=
  differs new_layout c = true ->
  signalsBlocked c = true
  \/ emitted (NodeReorder (setLayout new_layout (scene c))
                          (BuildBehaviorTreeFromScene (scene c))) = [].

Definition background_quiet (new_layout : PortLayout) (s : MainWindow)
  : Prop :=
  Forall (quiet_tab new_layout) (tabs_before s)
  /\ Forall (quiet_tab new_layout) (tabs_after s).

End Window.

(** * The remaining slots

    The slots of [mainwindow.cpp] that act on the document, the
    settings or the files and are not part of the sections above. *)

Section MoreSlots.

Context {E : External}.

(** ** Arrange *)

(** [nodeReorder] runs with no blocker: what it emits reaches the
    slots. *)
Definition on_actionAuto_arrange_triggered (s : MainWindow) : MainWindow :=
  run TabCurrent (nodeReorder (scene (currentTabInfo s))) s.

Definition on_toolButtonReorder_pressed (s : MainWindow) : MainWindow :=
  on_actionAuto_arrange_triggered s.

(** ** Settings *)

Definition settings_value (key : string) (settings : list (string * string))
  : QString :=
  match find (fun kv => String.eqb (fst kv) key) settings with
  | Some kv => snd kv
  | None => EmptyString
  end.

(** [closeEvent] stores the geometry, the window state (both opaque
    here) and the orientation. *)
Definition closeEvent (geometry windowState : QByteArray) (s : MainWindow)
  : list (string * string) :=
  [("MainWindow/geometry", geometry);
   ("MainWindow/windowState", windowState);
   ("MainWindow/layout",
    match _current_layout s with
    | Horizontal => "HORIZONTAL"
    | Vertical => "VERTICAL"
    end)].

(** Lines 51-59: the orientation the constructor takes from the stored
    string. *)
Definition initial_layout (layout : QString) : PortLayout :=
  if String.eqb layout "HORIZONTAL" then Horizontal else Horizontal.

(** The constructor, reading the settings it is given. *)
Definition MainWindow_from_settings (settings : list (string * string))
                                    (initial_mode : GraphicMode)
  : MainWindow :=
  let l := initial_layout (settings_value "MainWindow/layout" settings) in
  onSceneChanged
    {| _current_mode := initial_mode;
       _current_layout := l;
       _undo_enabled := true;
       _undo_stack := [];
       _redo_stack := [];
       _current_state := EmptyString;
       _model_registry := new_DataModelRegistry;
       _tree_nodes_model := [];
       tabs_before := [];
       currentTabInfo := {| scene := setLayout l new_FlowScene;
                            signalsBlocked := false;
                            locked := false |};
       tabs_after := [];
       ui := {| toolButtonLayout_enabled := false;
                toolButtonReorder_enabled := false;
                actionSave_enabled := false;
                labelSemaphore_pixmap := EmptyString;
                labelSemaphore_toolTip := EmptyString;
                toolButtonLayout_icon := EmptyString |};
       world := {| events := []; files := [];
                   lastSaveDirectory := EmptyString |} |}.

(** ** Load from a file *)

Definition LF : ascii := "010"%char.
Definition CR : ascii := "013"%char.

(** [QTextStream::readLine]: the text up to the next line feed, without
    the line feed and without a carriage return right before it; and
    what is left of the stream. *)
Fixpoint readLine (s : string) : string * string :=
  match s with
  | EmptyString => (EmptyString, EmptyString)
  | String c r =>
      if Ascii.eqb c LF then (EmptyString, r)
      else
        match r with
        | String c' r' =>
            if Ascii.eqb c CR && Ascii.eqb c' LF then (EmptyString, r')
            else let rest := readLine r in (String c (fst rest), snd rest)
        | EmptyString => (String c EmptyString, EmptyString)
        end
  end.

(** [while (!in.atEnd()) xml_text += in.readLine();] with the number of
    rounds bounded by [fuel]. *)
Fixpoint read_lines (fuel : nat) (s : string) : string :=
  match fuel with
  | O => EmptyString
  | S fuel' =>
      match s with
      | EmptyString => EmptyString
      | _ => let line := readLine s in
             String.append (fst line) (read_lines fuel' (snd line))
      end
  end.

Definition read_all (content : string) : string :=
  read_lines (String.length content) content.

Definition file_content (name : QString) (fs : list (QString * string))
  : option string :=
  match find (fun f => String.eqb (fst f) name) fs with
  | Some f => Some (snd f)
  | None => None
  end.

(** The file dialog answers [fileName] (empty when cancelled, and no
    file has the empty name) and [opens] tells whether
    [file.open(ReadOnly)] succeeds.  Next to the outcome, the value
    stored as [MainWindow.lastLoadDirectory], when one is stored. *)
Definition on_actionLoad_triggered (fileName : QString) (opens : bool)
                                   (s : MainWindow)
  : Outcome * option QString :=
  if String.eqb fileName EmptyString then (Returned s, None)
  else
    match file_content fileName (files (world s)) with
    | None => (Returned s, None)
    | Some content =>
        if opens
        then (loadFromXML (read_all content) s, Some (absolutePath fileName))
        else (Returned s, None)
    end.

(** A text without line feed and carriage return. *)
Fixpoint no_line_end (s : string) : bool :=
  match s with
  | EmptyString => true
  | String c r =>
      negb (Ascii.eqb c LF) && negb (Ascii.eqb c CR) && no_line_end r
  end.

(** The content of a file of lines, each ended by [eol]. *)
Fixpoint unlines (eol : string) (ls : list string) : string :=
  match ls with
  | [] => EmptyString
  | l :: r => String.append l (String.append eol (unlines eol r))
  end.

(** ** The splitter *)

(** An [int], with the wrap-around of 32 bits. *)
Definition int_wrap (x : Z) : Z :=
  ((x + 2147483648) mod 4294967296 - 2147483648)%Z.

(** [on_splitter_splitterMoved]: the sizes the splitter has afterwards,
    or nothing when the list has no second entry to index. *)
Definition on_splitter_splitterMoved (sizes : list Z) (maxLeftWidth : Z)
  : option (list Z) :=
  match sizes with
  | s0 :: s1 :: rest =>
      let totalWidth := int_wrap (s0 + s1) in
      if (maxLeftWidth <? s0)%Z
      then Some (maxLeftWidth :: int_wrap (totalWidth - maxLeftWidth) :: rest)
      else Some sizes
  | _ => None
  end.

(** ** The widgets of the modes *)

(** What [updateCurrentMode] writes: which side panels and buttons are
    hidden, and how many connections lead from the click of
    [toolButtonLoadFile] to [MainWindow::on_actionLoad_triggered] and
    to [SidepanelReplay::on_LoadLog].  [connect] adds a connection
    each time it is called and the slot runs once for each;
    [disconnect] removes every connection between the two ends. *)
Record ModePanel := {
  editor_widget_hidden : bool;
  replay_widget_hidden : bool;
  monitor_widget_hidden : bool;
  toolButtonLoadFile_hidden : bool;
  toolButtonConnect_hidden : bool;
  toolButtonLoadRemote_hidden : bool;
  toolButtonSaveFile_hidden : bool;
  loadFile_to_on_actionLoad : nat;
  loadFile_to_on_LoadLog : nat
}.

Definition updateCurrentMode (mode : GraphicMode) (p : ModePanel)
  : ModePanel :=
  {| editor_widget_hidden := negb (GraphicMode_eqb mode EDITOR);
     replay_widget_hidden := negb (GraphicMode_eqb mode REPLAY);
     monitor_widget_hidden := negb (GraphicMode_eqb mode MONITOR);
     toolButtonLoadFile_hidden := GraphicMode_eqb mode MONITOR;
     toolButtonConnect_hidden := negb (GraphicMode_eqb mode MONITOR);
     toolButtonLoadRemote_hidden := negb (GraphicMode_eqb mode EDITOR);
     toolButtonSaveFile_hidden := negb (GraphicMode_eqb mode EDITOR);
     loadFile_to_on_actionLoad :=
       match mode with
       | EDITOR => S (loadFile_to_on_actionLoad p)
       | REPLAY => 0
       | MONITOR => loadFile_to_on_actionLoad p
       end;
     loadFile_to_on_LoadLog :=
       match mode with
       | EDITOR => 0
       | REPLAY => S (loadFile_to_on_LoadLog p)
       | MONITOR => loadFile_to_on_LoadLog p
       end |}.

(** The three mode actions, with the panel: each sets [_current_mode]
    and calls [updateCurrentMode]. *)
Definition mode_action (m : GraphicMode) (sp : MainWindow * ModePanel)
  : MainWindow * ModePanel :=
  let s := match m with
           | EDITOR => on_actionEditor_Mode_triggered (fst sp)
           | MONITOR => on_actionMonitor_mode_triggered (fst sp)
           | REPLAY => on_actionReplay_mode_triggered (fst sp)
           end in
  (s, updateCurrentMode (_current_mode s) (snd sp)).

(** The side panels that are shown. *)
Definition shown_panels (p : ModePanel) : list GraphicMode :=
  (if editor_widget_hidden p then [] else [EDITOR])
  ++ (if monitor_widget_hidden p then [] else [MONITOR])
  ++ (if replay_widget_hidden p then [] else [REPLAY]).

(** The buttons that are shown, by name. *)
Definition shown_buttons (p : ModePanel) : list string :=
  (if toolButtonLoadFile_hidden p then [] else ["toolButtonLoadFile"])
  ++ (if toolButtonConnect_hidden p then [] else ["toolButtonConnect"])
  ++ (if toolButtonLoadRemote_hidden p then [] else ["toolButtonLoadRemote"])
  ++ (if toolButtonSaveFile_hidden p then [] else ["toolButtonSaveFile"]).

(** ** More observations *)

(** All snapshots of the store in the order of time: the undo stack
    from its bottom, the current state, the redo stack from its top. *)
Definition timeline (s : MainWindow) : list QByteArray :=
  rev (_undo_stack s) ++ _current_state s :: _redo_stack s.

(** The three actions and the indicator agree. *)
Definition ui_consistent (s : MainWindow) : Prop :=
  toolButtonLayout_enabled (ui s) = actionSave_enabled (ui s)
  /\ toolButtonReorder_enabled (ui s) = actionSave_enabled (ui s)
  /\ labelSemaphore_toolTip (ui s)
     = (if actionSave_enabled (ui s) then "Valid Tree"
        else "NOT a valid Tree")
  /\ labelSemaphore_pixmap (ui s)
     = (if actionSave_enabled (ui s) then ":/icons/green-circle.png"
        else ":/icons/red-circle.png").

Definition all_containers (s : MainWindow) : list GraphicContainer :=
  tabs_before s ++ currentTabInfo s :: tabs_after s.

(** The tabs by themselves. *)
Definition tabs_of (s : MainWindow)
  : list GraphicContainer * GraphicContainer * list GraphicContainer :=
  (tabs_before s, currentTabInfo s, tabs_after s).

(** From [s] to [x] the undo stack only grew, by no more entries than
    [onPushUndo] ran past its guard. *)
Definition grown_from (s x : MainWindow) : Prop :=
  pushes s <= pushes x
  /\ exists added : list QByteArray,
       _undo_stack x = added ++ _undo_stack s
       /\ length added <= pushes x - pushes s.

(** What lies around the documents and their history: the mode, the
    node models with their registry, the files and the stored save
    directory. *)
Definition surroundings (s : MainWindow)
  : GraphicMode * TreeNodesModel * DataModelRegistry
    * list (QString * string) * QString :=
  (_current_mode s, _tree_nodes_model s, _model_registry s,
   files (world s), lastSaveDirectory (world s)).

(** For every open document, in the order of the tabs, whether its
    container's signals are blocked. *)
Definition blocked_flags (s : MainWindow) : list bool :=
  map signalsBlocked (all_containers s).

(** The same for the tabs around the current one. *)
Definition background_blocked (s : MainWindow) : list bool * list bool :=
  (map signalsBlocked (tabs_before s), map signalsBlocked (tabs_after s)).


(** The heap cells of the [TreeNodesModel] section while it is
    built: the section's element with its parent [h] and the nodes
    [ns] inserted so far, the element of one model with its
    parameters [ps], and the element of one parameter, which holds the
    section's element [rm] as a child while [held]. *)
Definition section_cell (h : option nat) (ns : list nat) : DomNode :=
  {| dom_kind := DomElement "TreeNodesModel"; dom_attrs := [];
     dom_parent := h; dom_children := ns |}.

Definition model_cell (it : QString * TreeNodeModel NodeType ParamType)
                      (parent : option nat) (ps : list nat) : DomNode :=
  {| dom_kind := DomElement (NodeType_toStr (node_type (snd it)));
     dom_attrs := [("ID", toStdString (fst it))];
     dom_parent := parent; dom_children := ps |}.

Definition param_cell (n rm : nat) (held : bool) (pr : QString * ParamType)
  : DomNode :=
  {| dom_kind := DomElement "Parameter";
     dom_attrs := [("label", toStdString (fst pr));
                   ("type", ParamType_toStr (snd pr))];
     dom_parent := Some n;
     dom_children := if held then [rm] else [] |}.

Definition holds (h : option nat) (p : nat) : bool :=
  match h with
  | Some q => Nat.eqb p q
  | None => false
  end.

(** The cells of one model are in place in [d], the parameter [h], if
    any, holding the section's element. *)
Definition params_in (d : XMLDocument) (rm : nat) (h : option nat) (n : nat)
                     (prs : list (QString * ParamType)) (ps : list nat)
  : Prop :=
  Forall2 (fun pr p => rm < p
                       /\ nth_error d p
                          = Some (param_cell n rm (holds h p) pr))
          prs ps.

Definition model_in (d : XMLDocument) (rm : nat) (h : option nat)
                    (it : QString * TreeNodeModel NodeType ParamType)
                    (nps : nat * list nat) : Prop :=
  rm < fst nps
  /\ nth_error d (fst nps) = Some (model_cell it (Some rm) (snd nps))
  /\ params_in d rm h (fst nps) (params (snd it)) (snd nps).

Definition section_in (d : XMLDocument) (rm : nat) (h : option nat)
                      (models : TreeNodesModel)
                      (ns : list (nat * list nat)) : Prop :=
  nth_error d rm = Some (section_cell h (map fst ns))
  /\ Forall2 (model_in d rm h) models ns.

(** The saved document as far as line 281: the root element, the
    first separator and the [BehaviorTree] element with the tree below
    it. *)
Definition document_with_tree (sc : FlowScene) (current_node : Node)
  : XMLDocument :=
  let r := NewElement "root" new_XMLDocument in
  let root := snd r in
  let d1 := InsertEndChild 0 root (fst r) in
  let c1 := NewComment dashes d1 in
  let d2 := InsertEndChild root (snd c1) (fst c1) in
  let t := NewElement "BehaviorTree" d2 in
  let root_tree := snd t in
  let d3 := InsertEndChild root root_tree (fst t) in
  RecursivelyCreateXml sc d3 root_tree current_node.

(** The element of [TreeNodesModel] for one entry of the model map. *)
Definition param_xml (it : QString * ParamType) : XMLNode :=
  XMLElement "Parameter"
             [("label", toStdString (fst it));
              ("type", ParamType_toStr (snd it))] [].

Definition model_xml (it : QString * TreeNodeModel NodeType ParamType)
  : XMLNode :=
  XMLElement (NodeType_toStr (node_type (snd it)))
             [("ID", toStdString (fst it))]
             (map param_xml (params (snd it))).

End MoreSlots.

(** * A reference instance of the interface

    One executable choice for everything behind [External], small
    enough to run inside the proof assistant: documents are forests of
    typed nodes, XML text is the compact form without white space, and
    a snapshot is the scene printed in that form. *)

Module Ref.

Definition dq : string := String "034"%char EmptyString.

Definition cat (l : list string) : string :=
  fold_right String.append EmptyString l.

(** *** XML text *)

Definition print_attr (kv : string * string) : string :=
  cat [" "; fst kv; "="; dq; snd kv; dq].

Fixpoint print_node (x : XMLNode) : string :=
  match x with
  | XMLComment t => cat ["<!--"; t; "-->"]
  | XMLElement n attrs cs =>
      let head := cat ["<"; n; cat (map print_attr attrs)] in
      match cs with
      | [] => cat [head; "/>"]
      | _ => cat [head; ">"; cat (map print_node cs); "</"; n; ">"]
      end
  end.

Fixpoint strip_prefix (p s : string) : option string :=
  match p, s with
  | EmptyString, _ => Some s
  | String a p', String b s' =>
      if Ascii.eqb a b then strip_prefix p' s' else None
  | String _ _, EmptyString => None
  end.

Fixpoint span (stop : ascii -> bool) (s : string) : string * string :=
  match s with
  | EmptyString => (EmptyString, EmptyString)
  | String a s' =>
      if stop a then (EmptyString, s)
      else (String a (fst (span stop s')), snd (span stop s'))
  end.

Fixpoint until_comment_end (s : string) : option (string * string) :=
  match s with
  | EmptyString => None
  | String a s' =>
      match strip_prefix "-->" s with
      | Some rest => Some (EmptyString, rest)
      | None =>
          match until_comment_end s' with
          | Some (t, rest) => Some (String a t, rest)
          | None => None
          end
      end
  end.

Definition is_char (c : ascii) (a : ascii) : bool := Ascii.eqb a c.

Definition name_end (a : ascii) : bool :=
  is_char " " a || is_char "/" a || is_char ">" a || is_char "=" a.

Fixpoint parse_attrs (fuel : nat) (s : string)
  : option (list (string * string) * string) :=
  match fuel with
  | O => None
  | S fuel' =>
      match strip_prefix " " s with
      | None => Some ([], s)
      | Some s1 =>
          let k := span name_end s1 in
          match strip_prefix (cat ["="; dq]) (snd k) with
          | None => None
          | Some s2 =>
              let v := span (is_char "034") s2 in
              match strip_prefix dq (snd v) with
              | None => None
              | Some s3 =>
                  match parse_attrs fuel' s3 with
                  | Some (l, rest) => Some ((fst k, fst v) :: l, rest)
                  | None => None
                  end
              end
          end
      end
  end.

(** One node, given the parser for the children of an element. *)
Definition parse_one (kids : string -> option (list XMLNode * string))
                     (s : string) : option (XMLNode * string) :=
  match strip_prefix "<!--" s with
  | Some s1 =>
      match until_comment_end s1 with
      | Some (t, rest) => Some (XMLComment t, rest)
      | None => None
      end
  | None =>
      match strip_prefix "<" s with
      | None => None
      | Some s1 =>
          let n := span name_end s1 in
          match fst n, parse_attrs (S (String.length s1)) (snd n) with
          | EmptyString, _ => None
          | _, None => None
          | name, Some (attrs, s2) =>
              match strip_prefix "/>" s2 with
              | Some rest => Some (XMLElement name attrs [], rest)
              | None =>
                  match strip_prefix ">" s2 with
                  | None => None
                  | Some s3 =>
                      match kids s3 with
                      | None => None
                      | Some (cs, s4) =>
                          match strip_prefix (cat ["</"; name; ">"]) s4 with
                          | Some rest => Some (XMLElement name attrs cs, rest)
                          | None => None
                          end
                      end
                  end
              end
          end
      end
  end.

Fixpoint parse_nodes (fuel : nat) (s : string)
  : option (list XMLNode * string) :=
  match fuel with
  | O => None
  | S fuel' =>
      match s, strip_prefix "</" s with
      | EmptyString, _ => Some ([], s)
      | _, Some _ => Some ([], s)
      | _, None =>
          match parse_one (parse_nodes fuel') s with
          | None => None
          | Some (x, rest) =>
              match parse_nodes fuel' rest with
              | Some (xs, rest') => Some (x :: xs, rest')
              | None => None
              end
          end
      end
  end.

Definition is_element (x : XMLNode) : bool :=
  match x with XMLElement _ _ _ => true | XMLComment _ => false end.

(** [Parse(p, len)] reads [len] bytes; the empty document is an error,
    as in tinyxml2; any error is reported as code 1. *)
Definition Parse (text : string) (len : nat) : nat * option XMLNode :=
  let buf := String.substring 0 len text in
  match buf with
  | EmptyString => (1, None)
  | _ =>
      match parse_nodes (S (String.length buf)) buf with
      | Some (nodes, EmptyString) => (0, find is_element nodes)
      | _ => (1, None)
      end
  end.

Definition CStr (d : XMLDocument) : string :=
  match dom_tree (S (length d)) d 0 with
  | Some (XMLElement _ _ cs) => cat (map print_node cs)
  | _ => EmptyString
  end.

(** *** Documents and scenes *)

(** Modelled from the spec: a [DocumentNode] has a type name, parameter
    values by label, and an ordered list of children it owns; the scene
    classes are not part of the sources. *)
Inductive DocumentNode :=
| Doc (type_name : string) (parameter_values : list (string * string))
      (children : list DocumentNode).

Definition type_name_of (n : DocumentNode) : string :=
  match n with Doc t _ _ => t end.

Definition children_of (n : DocumentNode) : list DocumentNode :=
  match n with Doc _ _ cs => cs end.

(** Modelled from the spec: a document is a forest of nodes, given by
    its roots in order, together with the orientation of its layout. *)
Record Scene := {
  roots : list DocumentNode;
  orientation : PortLayout
}.

(** Modelled from the spec: utils.h is not part of the sources.
    [roots()] are the nodes without parent, [children_of] the ordered
    children, and the Root category is told by the type name. *)
Definition find_roots (sc : Scene) : list DocumentNode := roots sc.

Definition get_children (sc : Scene) (n : DocumentNode)
  : list DocumentNode :=
  children_of n.

Definition is_root_model (sc : Scene) (n : DocumentNode) : bool :=
  String.eqb (type_name_of n) "Root".

Fixpoint to_xml (n : DocumentNode) : XMLNode :=
  match n with
  | Doc t ps cs => XMLElement t ps (map to_xml cs)
  end.

Fixpoint of_xml (x : XMLNode) : list DocumentNode :=
  match x with
  | XMLComment _ => []
  | XMLElement t ps cs => [Doc t ps (flat_map of_xml cs)]
  end.

Definition layout_name (l : PortLayout) : string :=
  match l with Horizontal => "H" | Vertical => "V" end.

(** Modelled from the spec: a snapshot is a faithful serialization of
    the document, compared by value; here the scene printed as one
    element. *)
Definition save (sc : Scene) : QByteArray :=
  print_node (XMLElement "scene" [("layout", layout_name (orientation sc))]
                         (map to_xml (roots sc))).

Definition quiet (sc : Scene) : SceneRun Scene :=
  {| emitted := []; final := sc |}.

Definition noisy (sc : Scene) : SceneRun Scene :=
  {| emitted := [sc]; final := sc |}.

Definition clear (sc : Scene) : SceneRun Scene :=
  noisy {| roots := []; orientation := orientation sc |}.

(** Bytes that are not a snapshot load nothing. *)
Definition load (b : QByteArray) (sc : Scene) : SceneRun Scene :=
  match Parse b (String.length b) with
  | (O, Some (XMLElement _ [(_, l)] cs)) =>
      noisy {| roots := flat_map of_xml cs;
               orientation := if String.eqb l "V" then Vertical
                              else Horizontal |}
  | _ => quiet sc
  end.

(** *** The node models *)

(** Modelled from the spec: the closed enumeration of node categories
    of a [NodeTypeSpec] (utils.h is not part of the sources). *)
Inductive Category := ROOT | CONTROL | DECORATOR | ACTION | SUBTREE.

Definition toStr (t : Category) : string :=
  match t with
  | ROOT => "Root" | CONTROL => "Control" | DECORATOR => "Decorator"
  | ACTION => "Action" | SUBTREE => "SubTree"
  end.

Definition fromStr (s : string) : option Category :=
  find (fun t => String.eqb (toStr t) s)
       [ROOT; CONTROL; DECORATOR; ACTION; SUBTREE].

Definition Models := list (QString * TreeNodeModel Category string).

Fixpoint attr (k : string) (l : list (string * string)) : option string :=
  match l with
  | [] => None
  | (k', v) :: l' => if String.eqb k' k then Some v else attr k l'
  end.

(** [std::map::operator[]]: keys stay sorted, an existing key is
    overwritten. *)
Fixpoint insert_model (k : QString) (m : TreeNodeModel Category string)
                      (l : Models) : Models :=
  match l with
  | [] => [(k, m)]
  | (k', m') :: l' =>
      match String.compare k k' with
      | Lt => (k, m) :: l
      | Eq => (k, m) :: l'
      | Gt => (k', m') :: insert_model k m l'
      end
  end.

Definition read_param (x : XMLNode) : list (QString * string) :=
  match x with
  | XMLElement "Parameter" attrs _ =>
      match attr "label" attrs, attr "type" attrs with
      | Some l, Some t => [(l, t)]
      | _, _ => []
      end
  | _ => []
  end.

(** Modelled from the spec: XML_utilities.hpp is not part of the
    sources.  The [TreeNodesModel] section is parsed first: each entry's
    element name is the category tag, it carries an [ID] attribute and
    [Parameter] children with [label] and [type]; the model is replaced
    wholesale.  A missing root element or a malformed entry throws. *)
Fixpoint read_entries (es : list XMLNode) (g : list string) (m : Models)
  : list string * Models * option exn :=
  match es with
  | [] => (g, m, None)
  | XMLComment _ :: es' => read_entries es' g m
  | XMLElement tag attrs ps :: es' =>
      match fromStr tag, attr "ID" attrs with
      | Some t, Some id =>
          read_entries es' (id :: g)
            (insert_model id {| node_type := t;
                                params := flat_map read_param ps |} m)
      | _, _ => (g, m, Some (runtime_error "malformed TreeNodesModel entry"))
      end
  end.

Definition ReadModels (root : option XMLNode) (g : list string) (m : Models)
  : list string * Models * option exn :=
  match root with
  | None => (g, m, Some (runtime_error "missing root element"))
  | Some r =>
      match FirstChildElement r "TreeNodesModel" with
      | Some (XMLElement _ _ es) => read_entries es g []
      | _ => (g, [], None)
      end
  end.

Fixpoint registered (g : list string) (n : DocumentNode) : bool :=
  match n with
  | Doc t _ cs =>
      existsb (String.eqb t) g && forallb (registered g) cs
  end.

(** Modelled from the spec: the [BehaviorTree] element is located and
    one node is built per element, its type the element's tag, nested
    elements becoming children in document order, below a fresh Root.
    A missing element or a type that is not registered throws, leaving
    the Root that was already created. *)
Definition CreateTree (bt : option XMLNode) (g : list string) (sc : Scene)
  : SceneRun Scene * option exn :=
  let start := {| roots := [Doc "Root" [] []];
                  orientation := orientation sc |} in
  match bt with
  | Some (XMLElement _ _ cs) =>
      let nodes := flat_map of_xml cs in
      if forallb (registered g) nodes
      then (noisy {| roots := [Doc "Root" [] nodes];
                     orientation := orientation sc |}, None)
      else (noisy start, Some (runtime_error "unregistered ID"))
  | _ => (quiet sc, Some (runtime_error "expecting <BehaviorTree>"))
  end.

(** Modelled from the spec: one element per node, its tag the node's
    type name and its attributes the parameter values, children in
    order. *)
Fixpoint CreateXml (n : DocumentNode) (parent : nat) (d : XMLDocument)
  : XMLDocument :=
  match n with
  | Doc t ps cs =>
      let e := NewElement t d in
      let d1 := fold_left (fun acc kv => SetAttribute (snd e) (fst kv)
                                                      (snd kv) acc)
                          ps (fst e) in
      let d2 := InsertEndChild parent (snd e) d1 in
      fold_left (fun acc c => CreateXml c (snd e) acc) cs d2
  end.

Definition external : External :=
  {| FlowScene := Scene;
     Node := DocumentNode;
     AbsBehaviorTree := list DocumentNode;
     DataModelRegistry := list string;
     NodeType := Category;
     ParamType := string;
     NodeType_toStr := toStr;
     ParamType_toStr := fun t => t;
     new_FlowScene := {| roots := []; orientation := Horizontal |};
     saveToMemory := save;
     loadFromMemory := load;
     clearScene := clear;
     layout := orientation;
     setLayout := fun l sc => {| roots := roots sc; orientation := l |};
     findRoots := find_roots;
     getChildren := get_children;
     isRootNodeModel := is_root_model;
     BuildBehaviorTreeFromScene := roots;
     BuildSceneFromBehaviorTree := fun sc t =>
       noisy {| roots := t; orientation := orientation sc |};
     NodeReorder := fun sc _ => noisy sc;
     nodeReorder := noisy;
     ReadTreeNodesModel := ReadModels;
     CreateTreeInSceneFromXML := CreateTree;
     RecursivelyCreateXml := fun _ d parent n => CreateXml n parent d;
     XMLDocument_Parse := Parse;
     XMLPrinter_CStr := CStr;
     new_DataModelRegistry := ["Root"; "Sequence"; "SequenceStar"; "Fallback"];
     toStdString := fun q => q;
     absolutePath := fun f => f |}.

End Ref.

(** * Concrete windows

    Windows over the reference instance, reached from the constructor
    by the slots themselves. *)

Module Examples.

Definition Window : Type := @MainWindow Ref.external.

Definition scene_tree : Ref.Scene :=
  {| Ref.roots :=
       [Ref.Doc "Root" []
          [Ref.Doc "Sequence" []
             [Ref.Doc "ActionA" [("speed", "3")] []; Ref.Doc "ActionB" [] []]]];
     Ref.orientation := Horizontal |}.

Definition scene_childless_root : Ref.Scene :=
  {| Ref.roots := [Ref.Doc "Root" [] []];
     Ref.orientation := Horizontal |}.

Definition scene_two_roots : Ref.Scene :=
  {| Ref.roots := [Ref.Doc "Root" [] []; Ref.Doc "ActionA" [] []];
     Ref.orientation := Horizontal |}.

Definition window0 : Window := @new_MainWindow Ref.external EDITOR.

(** Two edits: history is [[snapshot of scene_tree; empty]], the
    current state is the snapshot of [scene_childless_root]. *)
Definition window2 : Window :=
  @after_edits Ref.external [scene_tree; scene_childless_root] window0.

(** The user has put the tree of the first edit back; the push that
    follows is still to run. *)
Definition window_before_push : Window :=
  @set_scene Ref.external TabCurrent scene_tree window2.

Definition window_monitor : Window :=
  @on_actionMonitor_mode_triggered Ref.external window2.

Definition window_two_roots : Window :=
  @user_edit Ref.external scene_two_roots window0.

Definition window_childless_root : Window :=
  @user_edit Ref.external scene_childless_root window0.

(** The node saved below [BehaviorTree] for [scene_tree]. *)
Definition sequence_node : Ref.DocumentNode :=
  Ref.Doc "Sequence" []
    [Ref.Doc "ActionA" [("speed", "3")] []; Ref.Doc "ActionB" [] []].

Definition delivered_tree : list Ref.DocumentNode :=
  [Ref.Doc "Root" [] [Ref.Doc "Fallback" [] []]].

(** The tree of [delivered_tree] has arrived twice.  Each delivery
    clears the two stacks and pushes, so after the second one the only
    entry of the undo stack is the snapshot of the document shown, which
    is [_current_state] as well. *)
Definition window_delivered_twice : Window :=
  @on_loadBehaviorTree Ref.external delivered_tree
    (@on_loadBehaviorTree Ref.external delivered_tree window0).

(** A file that declares the action [Fly] and whose tree uses [Jump],
    which nothing registers. *)
Definition bad_root : XMLNode :=
  XMLElement "root" []
    [XMLElement "BehaviorTree" []
       [XMLElement "Sequence" [] [XMLElement "Jump" [] []]];
     XMLElement "TreeNodesModel" []
       [XMLElement "Action" [("ID", "Fly")]
          [XMLElement "Parameter" [("label", "height"); ("type", "Int")]
                      []]]].

Definition bad_text : QString := Ref.print_node bad_root.

Definition bad_models : Ref.Models :=
  [("Fly", {| node_type := Ref.ACTION; params := [("height", "Int")] |})].

Definition bad_registry : list string :=
  ["Fly"; "Root"; "Sequence"; "SequenceStar"; "Fallback"].

(** The first edit alone: the valid document Root -> Sequence. *)
Definition window_tree : Window :=
  @user_edit Ref.external scene_tree window0.

Definition root_node : Ref.DocumentNode :=
  Ref.Doc "Root" [] [sequence_node].

(** A file that declares the action [Fly] and uses it. *)
Definition good_root : XMLNode :=
  XMLElement "root" []
    [XMLElement "BehaviorTree" []
       [XMLElement "Sequence" [] [XMLElement "Fly" [] []]];
     XMLElement "TreeNodesModel" []
       [XMLElement "Action" [("ID", "Fly")]
          [XMLElement "Parameter" [("label", "height"); ("type", "Int")]
                      []]]].

Definition good_text : QString := Ref.print_node good_root.

Definition good_scene : Ref.Scene :=
  {| Ref.roots :=
       [Ref.Doc "Root" [] [Ref.Doc "Sequence" [] [Ref.Doc "Fly" [] []]]];
     Ref.orientation := Horizontal |}.

(** A file whose model section has an entry of no known category. *)
Definition odd_models_root : XMLNode :=
  XMLElement "root" []
    [XMLElement "BehaviorTree" [] [XMLElement "Sequence" [] []];
     XMLElement "TreeNodesModel" []
       [XMLElement "Action" [("ID", "Fly")] [];
        XMLElement "Gadget" [("ID", "Spin")] []]].

Definition odd_models_text : QString := Ref.print_node odd_models_root.

(** [good_text] loaded into a fresh window. *)
Definition window_loaded : Window :=
  match @loadFromXML Ref.external good_text window0 with
  | Returned s => s
  | _ => window0
  end.

Definition fly_sequence : Ref.DocumentNode :=
  Ref.Doc "Sequence" [] [Ref.Doc "Fly" [] []].

(** [window_tree] after the orientation toggle. *)
Definition window_vertical : Window :=
  @on_toolButtonLayout_clicked Ref.external window_tree.

(** The panel before the constructor calls [updateCurrentMode]. *)
Definition panel0 : ModePanel :=
  {| editor_widget_hidden := false; replay_widget_hidden := false;
     monitor_widget_hidden := false; toolButtonLoadFile_hidden := false;
     toolButtonConnect_hidden := false;
     toolButtonLoadRemote_hidden := false;
     toolButtonSaveFile_hidden := false;
     loadFile_to_on_actionLoad := 0; loadFile_to_on_LoadLog := 0 |}.

End Examples.

(** * Properties of the window *)

Section WindowFacts.

Context {E : External}.

(** ** Frame lemmas *)

Lemma same_history_refl (s : MainWindow) : same_history s s.
Proof. repeat split. Qed.

Lemma same_history_trans (a b c : MainWindow) :
  same_history a b -> same_history b c -> same_history a c.
Proof.
  unfold same_history, same_store.
  intros [(H1 & H2 & H3) (H4 & H5 & H6 & H7 & H8)]
         [(K1 & K2 & K3) (K4 & K5 & K6 & K7 & K8)].
  repeat split; congruence.
Qed.

Lemma onPushUndo_disabled (s : MainWindow) :
  _undo_enabled s = false -> onPushUndo s = s.
Proof. intros H. unfold onPushUndo. rewrite H. reflexivity. Qed.

Lemma same_history_onSceneChanged (s : MainWindow) :
  same_history s (onSceneChanged s).
Proof. repeat split. Qed.

Lemma same_history_blockSignals (b : bool) (s : MainWindow) :
  same_history s (blockSignals b s).
Proof. repeat split. Qed.

Lemma same_history_set_scene (p : TabPos) (sc : FlowScene) (s : MainWindow) :
  same_history s (set_scene p sc s).
Proof.
  unfold set_scene. destruct (tab_at p s); [|apply same_history_refl].
  destruct p; repeat split.
Qed.

Lemma same_history_log (e : Event) (s : MainWindow) :
  is_push_line e = false -> same_history s (log e s).
Proof.
  intros H. repeat split. unfold pushes, log. simpl. rewrite H. reflexivity.
Qed.

Lemma same_history_lockEditing (v : bool) (s : MainWindow) :
  same_history s (lockEditing v s).
Proof. repeat split. Qed.

Lemma same_history_set_ui (v : Ui) (s : MainWindow) :
  same_history s (set_ui v s).
Proof. repeat split. Qed.

Lemma same_history_set_current_layout (v : PortLayout) (s : MainWindow) :
  same_history s (set_current_layout v s).
Proof. repeat split. Qed.

Lemma same_history_emit_quiet (p : TabPos) (s : MainWindow) :
  _undo_enabled s = false -> same_history s (emit_undoableChange p s).
Proof.
  intros H. unfold emit_undoableChange.
  destruct (tab_at p s) as [c|]; [|apply same_history_refl].
  destruct (signalsBlocked c); [apply same_history_refl|].
  rewrite (onPushUndo_disabled s H). apply same_history_onSceneChanged.
Qed.

Lemma same_history_enabled (s s' : MainWindow) (b : bool) :
  same_history s s' -> _undo_enabled s = b -> _undo_enabled s' = b.
Proof. intros (_ & _ & H & _) K. congruence. Qed.

(** With the undo switch off, a scene operation leaves the history
    alone, whatever it emits and from whichever tab. *)
Lemma same_history_run_quiet (p : TabPos) (r : SceneRun FlowScene)
                             (s : MainWindow) :
  _undo_enabled s = false -> same_history s (run p r s).
Proof.
  intros H. unfold run.
  eapply same_history_trans; [|apply same_history_set_scene].
  revert s H. induction (emitted r) as [|sc l IH]; intros s H; simpl.
  - apply same_history_refl.
  - assert (K : same_history s (emit_undoableChange p (set_scene p sc s))).
    { eapply same_history_trans; [apply same_history_set_scene|].
      apply same_history_emit_quiet.
      eapply same_history_enabled; [apply same_history_set_scene|exact H]. }
    eapply same_history_trans; [exact K|].
    apply IH. eapply same_history_enabled; [exact K|exact H].
Qed.

Lemma same_history_relayout_quiet (new_layout : PortLayout)
                                  (ps : list TabPos)
                                  (acc : MainWindow * bool) :
  _undo_enabled (fst acc) = false ->
  same_history (fst acc) (fst (fold_left (relayout_tab new_layout) ps acc)).
Proof.
  revert acc. induction ps as [|p ps IH]; intros acc H; simpl.
  - apply same_history_refl.
  - assert (K : same_history (fst acc) (fst (relayout_tab new_layout acc p))).
    { unfold relayout_tab.
      destruct (tab_at p (fst acc)) as [c|]; [|apply same_history_refl].
      destruct (PortLayout_eqb (layout (scene c)) new_layout);
        [apply same_history_refl|]. simpl.
      eapply same_history_trans; [apply same_history_set_scene|].
      apply same_history_run_quiet.
      eapply same_history_enabled; [apply same_history_set_scene|exact H]. }
    eapply same_history_trans; [exact K|].
    apply IH. eapply same_history_enabled; [exact K|exact H].
Qed.

Lemma same_history_refreshNodesLayout_quiet (new_layout : PortLayout)
                                            (s : MainWindow) :
  _undo_enabled s = false -> same_history s (refreshNodesLayout new_layout s).
Proof.
  intros H. unfold refreshNodesLayout.
  set (s0 := if PortLayout_eqb new_layout (_current_layout s) then s
             else set_ui _ s).
  assert (H0 : same_history s s0).
  { unfold s0. destruct (PortLayout_eqb new_layout (_current_layout s));
      [apply same_history_refl|apply same_history_set_ui]. }
  set (looped := fold_left (relayout_tab new_layout) (all_tabs s0)
                           (blockSignals true s0, false)).
  assert (H1 : same_history s (fst looped)).
  { eapply same_history_trans; [exact H0|].
    eapply same_history_trans; [apply (same_history_blockSignals true)|].
    apply (same_history_relayout_quiet new_layout (all_tabs s0)
             (blockSignals true s0, false)).
    simpl. eapply same_history_enabled; [exact H0|exact H]. }
  assert (H2 : same_history s
                 (set_current_layout new_layout
                    (blockSignals (signalsBlocked (currentTabInfo s0))
                       (on_toolButtonCenterView_pressed (fst looped))))).
  { eapply same_history_trans; [exact H1|].
    eapply same_history_trans; [apply same_history_blockSignals|].
    apply same_history_set_current_layout. }
  destruct (snd looped); [|exact H2].
  rewrite onPushUndo_disabled; [exact H2|].
  eapply same_history_enabled; [exact H2|exact H].
Qed.

(** A blocked container delivers nothing: the operation only replaces
    the scene. *)
Lemma run_blocked (r : SceneRun FlowScene) (s : MainWindow) :
  signalsBlocked (currentTabInfo s) = true ->
  run TabCurrent r s = set_scene TabCurrent (final r) s.
Proof.
  unfold run. generalize (final r) as x.
  intros x. revert s. induction (emitted r) as [|sc l IH]; intros s H; simpl.
  - reflexivity.
  - assert (K : emit_undoableChange TabCurrent (set_scene TabCurrent sc s)
                = set_scene TabCurrent sc s).
    { unfold emit_undoableChange. simpl. rewrite H. reflexivity. }
    rewrite K. rewrite IH; [reflexivity|exact H].
Qed.

Lemma same_history_run_blocked (r : SceneRun FlowScene) (s : MainWindow) :
  signalsBlocked (currentTabInfo s) = true ->
  same_history s (run TabCurrent r s).
Proof.
  intros H. rewrite (run_blocked r s H). apply same_history_set_scene.
Qed.

Lemma loadSceneFromYAML_history (state : QByteArray) (s : MainWindow) :
  same_store s (loadSceneFromYAML state s)
  /\ _current_mode (loadSceneFromYAML state s) = _current_mode s
  /\ _undo_enabled (loadSceneFromYAML state s) = true
  /\ pushes (loadSceneFromYAML state s) = pushes s
  /\ _tree_nodes_model (loadSceneFromYAML state s) = _tree_nodes_model s
  /\ _model_registry (loadSceneFromYAML state s) = _model_registry s.
Proof.
  unfold loadSceneFromYAML.
  set (s1 := set_undo_enabled false (blockSignals true s)).
  set (s2 := run TabCurrent (clearScene (scene (currentTabInfo s1))) s1).
  set (s3 := run TabCurrent
                 (loadFromMemory state (scene (currentTabInfo s2))) s2).
  set (s4 := refreshNodesLayout (layout (scene (currentTabInfo s3))) s3).
  assert (Q1 : _undo_enabled s1 = false) by reflexivity.
  assert (H2 : same_history s1 s2) by (apply same_history_run_quiet; exact Q1).
  assert (Q2 : _undo_enabled s2 = false)
    by (eapply same_history_enabled; [exact H2|exact Q1]).
  assert (H3 : same_history s2 s3) by (apply same_history_run_quiet; exact Q2).
  assert (Q3 : _undo_enabled s3 = false)
    by (eapply same_history_enabled; [exact H3|exact Q2]).
  assert (H4 : same_history s3 s4)
    by (apply same_history_refreshNodesLayout_quiet; exact Q3).
  pose proof (same_history_trans H2 (same_history_trans H3 H4)) as H.
  destruct H as [(A & B & C) (D & _ & F & G & G')].
  repeat split; simpl; assumption.
Qed.

Lemma clear_for_load_history (s : MainWindow) :
  same_history s (clear_for_load s).
Proof.
  unfold clear_for_load.
  eapply same_history_trans; [apply (same_history_blockSignals true)|].
  eapply same_history_trans; [|apply same_history_blockSignals].
  apply same_history_run_blocked. reflexivity.
Qed.

Lemma rebuild_from_XML_history (root : XMLNode) (s : MainWindow) :
  same_history s (fst (rebuild_from_XML root s)).
Proof.
  unfold rebuild_from_XML. simpl.
  set (s1 := log (Cout "Starting parsing") (blockSignals true s)).
  assert (B1 : signalsBlocked (currentTabInfo s1) = true) by reflexivity.
  assert (H1 : same_history s s1).
  { eapply same_history_trans; [apply (same_history_blockSignals true)|].
    apply same_history_log. reflexivity. }
  set (built := CreateTreeInSceneFromXML _ _ _).
  set (s2 := run TabCurrent (fst built) s1).
  assert (E2 : s2 = set_scene TabCurrent (final (fst built)) s1)
    by (apply run_blocked; exact B1).
  assert (H2 : same_history s s2).
  { eapply same_history_trans; [exact H1|].
    apply same_history_run_blocked; exact B1. }
  eapply same_history_trans; [|apply same_history_blockSignals].
  destruct (snd built); [exact H2|].
  eapply same_history_trans; [exact H2|].
  apply same_history_trans
    with (b := log (Cout "XML Parsed Successfully!") s2);
    [apply same_history_log; reflexivity|].
  apply same_history_run_blocked. rewrite E2. reflexivity.
Qed.

(** ** Restore is quiet *)

(** C9.  While a snapshot is restored (clear, then rebuild, during undo,
    redo or the rollback of a failed load), and while a load clears and
    rebuilds the scene, no automatic push fires: the two stacks and
    [_current_state] are what they were and [onPushUndo] never ran past
    its guard, whatever the scene operations emit and from whichever
    tab. *)
Theorem restore_suppresses_push (state : QByteArray) (root : XMLNode)
                                (s : MainWindow) :
  (same_store s (loadSceneFromYAML state s)
   /\ pushes (loadSceneFromYAML state s) = pushes s)
  /\ (same_store s (clear_for_load s)
      /\ pushes (clear_for_load s) = pushes s)
  /\ (same_store s (fst (rebuild_from_XML root s))
      /\ pushes (fst (rebuild_from_XML root s)) = pushes s).
Proof.
  split; [|split].
  - destruct (loadSceneFromYAML_history state s) as (A & _ & _ & B & _).
    split; assumption.
  - destruct (clear_for_load_history s) as (A & _ & _ & B & _).
    split; assumption.
  - destruct (rebuild_from_XML_history root s) as (A & _ & _ & B & _).
    split; assumption.
Qed.

(** ** Undo and redo outside the editor mode *)

Lemma locked_noop (s : MainWindow) :
  _current_mode s <> EDITOR ->
  onUndoInvoked s = s /\ onRedoInvoked s = s.
Proof.
  intros H. unfold onUndoInvoked, onRedoInvoked.
  destruct (_current_mode s); [contradiction| |]; split; reflexivity.
Qed.

(** C10.  When the mode is not EDITOR, undo and redo return the window
    as it is: document, current state and both stacks are untouched,
    also when the stacks are not empty. *)
Theorem undo_redo_locked (s : MainWindow) :
  _current_mode s <> EDITOR ->
  onUndoInvoked s = s /\ onRedoInvoked s = s.
Proof.
  intros H. unfold onUndoInvoked, onRedoInvoked.
  destruct (_current_mode s); [contradiction| |]; split; reflexivity.
Qed.

(** ** The push rule *)

Lemma onPushUndo_enabled (s : MainWindow) :
  _undo_enabled s = true ->
  _undo_stack (onPushUndo s)
  = (if push_rule s then _current_state s :: _undo_stack s
     else _undo_stack s)
  /\ _redo_stack (onPushUndo s)
     = (if push_rule s then [] else _redo_stack s)
  /\ _current_state (onPushUndo s) = saveToMemory (scene (currentTabInfo s))
  /\ _undo_enabled (onPushUndo s) = true
  /\ _current_mode (onPushUndo s) = _current_mode s
  /\ scene (currentTabInfo (onPushUndo s)) = scene (currentTabInfo s)
  /\ signalsBlocked (currentTabInfo (onPushUndo s))
     = signalsBlocked (currentTabInfo s)
  /\ pushes (onPushUndo s) = S (pushes s).
Proof.
  intros H. destruct s as [md ly en us rs cs g m tb tc ta u w].
  simpl in H. subst en. unfold onPushUndo, push_rule. simpl.
  destruct us as [|back rest]; simpl.
  - repeat split.
  - destruct (negb (saveToMemory (scene tc) =? cs)%string
              && negb (back =? cs)%string);
      repeat split.
Qed.

(** C4, as the code has it.  With the undo switch on, [onPushUndo]
    always sets [_current_state] to the fresh snapshot; it pushes the
    previous [_current_state] and clears the redo stack exactly when the
    undo stack is empty, or the fresh snapshot differs from
    [_current_state] and the top of the undo stack differs from
    [_current_state]; otherwise both stacks stay.  A second call without
    a change in between leaves the undo stack, hence its size, as the
    first call left it. *)
Theorem push_if_changed_rule (s : MainWindow) :
  _undo_enabled s = true ->
  _current_state (onPushUndo s) = saveToMemory (scene (currentTabInfo s))
  /\ (push_rule s = true ->
      _undo_stack (onPushUndo s) = _current_state s :: _undo_stack s
      /\ _redo_stack (onPushUndo s) = [])
  /\ (push_rule s = false ->
      _undo_stack (onPushUndo s) = _undo_stack s
      /\ _redo_stack (onPushUndo s) = _redo_stack s)
  /\ _undo_stack (onPushUndo (onPushUndo s)) = _undo_stack (onPushUndo s).
Proof.
  intros H.
  destruct (onPushUndo_enabled s H) as (U & R & C & En & _ & Sc & _ & _).
  split; [exact C|]. split; [|split].
  - intros P. rewrite P in U, R. split; assumption.
  - intros P. rewrite P in U, R. split; assumption.
  - destruct (onPushUndo_enabled (onPushUndo s) En) as (U' & _).
    rewrite U'. replace (push_rule (onPushUndo s)) with false; [reflexivity|].
    unfold push_rule at 1. rewrite Sc, C, U.
    rewrite String.eqb_refl. simpl.
    unfold push_rule. destruct (_undo_stack s) as [|back rest];
      [reflexivity|].
    destruct (negb _ && negb _); simpl; rewrite ?andb_false_r; reflexivity.
Qed.

(** ** A tree delivered from outside *)

(** C6, as the code runs.  After [on_loadBehaviorTree] the scene is the
    delivered tree, built on the cleared scene and laid out, the redo
    stack is empty and [_current_state] is the snapshot of the new
    scene; the undo stack, cleared a moment before, holds one entry
    again: the [_current_state] from before the delivery. *)
Theorem tree_received_history (tree : AbsBehaviorTree) (s : MainWindow) :
  _undo_enabled s = true ->
  scene (currentTabInfo (on_loadBehaviorTree tree s))
  = final (nodeReorder
             (final (BuildSceneFromBehaviorTree
                       (final (clearScene (scene (currentTabInfo s))))
                       tree)))
  /\ _redo_stack (on_loadBehaviorTree tree s) = []
  /\ _current_state (on_loadBehaviorTree tree s)
     = saveToMemory (scene (currentTabInfo (on_loadBehaviorTree tree s)))
  /\ _undo_stack (on_loadBehaviorTree tree s) = [_current_state s].
Proof.
  intros H. unfold on_loadBehaviorTree.
  set (s1 := blockSignals true s).
  assert (B1 : signalsBlocked (currentTabInfo s1) = true) by reflexivity.
  rewrite (run_blocked (clearScene (scene (currentTabInfo s1))) s1 B1).
  set (s2 := set_scene TabCurrent _ s1).
  assert (B2 : signalsBlocked (currentTabInfo s2) = true) by reflexivity.
  rewrite (run_blocked
             (BuildSceneFromBehaviorTree (scene (currentTabInfo s2)) tree)
             s2 B2).
  set (s3 := set_scene TabCurrent _ s2).
  set (s4 := onSceneChanged s3).
  assert (B4 : signalsBlocked (currentTabInfo s4) = true) by reflexivity.
  rewrite (run_blocked (nodeReorder (scene (currentTabInfo s4))) s4 B4).
  set (s5 := set_scene TabCurrent _ s4).
  set (s7 := blockSignals _ (lockEditing _ s5)).
  set (s8 := set_history [] [] (_current_state s7) s7).
  assert (En : _undo_enabled s8 = true) by exact H.
  destruct (onPushUndo_enabled s8 En) as (U & R & C & _ & _ & Sc & _ & _).
  rewrite U, R, C, Sc. repeat split.
Qed.

(** ** The scene of the current tab *)

Lemma PortLayout_eqb_eq (a b : PortLayout) :
  PortLayout_eqb a b = true <-> a = b.
Proof. destruct a, b; simpl; split; congruence. Qed.

Lemma onPushUndo_cur_scene (s : MainWindow) :
  scene (currentTabInfo (onPushUndo s)) = scene (currentTabInfo s).
Proof.
  destruct s as [md ly en us rs cs g m tb tc ta u w].
  unfold onPushUndo. simpl. destruct en; simpl; [|reflexivity].
  destruct us as [|back rest]; simpl; [reflexivity|].
  destruct (negb _ && negb _); reflexivity.
Qed.

Lemma emit_cur_scene (p : TabPos) (s : MainWindow) :
  scene (currentTabInfo (emit_undoableChange p s)) = scene (currentTabInfo s).
Proof.
  unfold emit_undoableChange. destruct (tab_at p s) as [c|]; [|reflexivity].
  destruct (signalsBlocked c); [reflexivity|].
  exact (onPushUndo_cur_scene s).
Qed.

Lemma set_scene_background (p : TabPos) (sc : FlowScene) (s : MainWindow) :
  background p = true ->
  currentTabInfo (set_scene p sc s) = currentTabInfo s.
Proof.
  intros H. unfold set_scene. destruct (tab_at p s); [|reflexivity].
  destruct p; [reflexivity|discriminate|reflexivity].
Qed.

Lemma run_background_cur_scene (p : TabPos) (r : SceneRun FlowScene)
                               (s : MainWindow) :
  background p = true ->
  scene (currentTabInfo (run p r s)) = scene (currentTabInfo s).
Proof.
  intros H. unfold run. rewrite (set_scene_background _ _ _ H).
  revert s. induction (emitted r) as [|sc l IH]; intros s; simpl.
  - reflexivity.
  - rewrite IH, emit_cur_scene, (set_scene_background _ _ _ H). reflexivity.
Qed.

Lemma relayout_cur_scene (new_layout : PortLayout) (ps : list TabPos)
                         (acc : MainWindow * bool) :
  layout (scene (currentTabInfo (fst acc))) = new_layout ->
  scene (currentTabInfo (fst (fold_left (relayout_tab new_layout) ps acc)))
  = scene (currentTabInfo (fst acc)).
Proof.
  revert acc. induction ps as [|p ps IH]; intros acc H; simpl; [reflexivity|].
  assert (K : scene (currentTabInfo (fst (relayout_tab new_layout acc p)))
              = scene (currentTabInfo (fst acc))).
  { unfold relayout_tab. destruct (tab_at p (fst acc)) as [c|] eqn:T;
      [|reflexivity].
    destruct (PortLayout_eqb (layout (scene c)) new_layout) eqn:L;
      [reflexivity|].
    destruct p as [i| |i]; simpl.
    - rewrite run_background_cur_scene by reflexivity.
      rewrite set_scene_background by reflexivity. reflexivity.
    - simpl in T. injection T as T. subst c.
      apply PortLayout_eqb_eq in H. congruence.
    - rewrite run_background_cur_scene by reflexivity.
      rewrite set_scene_background by reflexivity. reflexivity. }
  rewrite IH; [exact K|]. rewrite K. exact H.
Qed.

(** Refreshing towards the layout the current scene already has leaves
    that scene alone. *)
Lemma refreshNodesLayout_cur_scene (s : MainWindow) :
  scene (currentTabInfo
           (refreshNodesLayout (layout (scene (currentTabInfo s))) s))
  = scene (currentTabInfo s).
Proof.
  unfold refreshNodesLayout.
  set (new_layout := layout (scene (currentTabInfo s))).
  set (s0 := if PortLayout_eqb new_layout (_current_layout s) then s
             else set_ui _ s).
  assert (H0 : currentTabInfo s0 = currentTabInfo s).
  { unfold s0. destruct (PortLayout_eqb new_layout (_current_layout s));
      reflexivity. }
  set (looped := fold_left (relayout_tab new_layout) (all_tabs s0)
                           (blockSignals true s0, false)).
  assert (H1 : scene (currentTabInfo (fst looped))
               = scene (currentTabInfo s)).
  { unfold looped. rewrite relayout_cur_scene; simpl; rewrite H0; reflexivity. }
  destruct (snd looped); [rewrite onPushUndo_cur_scene|]; simpl; exact H1.
Qed.

Lemma loadSceneFromYAML_scene (state : QByteArray) (s : MainWindow) :
  scene (currentTabInfo (loadSceneFromYAML state s))
  = final (loadFromMemory state
             (final (clearScene (scene (currentTabInfo s))))).
Proof.
  unfold loadSceneFromYAML.
  set (s1 := set_undo_enabled false (blockSignals true s)).
  assert (B1 : signalsBlocked (currentTabInfo s1) = true) by reflexivity.
  rewrite (run_blocked (clearScene (scene (currentTabInfo s1))) s1 B1).
  set (s2 := set_scene TabCurrent _ s1).
  assert (B2 : signalsBlocked (currentTabInfo s2) = true) by reflexivity.
  rewrite (run_blocked (loadFromMemory state (scene (currentTabInfo s2)))
                       s2 B2).
  set (s3 := set_scene TabCurrent _ s2).
  transitivity (scene (currentTabInfo
                  (refreshNodesLayout (layout (scene (currentTabInfo s3)))
                                      s3)));
    [reflexivity|].
  rewrite refreshNodesLayout_cur_scene. reflexivity.
Qed.

(** ** Undo and redo on the store *)

Lemma redo_undo_store (st : Store) :
  fst (fst st) <> [] -> redo_store (undo_store st) = st.
Proof.
  destruct st as [[u r] c]. destruct u as [|back rest]; simpl;
    [congruence|reflexivity].
Qed.

Lemma undo_store_length (st : Store) :
  length (fst (fst (undo_store st))) = pred (length (fst (fst st))).
Proof. destruct st as [[[|back rest] r] c]; reflexivity. Qed.

Lemma iter_undo_store_length (n : nat) (st : Store) :
  length (fst (fst (Nat.iter n undo_store st)))
  = length (fst (fst st)) - n.
Proof.
  induction n as [|n IH]; simpl; [lia|].
  rewrite undo_store_length, IH. lia.
Qed.

Lemma iter_undo_store_empty (n : nat) (r : list QByteArray) (c : QByteArray) :
  Nat.iter n undo_store ([], r, c) = ([], r, c).
Proof. induction n as [|n IH]; simpl; [|rewrite IH]; reflexivity. Qed.

Lemma iter_redo_store_empty (n : nat) (u : list QByteArray) (c : QByteArray) :
  Nat.iter n redo_store (u, [], c) = (u, [], c).
Proof. induction n as [|n IH]; simpl; [|rewrite IH]; reflexivity. Qed.

(** As many redos as undos, within the depth of the undo stack, give the
    store back. *)
Lemma redo_undo_iter_within (n : nat) (st : Store) :
  n <= length (fst (fst st)) ->
  Nat.iter n redo_store (Nat.iter n undo_store st) = st.
Proof.
  revert st. induction n as [|n IH]; intros st H; [reflexivity|].
  rewrite (Nat.iter_succ_r n _ undo_store st).
  rewrite (Nat.iter_succ n _ redo_store).
  rewrite IH by (rewrite undo_store_length; lia).
  apply redo_undo_store. destruct (fst (fst st)); simpl in *; [lia|congruence].
Qed.

(** With an empty redo stack the count does not matter: the undos past
    the bottom and the redos past the top do nothing. *)
Lemma redo_undo_iter (n : nat) (st : Store) :
  snd (fst st) = [] ->
  Nat.iter n redo_store (Nat.iter n undo_store st) = st.
Proof.
  intros R. destruct (Nat.le_gt_cases n (length (fst (fst st)))) as [L|L].
  - apply redo_undo_iter_within. exact L.
  - set (k := length (fst (fst st))).
    replace n with ((n - k) + k) by lia.
    rewrite (Nat.iter_add (n - k) k _ undo_store).
    assert (Y : fst (fst (Nat.iter k undo_store st)) = []).
    { apply length_zero_iff_nil. rewrite iter_undo_store_length.
      unfold k. lia. }
    destruct (Nat.iter k undo_store st) as [[u r] c] eqn:I.
    simpl in Y. subst u. rewrite iter_undo_store_empty.
    rewrite (Nat.iter_add (n - k) k _ redo_store).
    rewrite <- I. rewrite redo_undo_iter_within by (unfold k; lia).
    destruct st as [[u0 r0] c0]. simpl in R. subst r0.
    apply iter_redo_store_empty.
Qed.

Lemma store_of_log (e : Event) (s : MainWindow) :
  store_of (log e s) = store_of s.
Proof. reflexivity. Qed.

Lemma mode_log (e : Event) (s : MainWindow) :
  _current_mode (log e s) = _current_mode s.
Proof. reflexivity. Qed.

Lemma store_of_same (s s' : MainWindow) :
  same_store s s' <-> store_of s' = store_of s.
Proof.
  unfold same_store, store_of. split.
  - intros (A & B & C). congruence.
  - intros H. injection H as A B C. auto.
Qed.

(** [onUndoInvoked] and [onRedoInvoked] act on the store as
    [undo_store] and [redo_store]. *)
Lemma onUndoInvoked_store (s : MainWindow) :
  _current_mode s = EDITOR ->
  store_of (onUndoInvoked s) = undo_store (store_of s)
  /\ _current_mode (onUndoInvoked s) = EDITOR.
Proof.
  intros M. unfold onUndoInvoked. rewrite M. cbn [GraphicMode_eqb negb].
  destruct (_undo_stack s) as [|back rest] eqn:U.
  - unfold store_of. rewrite U. split; [reflexivity|exact M].
  - cbv zeta. set (s1 := set_history rest (_current_state s :: _redo_stack s) back s).
    destruct (loadSceneFromYAML_history (_current_state s1) s1)
      as (S1 & M1 & _).
    rewrite store_of_log. apply store_of_same in S1. rewrite S1.
    unfold store_of at 2. rewrite U. split; [reflexivity|].
    rewrite mode_log, M1. exact M.
Qed.

Lemma onRedoInvoked_store (s : MainWindow) :
  _current_mode s = EDITOR ->
  store_of (onRedoInvoked s) = redo_store (store_of s)
  /\ _current_mode (onRedoInvoked s) = EDITOR.
Proof.
  intros M. unfold onRedoInvoked. rewrite M. cbn [GraphicMode_eqb negb].
  destruct (_redo_stack s) as [|back rest] eqn:U.
  - unfold store_of. rewrite U. split; [reflexivity|exact M].
  - cbv zeta. set (s1 := set_history (_current_state s :: _undo_stack s) rest back s).
    destruct (loadSceneFromYAML_history (_current_state s1) s1)
      as (S1 & M1 & _).
    rewrite store_of_log. apply store_of_same in S1. rewrite S1.
    unfold store_of at 2. rewrite U. split; [reflexivity|].
    rewrite mode_log, M1. exact M.
Qed.

Lemma iter_onUndoInvoked_store (n : nat) (s : MainWindow) :
  _current_mode s = EDITOR ->
  store_of (Nat.iter n onUndoInvoked s) = Nat.iter n undo_store (store_of s)
  /\ _current_mode (Nat.iter n onUndoInvoked s) = EDITOR.
Proof.
  intros M. induction n as [|n [IH IM]]; simpl; [split; trivial|].
  destruct (onUndoInvoked_store _ IM) as (A & B).
  rewrite A, IH. split; [reflexivity|exact B].
Qed.

Lemma iter_onRedoInvoked_store (n : nat) (s : MainWindow) :
  _current_mode s = EDITOR ->
  store_of (Nat.iter n onRedoInvoked s) = Nat.iter n redo_store (store_of s)
  /\ _current_mode (Nat.iter n onRedoInvoked s) = EDITOR.
Proof.
  intros M. induction n as [|n [IH IM]]; simpl; [split; trivial|].
  destruct (onRedoInvoked_store _ IM) as (A & B).
  rewrite A, IH. split; [reflexivity|exact B].
Qed.

Lemma iter_locked (n : nat) (f : MainWindow -> MainWindow) (s : MainWindow) :
  f s = s -> Nat.iter n f s = s.
Proof. intros H. induction n as [|n IH]; simpl; congruence. Qed.

(** Undo [n] times, then redo [n] times: the store is back, whenever
    the redo stack was empty. *)
Lemma undo_redo_store (n : nat) (s : MainWindow) :
  _redo_stack s = [] ->
  same_store s (Nat.iter n onRedoInvoked (Nat.iter n onUndoInvoked s)).
Proof.
  intros R. apply store_of_same.
  destruct (_current_mode s) eqn:M.
  - destruct (iter_onUndoInvoked_store n s M) as (A & B).
    destruct (iter_onRedoInvoked_store n _ B) as (C & _).
    rewrite C, A. apply redo_undo_iter. exact R.
  - assert (L : _current_mode s <> EDITOR) by congruence.
    destruct (locked_noop s L) as (A & B).
    rewrite (@iter_locked n onUndoInvoked s A).
    rewrite (@iter_locked n onRedoInvoked s B). reflexivity.
  - assert (L : _current_mode s <> EDITOR) by congruence.
    destruct (locked_noop s L) as (A & B).
    rewrite (@iter_locked n onUndoInvoked s A).
    rewrite (@iter_locked n onRedoInvoked s B). reflexivity.
Qed.

(** ** Edits *)

Lemma user_edit_unfold (sc : FlowScene) (s : MainWindow) :
  signalsBlocked (currentTabInfo s) = false ->
  user_edit sc s
  = set_scene TabCurrent sc
      (onSceneChanged (onPushUndo (set_scene TabCurrent sc s))).
Proof.
  intros B. unfold user_edit, run. simpl.
  unfold emit_undoableChange. simpl. rewrite B. reflexivity.
Qed.

Lemma user_edit_effect (sc : FlowScene) (s : MainWindow) :
  _undo_enabled s = true ->
  signalsBlocked (currentTabInfo s) = false ->
  _undo_stack (user_edit sc s)
  = (if push_rule (set_scene TabCurrent sc s)
     then _current_state s :: _undo_stack s else _undo_stack s)
  /\ _redo_stack (user_edit sc s)
     = (if push_rule (set_scene TabCurrent sc s) then []
        else _redo_stack s)
  /\ _current_state (user_edit sc s) = saveToMemory sc
  /\ _undo_enabled (user_edit sc s) = true
  /\ signalsBlocked (currentTabInfo (user_edit sc s)) = false
  /\ _current_mode (user_edit sc s) = _current_mode s
  /\ scene (currentTabInfo (user_edit sc s)) = sc.
Proof.
  intros En B. rewrite (user_edit_unfold sc s B).
  set (s1 := set_scene TabCurrent sc s).
  assert (En1 : _undo_enabled s1 = true) by exact En.
  destruct (onPushUndo_enabled s1 En1) as (U & R & C & En' & M & _ & Bl & _).
  repeat split; try assumption.
  simpl. rewrite Bl. exact B.
Qed.

Lemma after_edits_cons (sc : FlowScene) (edits : list FlowScene)
                       (s : MainWindow) :
  after_edits (sc :: edits) s = after_edits edits (user_edit sc s).
Proof. reflexivity. Qed.

(** What a run of edits keeps: the switch on, the container unblocked,
    the mode, an empty redo stack; and what it leaves: the last scene,
    and its snapshot as current state over a stack that is not empty. *)
Lemma after_edits_inv (edits : list FlowScene) (s : MainWindow) :
  _undo_enabled s = true ->
  signalsBlocked (currentTabInfo s) = false ->
  _redo_stack s = [] ->
  _undo_enabled (after_edits edits s) = true
  /\ signalsBlocked (currentTabInfo (after_edits edits s)) = false
  /\ _current_mode (after_edits edits s) = _current_mode s
  /\ _redo_stack (after_edits edits s) = []
  /\ scene (currentTabInfo (after_edits edits s))
     = last edits (scene (currentTabInfo s))
  /\ (edits <> [] ->
      _undo_stack (after_edits edits s) <> []
      /\ _current_state (after_edits edits s)
         = saveToMemory (last edits (scene (currentTabInfo s)))).
Proof.
  revert s. induction edits as [|sc edits IH]; intros s En B R.
  - simpl. repeat split; try assumption; congruence.
  - rewrite after_edits_cons.
    destruct (user_edit_effect sc s En B)
      as (U1 & R1 & C1 & En1 & B1 & M1 & S1).
    assert (R1' : _redo_stack (user_edit sc s) = []).
    { rewrite R1. destruct (push_rule _); [reflexivity|exact R]. }
    assert (N1 : _undo_stack (user_edit sc s) <> []).
    { rewrite U1. unfold push_rule. simpl.
      destruct (_undo_stack s); simpl; [congruence|].
      destruct (negb _ && negb _); congruence. }
    destruct (IH (user_edit sc s) En1 B1 R1') as (A & Bk & M & Rd & Sc & L).
    rewrite S1 in Sc, L.
    assert (LL : forall d, last (sc :: edits) d = last edits sc).
    { intros d. destruct edits; [reflexivity|].
      simpl. clear. revert f. induction edits; intros; simpl; [reflexivity|].
      apply IHedits. }
    rewrite LL. repeat split; try assumption; try congruence.
    + destruct edits as [|sc' edits']; [exact N1|].
      apply L. congruence.
    + destruct edits as [|sc' edits']; [exact C1|].
      apply L. congruence.
Qed.

(** When every edit changes the snapshot, every push adds one entry. *)
Lemma after_edits_length (edits : list FlowScene) (s : MainWindow) :
  _undo_enabled s = true ->
  signalsBlocked (currentTabInfo s) = false ->
  match _undo_stack s with
  | [] => True
  | back :: _ => back <> _current_state s
  end ->
  each_changes (_current_state s) (map saveToMemory edits) = true ->
  length (_undo_stack (after_edits edits s))
  = length (_undo_stack s) + length edits.
Proof.
  revert s. induction edits as [|sc edits IH]; intros s En B T Ch.
  - simpl. lia.
  - rewrite after_edits_cons. simpl in Ch.
    apply andb_true_iff in Ch. destruct Ch as [Ne Ch].
    destruct (user_edit_effect sc s En B) as (U1 & _ & C1 & En1 & B1 & _).
    assert (P : push_rule (set_scene TabCurrent sc s) = true).
    { unfold push_rule. simpl. destruct (_undo_stack s) as [|back rest];
        [reflexivity|].
      rewrite Ne. simpl. apply negb_true_iff. apply String.eqb_neq. exact T. }
    rewrite P in U1.
    rewrite IH; try assumption.
    + rewrite U1. simpl. lia.
    + rewrite U1, C1. apply negb_true_iff in Ne.
      apply String.eqb_neq in Ne. congruence.
    + rewrite C1. exact Ch.
Qed.

(** ** Undo/redo duality *)

Lemma restored_log (e : Event) (s : MainWindow) :
  restored s -> restored (log e s).
Proof. intros H. exact H. Qed.

Lemma onUndoInvoked_restored (s : MainWindow) :
  (_current_mode s = EDITOR /\ _undo_stack s <> []) \/ restored s ->
  restored (onUndoInvoked s).
Proof.
  intros H. unfold onUndoInvoked.
  destruct (_current_mode s) eqn:M; cbn [GraphicMode_eqb negb];
    try (destruct H as [[H _]|H]; [discriminate|exact H]).
  destruct (_undo_stack s) as [|back rest] eqn:U.
  - destruct H as [[_ H]|H]; [congruence|exact H].
  - cbv zeta.
    set (s1 := set_history rest (_current_state s :: _redo_stack s) back s).
    apply restored_log. unfold restored, restored_from.
    exists (scene (currentTabInfo s1)).
    destruct (loadSceneFromYAML_history (_current_state s1) s1)
      as ((_ & _ & C) & _).
    rewrite C. apply loadSceneFromYAML_scene.
Qed.

Lemma onRedoInvoked_restored (s : MainWindow) :
  (_current_mode s = EDITOR /\ _redo_stack s <> []) \/ restored s ->
  restored (onRedoInvoked s).
Proof.
  intros H. unfold onRedoInvoked.
  destruct (_current_mode s) eqn:M; cbn [GraphicMode_eqb negb];
    try (destruct H as [[H _]|H]; [discriminate|exact H]).
  destruct (_redo_stack s) as [|back rest] eqn:U.
  - destruct H as [[_ H]|H]; [congruence|exact H].
  - cbv zeta.
    set (s1 := set_history (_current_state s :: _undo_stack s) rest back s).
    apply restored_log. unfold restored, restored_from.
    exists (scene (currentTabInfo s1)).
    destruct (loadSceneFromYAML_history (_current_state s1) s1)
      as ((_ & _ & C) & _).
    rewrite C. apply loadSceneFromYAML_scene.
Qed.

(** C3.  Start with empty history; make [n] edits, each followed by the
    push its signal triggers; undo [n] times, then redo [n] times.  The
    store is the one after the last edit: same undo stack, same current
    state (the snapshot of the last edit), same (empty) redo stack.  In
    EDITOR mode the live scene is the one rebuilt from that snapshot; in
    the other modes nothing moved at all.  When every edit changes the
    snapshot, the undo stack holds exactly [n] entries, before and
    after. *)
Theorem undo_redo_duality (edits : list FlowScene) (s0 : MainWindow) :
  _undo_enabled s0 = true ->
  signalsBlocked (currentTabInfo s0) = false ->
  _undo_stack s0 = [] ->
  _redo_stack s0 = [] ->
  let n := length edits in
  let s := after_edits edits s0 in
  let s' := Nat.iter n onRedoInvoked (Nat.iter n onUndoInvoked s) in
  same_store s s'
  /\ (edits <> [] ->
      _current_state s'
      = saveToMemory (last edits (scene (currentTabInfo s0))))
  /\ (edits <> [] -> _current_mode s0 = EDITOR ->
      restored_from (_current_state s) (scene (currentTabInfo s')))
  /\ (_current_mode s0 <> EDITOR -> s' = s)
  /\ (each_changes (_current_state s0) (map saveToMemory edits) = true ->
      length (_undo_stack s) = n /\ length (_undo_stack s') = n).
Proof.
  intros En B U R n s s'.
  destruct (after_edits_inv edits s0 En B R) as (_ & _ & M & Rd & _ & L).
  fold s in M, Rd, L.
  assert (SS : same_store s s') by (apply undo_redo_store; exact Rd).
  split; [exact SS|]. destruct SS as (SU & _ & SC).
  split; [|split; [|split]].
  - intros Ne. rewrite SC. apply L. exact Ne.
  - intros Ne Md. rewrite <- SC.
    assert (Ms : _current_mode s = EDITOR) by congruence.
    assert (Rs : restored (Nat.iter n onUndoInvoked s)).
    { assert (Hn : n = S (pred n)).
      { unfold n. destruct edits; [congruence|reflexivity]. }
      rewrite Hn, (Nat.iter_succ_r (pred n) _ onUndoInvoked s).
      apply Nat.iter_invariant.
      - intros x Hx. apply onUndoInvoked_restored. right. exact Hx.
      - apply onUndoInvoked_restored. left. split; [exact Ms|].
        apply L. exact Ne. }
    apply (Nat.iter_invariant n _ onRedoInvoked restored); [|exact Rs].
    intros x Hx. apply onRedoInvoked_restored. right. exact Hx.
  - intros Md. assert (Ms : _current_mode s <> EDITOR) by congruence.
    destruct (locked_noop s Ms) as (A & A').
    unfold s'. rewrite (@iter_locked n onUndoInvoked s A).
    apply (@iter_locked n onRedoInvoked s A').
  - intros Ch.
    assert (Len : length (_undo_stack s) = n).
    { unfold s. rewrite after_edits_length; try assumption.
      - rewrite U. reflexivity.
      - rewrite U. exact I. }
    split; [exact Len|]. rewrite SU. exact Len.
Qed.

(** ** Save *)

(** C5.  When the document has no root, several roots, or one root
    whose number of children is not one, save stops at the warning:
    no file is written, nothing else changes, whatever the dialog and
    the file system would have answered. *)
Theorem save_rejects_invalid (accepted : bool) (selectedFiles : list QString)
                             (opens : bool) (s : MainWindow) :
  (length (findRoots (scene (currentTabInfo s))) <> 1
   \/ exists r, findRoots (scene (currentTabInfo s)) = [r]
                /\ length (getChildren (scene (currentTabInfo s)) r) <> 1) ->
  on_actionSave_triggered accepted selectedFiles opens s
  = log (MsgWarning "Oops!"
           "Malformed behavior tree. There must be only 1 root node") s
  /\ files (world (on_actionSave_triggered accepted selectedFiles opens s))
     = files (world s)
  /\ lastSaveDirectory
       (world (on_actionSave_triggered accepted selectedFiles opens s))
     = lastSaveDirectory (world s).
Proof.
  intros H.
  assert (N : save_entry (scene (currentTabInfo s)) = None).
  { unfold save_entry. destruct H as [H|(r & Hr & Hc)].
    - destruct (Nat.eqb_spec (length (findRoots (scene (currentTabInfo s)))) 1)
        as [K|K]; [contradiction|reflexivity].
    - rewrite Hr. simpl.
      destruct (isRootNodeModel (scene (currentTabInfo s)) r); [|reflexivity].
      destruct (getChildren (scene (currentTabInfo s)) r) as [|c [|c' l]];
        simpl in Hc; try reflexivity. congruence. }
  unfold on_actionSave_triggered. rewrite N. repeat split.
Qed.

(** ** The save action and the validity check *)

Lemma save_check_frame (s s' : MainWindow) :
  ui s' = ui s ->
  scene (currentTabInfo s') = scene (currentTabInfo s) ->
  save_check_ok s -> save_check_ok s'.
Proof.
  unfold save_check_ok, valid_BT. intros U S H. rewrite U, S. exact H.
Qed.

Lemma onPushUndo_ui (s : MainWindow) : ui (onPushUndo s) = ui s.
Proof.
  destruct s as [md ly en us rs cs g m tb tc ta u w].
  unfold onPushUndo. simpl. destruct en; simpl; [|reflexivity].
  destruct us as [|back rest]; simpl; [reflexivity|].
  destruct (negb _ && negb _); reflexivity.
Qed.

Lemma save_check_onSceneChanged (s : MainWindow) :
  save_check_ok (onSceneChanged s).
Proof. reflexivity. Qed.

Lemma save_check_loadSceneFromYAML (state : QByteArray) (s : MainWindow) :
  save_check_ok (loadSceneFromYAML state s).
Proof. unfold loadSceneFromYAML. apply save_check_onSceneChanged. Qed.

Lemma save_check_log (e : Event) (s : MainWindow) :
  save_check_ok s -> save_check_ok (log e s).
Proof. apply save_check_frame; reflexivity. Qed.

Lemma save_check_lockEditing (v : bool) (s : MainWindow) :
  save_check_ok s -> save_check_ok (lockEditing v s).
Proof. apply save_check_frame; reflexivity. Qed.

Lemma save_check_set_models (g : DataModelRegistry) (m : TreeNodesModel)
                            (s : MainWindow) :
  save_check_ok s -> save_check_ok (set_models g m s).
Proof. apply save_check_frame; reflexivity. Qed.

Lemma save_check_onPushUndo (s : MainWindow) :
  save_check_ok s -> save_check_ok (onPushUndo s).
Proof.
  apply save_check_frame;
    [apply onPushUndo_ui|apply onPushUndo_cur_scene].
Qed.

Lemma strict_valid_valid_BT (s : MainWindow) :
  strict_valid (scene (currentTabInfo s)) = true -> valid_BT s = true.
Proof.
  unfold strict_valid, valid_BT.
  destruct (findRoots (scene (currentTabInfo s))) as [|r [|r' l]];
    simpl; congruence.
Qed.

Lemma save_check_onUndoInvoked (s : MainWindow) :
  save_check_ok s -> save_check_ok (onUndoInvoked s).
Proof.
  intros H. unfold onUndoInvoked.
  destruct (negb _); [exact H|].
  destruct (_undo_stack s); [exact H|]. cbv zeta.
  apply save_check_log, save_check_loadSceneFromYAML.
Qed.

Lemma save_check_onRedoInvoked (s : MainWindow) :
  save_check_ok s -> save_check_ok (onRedoInvoked s).
Proof.
  intros H. unfold onRedoInvoked.
  destruct (negb _); [exact H|].
  destruct (_redo_stack s); [exact H|]. cbv zeta.
  apply save_check_log, save_check_loadSceneFromYAML.
Qed.

Lemma Returned_inj (a b : MainWindow) : Returned a = Returned b -> a = b.
Proof. intros H. congruence. Qed.

Lemma save_check_loadFromXML (text : QString) (s s' : MainWindow) :
  save_check_ok s -> loadFromXML text s = Returned s' -> save_check_ok s'.
Proof.
  intros H. unfold loadFromXML. cbv beta zeta.
  destruct (fst (XMLDocument_Parse _ _)).
  2:{ intros K. apply Returned_inj in K. subst s'.
      apply save_check_lockEditing. exact H. }
  destruct (ReadTreeNodesModel _ _ _) as [[g m] [[w|w]|]].
  - intros K. apply Returned_inj in K. subst s'.
    apply save_check_log, save_check_set_models. exact H.
  - discriminate.
  - destruct (snd (XMLDocument_Parse _ _)) as [root|]; [|discriminate].
    destruct (snd (rebuild_from_XML _ _)).
    + intros K. apply Returned_inj in K. subst s'.
      apply save_check_lockEditing, save_check_log, save_check_log,
        save_check_loadSceneFromYAML.
    + intros K. apply Returned_inj in K. subst s'.
      apply save_check_lockEditing, save_check_onPushUndo,
        save_check_onSceneChanged.
Qed.

(** C7, as the code has it.  After every structural change (an edit on
    the canvas, undo, redo, a load from XML, any call of
    [onSceneChanged]) the save action is enabled exactly when the
    document has exactly one root.  The category of that root and the
    number of its children are not looked at here; a document that
    meets the stricter condition has the action enabled. *)
Theorem save_enabled_iff_single_root (s : MainWindow) :
  save_check_ok (onSceneChanged s)
  /\ (forall sc, signalsBlocked (currentTabInfo s) = false ->
                 save_check_ok (user_edit sc s))
  /\ (save_check_ok s -> save_check_ok (onUndoInvoked s))
  /\ (save_check_ok s -> save_check_ok (onRedoInvoked s))
  /\ (save_check_ok s ->
      forall text s', loadFromXML text s = Returned s' -> save_check_ok s')
  /\ (strict_valid (scene (currentTabInfo s)) = true -> valid_BT s = true).
Proof.
  split; [apply save_check_onSceneChanged|].
  split; [|split; [|split; [|split]]].
  - intros sc B. rewrite (user_edit_unfold sc s B).
    unfold save_check_ok.
    change (valid_BT (onPushUndo (set_scene TabCurrent sc s))
            = Nat.eqb (length (findRoots sc)) 1).
    unfold valid_BT. rewrite onPushUndo_cur_scene. reflexivity.
  - apply save_check_onUndoInvoked.
  - apply save_check_onRedoInvoked.
  - intros H text s'. apply save_check_loadFromXML. exact H.
  - apply strict_valid_valid_BT.
Qed.

(** ** A load that fails *)

Lemma clear_for_load_scene (s : MainWindow) :
  scene (currentTabInfo (clear_for_load s))
  = final (clearScene (scene (currentTabInfo s))).
Proof.
  unfold clear_for_load. rewrite run_blocked by reflexivity. reflexivity.
Qed.

Lemma rebuild_from_XML_thrown (root : XMLNode) (s : MainWindow) :
  snd (rebuild_from_XML root s)
  = snd (CreateTreeInSceneFromXML (FirstChildElement root "BehaviorTree")
                                  (_model_registry s)
                                  (scene (currentTabInfo s))).
Proof. reflexivity. Qed.

(** The report of a failed load touches only the event log and the
    lock flags. *)
Lemma report_frame (e1 e2 : Event) (v : bool) (y : MainWindow) :
  store_of (lockEditing v (log e1 (log e2 y))) = store_of y
  /\ scene (currentTabInfo (lockEditing v (log e1 (log e2 y))))
     = scene (currentTabInfo y)
  /\ _tree_nodes_model (lockEditing v (log e1 (log e2 y)))
     = _tree_nodes_model y
  /\ _model_registry (lockEditing v (log e1 (log e2 y))) = _model_registry y
  /\ events (world (lockEditing v (log e1 (log e2 y))))
     = e1 :: e2 :: events (world y).
Proof. repeat split. Qed.

Lemma parse_failure_text_not_empty (w : string) :
  parse_failure_text w <> EmptyString.
Proof. unfold parse_failure_text. simpl. discriminate. Qed.

(** The failed build is rolled back: the report and the restore. *)
Lemma failed_build_rolled_back (xml_text : QString) (root : XMLNode)
                               (err : exn) (g : DataModelRegistry)
                               (m : TreeNodesModel) (s : MainWindow) :
  XMLDocument_Parse (toStdString xml_text) (String.length xml_text)
  = (0, Some root) ->
  ReadTreeNodesModel (Some root) (_model_registry s) (_tree_nodes_model s)
  = (g, m, None) ->
  snd (CreateTreeInSceneFromXML
         (FirstChildElement root "BehaviorTree") g
         (final (clearScene (scene (currentTabInfo s)))))
  = Some err ->
  exists s' x,
    loadFromXML xml_text s = Returned s'
    /\ same_store s s'
    /\ pushes s' = pushes s
    /\ scene (currentTabInfo s')
       = final (loadFromMemory (_current_state s) (final (clearScene x)))
    /\ hd_error (messages s')
       = Some (MsgWarning "Exception!" (parse_failure_text (what err)))
    /\ _tree_nodes_model s' = m
    /\ _model_registry s' = g.
Proof.
  intros HP HR HC. unfold loadFromXML. rewrite HP. cbn [fst snd].
  rewrite HR. cbv beta zeta.
  set (s0 := set_models g m s).
  set (s1 := clear_for_load s0).
  pose proof (clear_for_load_history s0) as H1. fold s1 in H1.
  pose proof (rebuild_from_XML_history root s1) as H2.
  pose proof (same_history_trans H1 H2) as H12.
  destruct H12 as [(U & R & C) (_ & _ & P & TM & RG)].
  destruct H1 as [(_ & _ & C1) (_ & _ & _ & _ & RG1)].
  assert (T : snd (rebuild_from_XML root s1) = Some err).
  { rewrite rebuild_from_XML_thrown. rewrite RG1.
    unfold s1. rewrite clear_for_load_scene. exact HC. }
  rewrite T. cbv zeta.
  set (x := fst (rebuild_from_XML root s1)) in *.
  destruct (loadSceneFromYAML_history (_current_state s1) x)
    as ((U' & R' & C') & _ & _ & P' & TM' & RG').
  pose proof (loadSceneFromYAML_scene (_current_state s1) x) as Sc.
  set (y := loadSceneFromYAML (_current_state s1) x) in *.
  exists (lockEditing
            (negb (GraphicMode_eqb
                     (_current_mode
                        (log (MsgWarning "Exception!"
                                (parse_failure_text (what err)))
                           (log (DebugSizes "R" (length (_undo_stack y))
                                            (length (_redo_stack y))) y)))
                     EDITOR))
            (log (MsgWarning "Exception!" (parse_failure_text (what err)))
               (log (DebugSizes "R" (length (_undo_stack y))
                                (length (_redo_stack y))) y))),
         (scene (currentTabInfo x)).
  split; [reflexivity|].
  assert (Sx : store_of x = store_of s)
    by (apply store_of_same; repeat split; assumption).
  assert (Sy : store_of y = store_of x)
    by (apply store_of_same; repeat split; assumption).
  destruct (report_frame
              (MsgWarning "Exception!" (parse_failure_text (what err)))
              (DebugSizes "R" (length (_undo_stack y))
                          (length (_redo_stack y)))
              (negb (GraphicMode_eqb
                       (_current_mode
                          (log (MsgWarning "Exception!"
                                  (parse_failure_text (what err)))
                             (log (DebugSizes "R" (length (_undo_stack y))
                                              (length (_redo_stack y))) y)))
                       EDITOR)) y)
    as (F1 & F2 & F3 & F4 & F5).
  split; [|split; [|split; [|split; [|split]]]].
  - apply store_of_same. rewrite F1, Sy. exact Sx.
  - unfold pushes. rewrite F5. change (pushes y = pushes s).
    rewrite P'. exact P.
  - rewrite F2, Sc, C1. reflexivity.
  - unfold messages. rewrite F5. reflexivity.
  - rewrite F3, TM'. exact TM.
  - rewrite F4, RG'. exact RG.
Qed.

(** C2, as the code has it.  However a load fails, the two stacks and
    [_current_state] are those from before the load and no push ran;
    what else holds depends on where it fails.

    A text that does not parse: [loadFromXML] returns; the document and
    the node models are untouched; but no message is reported.

    A model section that throws: a [std::runtime_error] makes
    [loadFromXML] return with the critical message that carries the
    exception's text, any other exception leaves the slot with no
    message; the document is untouched; the node models and the
    registry are those [ReadTreeNodesModel] had reached.

    A parsed text without a root element, whose model section is
    accepted: the slot dereferences the null root.

    A tree that throws while it is built: [loadFromXML] returns; the
    document is rebuilt (clear, then load) from the [_current_state]
    of before the load, so that, when [_current_state] was the snapshot
    of the document and a snapshot loaded on a cleared scene gives that
    snapshot again, the document has the snapshot it had before the
    load; the last message box is the warning that carries the
    exception's text, and it is not empty; the node models are not
    rolled back: [_tree_nodes_model] and the registry are the ones
    just read from the file. *)
Theorem failed_load_rolls_back (xml_text : QString) (s : MainWindow) :
  (fst (XMLDocument_Parse (toStdString xml_text) (String.length xml_text))
   <> 0 ->
   exists s',
     loadFromXML xml_text s = Returned s'
     /\ same_store s s'
     /\ pushes s' = pushes s
     /\ scene (currentTabInfo s') = scene (currentTabInfo s)
     /\ _tree_nodes_model s' = _tree_nodes_model s
     /\ _model_registry s' = _model_registry s
     /\ messages s' = messages s)
  /\ (forall g m e,
        fst (XMLDocument_Parse (toStdString xml_text)
                               (String.length xml_text)) = 0 ->
        ReadTreeNodesModel
          (snd (XMLDocument_Parse (toStdString xml_text)
                                  (String.length xml_text)))
          (_model_registry s) (_tree_nodes_model s)
        = (g, m, Some e) ->
        exists s',
          loadFromXML xml_text s
          = match e with
            | runtime_error _ => Returned s'
            | logic_error _ => Escaped e s'
            end
          /\ same_store s s'
          /\ pushes s' = pushes s
          /\ scene (currentTabInfo s') = scene (currentTabInfo s)
          /\ messages s'
             = match e with
               | runtime_error w => MsgCritical "Error" w :: messages s
               | logic_error _ => messages s
               end
          /\ _tree_nodes_model s' = m
          /\ _model_registry s' = g)
  /\ (forall g m,
        XMLDocument_Parse (toStdString xml_text) (String.length xml_text)
        = (0, None) ->
        ReadTreeNodesModel None (_model_registry s) (_tree_nodes_model s)
        = (g, m, None) ->
        loadFromXML xml_text s = NullDereference)
  /\ (forall root g m err,
        XMLDocument_Parse (toStdString xml_text) (String.length xml_text)
        = (0, Some root) ->
        ReadTreeNodesModel (Some root) (_model_registry s)
                           (_tree_nodes_model s)
        = (g, m, None) ->
        snd (CreateTreeInSceneFromXML
               (FirstChildElement root "BehaviorTree") g
               (final (clearScene (scene (currentTabInfo s)))))
        = Some err ->
        exists s',
          loadFromXML xml_text s = Returned s'
          /\ same_store s s'
          /\ pushes s' = pushes s
          /\ restored_from (_current_state s) (scene (currentTabInfo s'))
          /\ (_current_state s = saveToMemory (scene (currentTabInfo s)) ->
              (forall x,
                 saveToMemory
                   (final (loadFromMemory (_current_state s)
                                          (final (clearScene x))))
                 = _current_state s) ->
              saveToMemory (scene (currentTabInfo s'))
              = saveToMemory (scene (currentTabInfo s)))
          /\ hd_error (messages s')
             = Some (MsgWarning "Exception!" (parse_failure_text (what err)))
          /\ parse_failure_text (what err) <> EmptyString
          /\ _tree_nodes_model s' = m
          /\ _model_registry s' = g).
Proof.
  split; [|split; [|split]].
  - intros H. unfold loadFromXML. cbv beta zeta.
    destruct (fst (XMLDocument_Parse _ _)); [contradiction|].
    eexists. split; [reflexivity|]. repeat split.
  - intros g m e H K. unfold loadFromXML. cbv beta zeta.
    rewrite H, K. destruct e as [w|w]; eexists;
      (split; [reflexivity|]); repeat split.
  - intros g m H K. unfold loadFromXML. cbv beta zeta.
    rewrite H. cbn [fst snd]. rewrite K. reflexivity.
  - intros root g m err HP HR HC.
    destruct (@failed_build_rolled_back xml_text root err g m s HP HR HC)
      as (s' & x & A & B & C & D & F & G & H).
    exists s'. split; [exact A|].
    split; [exact B|]. split; [exact C|]. split.
    { exists x. exact D. }
    split.
    { intros Sync Faith. rewrite D, (Faith x). exact Sync. }
    split; [exact F|]. split; [apply parse_failure_text_not_empty|].
    split; [exact G|exact H].
Qed.

(** ** The orientation toggle *)

Lemma nth_error_middle (A : Type) (pre l : list A) (x : A) :
  nth_error (pre ++ x :: l) (length pre) = Some x.
Proof. induction pre as [|y pre IH]; simpl; [reflexivity|exact IH]. Qed.

Lemma list_set_middle (A : Type) (pre l : list A) (x y : A) :
  list_set (length pre) y (pre ++ x :: l) = pre ++ y :: l.
Proof.
  induction pre as [|z pre IH]; simpl; [reflexivity|]. rewrite IH. reflexivity.
Qed.

Lemma relaid_same (new_layout : PortLayout) (c : GraphicContainer) :
  differs new_layout c = false -> relaid new_layout c = c.
Proof.
  unfold differs, relaid, relaid_scene. intros H.
  apply negb_false_iff in H. rewrite H. destruct c; reflexivity.
Qed.

Lemma relaid_differs (new_layout : PortLayout) (c : GraphicContainer) :
  differs new_layout c = true ->
  relaid new_layout c
  = {| scene := final (NodeReorder (setLayout new_layout (scene c))
                                   (BuildBehaviorTreeFromScene (scene c)));
       signalsBlocked := signalsBlocked c;
       locked := locked c |}.
Proof.
  unfold differs, relaid, relaid_scene. intros H.
  apply negb_true_iff in H. rewrite H. reflexivity.
Qed.

Lemma set_scene_before (sc : FlowScene) (pre l : list GraphicContainer)
                       (y c : GraphicContainer) (a : list GraphicContainer)
                       (s : MainWindow) :
  set_scene (TabBefore (length pre)) sc (set_tabs (pre ++ y :: l) c a s)
  = set_tabs (pre ++ with_scene sc y :: l) c a s.
Proof.
  unfold set_scene. simpl. rewrite nth_error_middle. simpl.
  rewrite list_set_middle. reflexivity.
Qed.

Lemma set_scene_after (sc : FlowScene) (pre l : list GraphicContainer)
                      (y c : GraphicContainer) (b : list GraphicContainer)
                      (s : MainWindow) :
  set_scene (TabAfter (length pre)) sc (set_tabs b c (pre ++ y :: l) s)
  = set_tabs b c (pre ++ with_scene sc y :: l) s.
Proof.
  unfold set_scene. simpl. rewrite nth_error_middle. simpl.
  rewrite list_set_middle. reflexivity.
Qed.

Lemma emit_before_blocked (pre l : list GraphicContainer)
                          (y c : GraphicContainer)
                          (a : list GraphicContainer) (s : MainWindow) :
  signalsBlocked y = true ->
  emit_undoableChange (TabBefore (length pre))
                      (set_tabs (pre ++ y :: l) c a s)
  = set_tabs (pre ++ y :: l) c a s.
Proof.
  intros B. unfold emit_undoableChange. simpl. rewrite nth_error_middle.
  rewrite B. reflexivity.
Qed.

Lemma emit_after_blocked (pre l : list GraphicContainer)
                         (y c : GraphicContainer)
                         (b : list GraphicContainer) (s : MainWindow) :
  signalsBlocked y = true ->
  emit_undoableChange (TabAfter (length pre))
                      (set_tabs b c (pre ++ y :: l) s)
  = set_tabs b c (pre ++ y :: l) s.
Proof.
  intros B. unfold emit_undoableChange. simpl. rewrite nth_error_middle.
  rewrite B. reflexivity.
Qed.

Lemma with_scene_twice (sc sc' : FlowScene) (c : GraphicContainer) :
  with_scene sc (with_scene sc' c) = with_scene sc c.
Proof. reflexivity. Qed.

(** A scene operation on a tab that delivers nothing only replaces the
    scene of that tab.  One lemma per place a tab can be in. *)
Lemma run_before_quiet (r : SceneRun FlowScene) (pre l : list GraphicContainer)
                       (x c : GraphicContainer) (a : list GraphicContainer)
                       (s : MainWindow) :
  signalsBlocked x = true \/ emitted r = [] ->
  run (TabBefore (length pre)) r (set_tabs (pre ++ x :: l) c a s)
  = set_tabs (pre ++ with_scene (final r) x :: l) c a s.
Proof.
  intros Q. unfold run.
  destruct Q as [B|Ne].
  - generalize (emitted r) as es. intros es.
    assert (G : forall y, signalsBlocked y = true ->
              set_scene (TabBefore (length pre)) (final r)
                (fold_left
                   (fun acc sc =>
                      emit_undoableChange (TabBefore (length pre))
                        (set_scene (TabBefore (length pre)) sc acc))
                   es (set_tabs (pre ++ y :: l) c a s))
              = set_tabs (pre ++ with_scene (final r) y :: l) c a s).
    { induction es as [|sc es IH]; intros y By.
      - simpl. apply set_scene_before.
      - cbn [fold_left]. rewrite set_scene_before.
        rewrite emit_before_blocked by exact By.
        rewrite IH by exact By. reflexivity. }
    apply G. exact B.
  - rewrite Ne. simpl. apply set_scene_before.
Qed.

Lemma run_after_quiet (r : SceneRun FlowScene) (pre l : list GraphicContainer)
                      (x c : GraphicContainer) (b : list GraphicContainer)
                      (s : MainWindow) :
  signalsBlocked x = true \/ emitted r = [] ->
  run (TabAfter (length pre)) r (set_tabs b c (pre ++ x :: l) s)
  = set_tabs b c (pre ++ with_scene (final r) x :: l) s.
Proof.
  intros Q. unfold run.
  destruct Q as [B|Ne].
  - generalize (emitted r) as es. intros es.
    assert (G : forall y, signalsBlocked y = true ->
              set_scene (TabAfter (length pre)) (final r)
                (fold_left
                   (fun acc sc =>
                      emit_undoableChange (TabAfter (length pre))
                        (set_scene (TabAfter (length pre)) sc acc))
                   es (set_tabs b c (pre ++ y :: l) s))
              = set_tabs b c (pre ++ with_scene (final r) y :: l) s).
    { induction es as [|sc es IH]; intros y By.
      - simpl. apply set_scene_after.
      - cbn [fold_left]. rewrite set_scene_after.
        rewrite emit_after_blocked by exact By.
        rewrite IH by exact By. reflexivity. }
    apply G. exact B.
  - rewrite Ne. simpl. apply set_scene_after.
Qed.

Lemma quiet_tab_run (new_layout : PortLayout) (x : GraphicContainer) :
  quiet_tab new_layout x ->
  differs new_layout x = true ->
  signalsBlocked (with_scene (setLayout new_layout (scene x)) x) = true
  \/ emitted (NodeReorder (setLayout new_layout (scene x))
                          (BuildBehaviorTreeFromScene (scene x))) = [].
Proof. intros Q D. exact (Q D). Qed.

(** The loop of [refreshNodesLayout] over the tabs before the current
    one, then over those after it: every tab is visited once. *)
Lemma relayout_before_loop (new_layout : PortLayout)
                           (L pre : list GraphicContainer)
                           (c : GraphicContainer)
                           (a : list GraphicContainer) (s : MainWindow)
                           (flag : bool) :
  Forall (quiet_tab new_layout) L ->
  fold_left (relayout_tab new_layout)
            (map TabBefore (seq (length pre) (length L)))
            (set_tabs (pre ++ L) c a s, flag)
  = (set_tabs (pre ++ map (relaid new_layout) L) c a s,
     flag || existsb (differs new_layout) L).
Proof.
  intros Q. revert pre flag.
  induction Q as [|x L Qx QL IH]; intros pre flag.
  - simpl. rewrite orb_false_r. reflexivity.
  - cbn [length seq map fold_left existsb].
    assert (Step : relayout_tab new_layout
                     (set_tabs (pre ++ x :: L) c a s, flag)
                     (TabBefore (length pre))
                   = (set_tabs (pre ++ relaid new_layout x :: L) c a s,
                      flag || differs new_layout x)).
    { unfold relayout_tab. cbn [fst tab_at tabs_before set_tabs].
      rewrite nth_error_middle.
      destruct (PortLayout_eqb (layout (scene x)) new_layout) eqn:D.
      - rewrite relaid_same by (unfold differs; rewrite D; reflexivity).
        unfold differs. rewrite D. simpl. rewrite orb_false_r. reflexivity.
      - assert (Dx : differs new_layout x = true)
          by (unfold differs; rewrite D; reflexivity).
        rewrite set_scene_before.
        rewrite run_before_quiet by (apply quiet_tab_run; assumption).
        rewrite (@relaid_differs new_layout _ Dx), Dx, orb_true_r. reflexivity. }
    rewrite Step.
    replace (pre ++ relaid new_layout x :: L)
      with ((pre ++ [relaid new_layout x]) ++ L)
      by (rewrite <- app_assoc; reflexivity).
    replace (S (length pre)) with (length (pre ++ [relaid new_layout x]))
      by (rewrite length_app; simpl; lia).
    rewrite IH. rewrite <- app_assoc, orb_assoc. reflexivity.
Qed.

Lemma relayout_after_loop (new_layout : PortLayout)
                          (L pre : list GraphicContainer)
                          (c : GraphicContainer)
                          (b : list GraphicContainer) (s : MainWindow)
                          (flag : bool) :
  Forall (quiet_tab new_layout) L ->
  fold_left (relayout_tab new_layout)
            (map TabAfter (seq (length pre) (length L)))
            (set_tabs b c (pre ++ L) s, flag)
  = (set_tabs b c (pre ++ map (relaid new_layout) L) s,
     flag || existsb (differs new_layout) L).
Proof.
  intros Q. revert pre flag.
  induction Q as [|x L Qx QL IH]; intros pre flag.
  - simpl. rewrite orb_false_r. reflexivity.
  - cbn [length seq map fold_left existsb].
    assert (Step : relayout_tab new_layout
                     (set_tabs b c (pre ++ x :: L) s, flag)
                     (TabAfter (length pre))
                   = (set_tabs b c (pre ++ relaid new_layout x :: L) s,
                      flag || differs new_layout x)).
    { unfold relayout_tab. cbn [fst tab_at tabs_after set_tabs].
      rewrite nth_error_middle.
      destruct (PortLayout_eqb (layout (scene x)) new_layout) eqn:D.
      - rewrite relaid_same by (unfold differs; rewrite D; reflexivity).
        unfold differs. rewrite D. simpl. rewrite orb_false_r. reflexivity.
      - assert (Dx : differs new_layout x = true)
          by (unfold differs; rewrite D; reflexivity).
        rewrite set_scene_after.
        rewrite run_after_quiet by (apply quiet_tab_run; assumption).
        rewrite (@relaid_differs new_layout _ Dx), Dx, orb_true_r. reflexivity. }
    rewrite Step.
    replace (pre ++ relaid new_layout x :: L)
      with ((pre ++ [relaid new_layout x]) ++ L)
      by (rewrite <- app_assoc; reflexivity).
    replace (S (length pre)) with (length (pre ++ [relaid new_layout x]))
      by (rewrite length_app; simpl; lia).
    rewrite IH. rewrite <- app_assoc, orb_assoc. reflexivity.
Qed.

Lemma relayout_current (new_layout : PortLayout)
                       (b a : list GraphicContainer) (c : GraphicContainer)
                       (s : MainWindow) (flag : bool) :
  signalsBlocked c = true ->
  relayout_tab new_layout (set_tabs b c a s, flag) TabCurrent
  = (set_tabs b (relaid new_layout c) a s, flag || differs new_layout c).
Proof.
  intros B. unfold relayout_tab. cbn [fst tab_at currentTabInfo set_tabs].
  destruct (PortLayout_eqb (layout (scene c)) new_layout) eqn:D.
  - rewrite relaid_same by (unfold differs; rewrite D; reflexivity).
    unfold differs. rewrite D. simpl. rewrite orb_false_r. reflexivity.
  - assert (Dx : differs new_layout c = true)
      by (unfold differs; rewrite D; reflexivity).
    rewrite run_blocked by exact B.
    rewrite (@relaid_differs new_layout _ Dx), Dx, orb_true_r. reflexivity.
Qed.

(** The whole loop, started under the blocker. *)
Lemma relayout_loop (new_layout : PortLayout) (s : MainWindow) :
  background_quiet new_layout s ->
  fold_left (relayout_tab new_layout) (all_tabs s)
            (blockSignals true s, false)
  = (set_tabs (map (relaid new_layout) (tabs_before s))
              (relaid new_layout
                 {| scene := scene (currentTabInfo s);
                    signalsBlocked := true;
                    locked := locked (currentTabInfo s) |})
              (map (relaid new_layout) (tabs_after s)) s,
     any_differs new_layout s).
Proof.
  intros [Qb Qa]. unfold all_tabs. rewrite fold_left_app.
  change (blockSignals true s)
    with (set_tabs ([] ++ tabs_before s)
                   {| scene := scene (currentTabInfo s);
                      signalsBlocked := true;
                      locked := locked (currentTabInfo s) |}
                   (tabs_after s) s).
  rewrite (relayout_before_loop [] _ _ s false Qb).
  cbn [fold_left app]. rewrite relayout_current by reflexivity.
  change (tabs_after s) with ([] ++ tabs_after s) at 1 2.
  rewrite (relayout_after_loop [] _ _ s _ Qa).
  unfold any_differs. rewrite existsb_app. simpl.
  rewrite orb_assoc. reflexivity.
Qed.

Lemma onPushUndo_tabs (s : MainWindow) :
  tabs_before (onPushUndo s) = tabs_before s
  /\ currentTabInfo (onPushUndo s) = currentTabInfo s
  /\ tabs_after (onPushUndo s) = tabs_after s
  /\ _current_layout (onPushUndo s) = _current_layout s.
Proof.
  destruct s as [md ly en us rs cs g m tb tc ta u w].
  unfold onPushUndo. simpl. destruct en; simpl; [|repeat split].
  destruct tc as [sc bl lk].
  destruct us as [|back rest]; simpl; [repeat split|].
  destruct (negb _ && negb _); repeat split.
Qed.

(** [refreshNodesLayout] when no background tab reaches a slot: the
    tabs are laid out, nothing else moves, and one push follows when
    some tab differed. *)
Lemma refreshNodesLayout_effect (new_layout : PortLayout) (s : MainWindow) :
  background_quiet new_layout s ->
  exists s3,
    refreshNodesLayout new_layout s
    = (if any_differs new_layout s then onPushUndo s3 else s3)
    /\ same_history s s3
    /\ _current_layout s3 = new_layout
    /\ tabs_before s3 = map (relaid new_layout) (tabs_before s)
    /\ currentTabInfo s3 = relaid new_layout (currentTabInfo s)
    /\ tabs_after s3 = map (relaid new_layout) (tabs_after s).
Proof.
  intros Q. unfold refreshNodesLayout.
  destruct (PortLayout_eqb new_layout (_current_layout s)).
  - rewrite (relayout_loop Q). cbn [fst snd].
    eexists. split; [reflexivity|].
    split; [repeat split|]. repeat split.
  - match goal with
    | |- context [all_tabs ?s0] =>
        assert (Q0 : background_quiet new_layout s0) by exact Q;
        rewrite (relayout_loop Q0)
    end.
    cbn [fst snd]. eexists. split; [reflexivity|].
    split; [repeat split|]. repeat split.
Qed.

End WindowFacts.

(** * Properties of the whole window

    What every slot keeps, and how the slots compose. *)

(** ** What survives a scene operation

    A property of the window that the two connected slots and a change
    of scene keep is kept by every scene operation, whatever it emits:
    by the loop of [refreshNodesLayout], and, when the setters of that
    function keep it too, by [refreshNodesLayout] itself. *)

Section Kept.

Context {E : External}.

Variable P : MainWindow -> Prop.

Hypothesis P_onPushUndo : forall s, P s -> P (onPushUndo s).
Hypothesis P_onSceneChanged : forall s, P s -> P (onSceneChanged s).
Hypothesis P_set_scene : forall p sc s, P s -> P (set_scene p sc s).

Lemma kept_emit (p : TabPos) (s : MainWindow) :
  P s -> P (emit_undoableChange p s).
Proof.
  intros H. unfold emit_undoableChange.
  destruct (tab_at p s) as [c|]; [|exact H].
  destruct (signalsBlocked c); [exact H|].
  apply P_onSceneChanged, P_onPushUndo, H.
Qed.

Lemma kept_run (p : TabPos) (r : SceneRun FlowScene) (s : MainWindow) :
  P s -> P (run p r s).
Proof.
  intros H. unfold run. apply P_set_scene.
  revert s H. induction (emitted r) as [|sc l IH]; intros s H; simpl.
  - exact H.
  - apply IH, kept_emit, P_set_scene, H.
Qed.

Lemma kept_relayout (new_layout : PortLayout) (ps : list TabPos)
                    (acc : MainWindow * bool) :
  P (fst acc) -> P (fst (fold_left (relayout_tab new_layout) ps acc)).
Proof.
  revert acc. induction ps as [|p ps IH]; intros acc H; simpl; [exact H|].
  apply IH. unfold relayout_tab.
  destruct (tab_at p (fst acc)) as [c|]; [|exact H].
  destruct (PortLayout_eqb (layout (scene c)) new_layout); [exact H|].
  simpl. apply kept_run, P_set_scene, H.
Qed.

Hypothesis P_blockSignals : forall b s, P s -> P (blockSignals b s).
Hypothesis P_set_ui_icon :
  forall icon s,
    P s ->
    P (set_ui {| toolButtonLayout_enabled := toolButtonLayout_enabled (ui s);
                 toolButtonReorder_enabled := toolButtonReorder_enabled (ui s);
                 actionSave_enabled := actionSave_enabled (ui s);
                 labelSemaphore_pixmap := labelSemaphore_pixmap (ui s);
                 labelSemaphore_toolTip := labelSemaphore_toolTip (ui s);
                 toolButtonLayout_icon := icon |} s).
Hypothesis P_set_current_layout :
  forall l s, P s -> P (set_current_layout l s).

Lemma kept_refreshNodesLayout (new_layout : PortLayout) (s : MainWindow) :
  P s -> P (refreshNodesLayout new_layout s).
Proof.
  intros H. unfold refreshNodesLayout.
  set (s0 := if PortLayout_eqb new_layout (_current_layout s) then s
             else set_ui _ s).
  assert (H0 : P s0).
  { unfold s0. destruct (PortLayout_eqb new_layout (_current_layout s));
      [exact H|apply P_set_ui_icon, H]. }
  set (looped := fold_left (relayout_tab new_layout) (all_tabs s0)
                           (blockSignals true s0, false)).
  assert (H1 : P (fst looped)).
  { unfold looped. apply kept_relayout. simpl. apply P_blockSignals, H0. }
  assert (H2 : P (set_current_layout new_layout
                    (blockSignals (signalsBlocked (currentTabInfo s0))
                       (on_toolButtonCenterView_pressed (fst looped))))).
  { apply P_set_current_layout, P_blockSignals, H1. }
  destruct (snd looped); [apply P_onPushUndo|]; exact H2.
Qed.

Lemma kept_on_toolButtonLayout_clicked (s : MainWindow) :
  P s -> P (on_toolButtonLayout_clicked s).
Proof.
  intros H. unfold on_toolButtonLayout_clicked.
  destruct (_current_layout s); apply kept_refreshNodesLayout, H.
Qed.

Lemma kept_on_actionAuto_arrange_triggered (s : MainWindow) :
  P s -> P (on_actionAuto_arrange_triggered s).
Proof. intros H. apply kept_run, H. Qed.

Lemma kept_user_edit (sc : FlowScene) (s : MainWindow) :
  P s -> P (user_edit sc s).
Proof. intros H. apply kept_run, H. Qed.

(** A restore keeps what switching the undo switch keeps... *)
Lemma kept_restore (state : QByteArray) (s : MainWindow) :
  (forall b s, P s -> P (set_undo_enabled b s)) ->
  P s -> P (loadSceneFromYAML state s).
Proof.
  intros P_set_undo_enabled H. unfold loadSceneFromYAML.
  apply P_onSceneChanged, P_blockSignals, P_set_undo_enabled,
    kept_refreshNodesLayout, kept_run, kept_run, P_set_undo_enabled,
    P_blockSignals, H.
Qed.

(** ... and the slots that restore need no more than that the restore
    keeps the property. *)
Hypothesis P_loadSceneFromYAML :
  forall state s, P s -> P (loadSceneFromYAML state s).

Hypothesis P_set_history : forall u r c s, P s -> P (set_history u r c s).
Hypothesis P_log : forall e s, P s -> P (log e s).

Lemma kept_onUndoInvoked (s : MainWindow) : P s -> P (onUndoInvoked s).
Proof.
  intros H. unfold onUndoInvoked. destruct (negb _); [exact H|].
  destruct (_undo_stack s); [exact H|]. cbv zeta.
  apply P_log, P_loadSceneFromYAML, P_set_history, H.
Qed.

Lemma kept_onRedoInvoked (s : MainWindow) : P s -> P (onRedoInvoked s).
Proof.
  intros H. unfold onRedoInvoked. destruct (negb _); [exact H|].
  destruct (_redo_stack s); [exact H|]. cbv zeta.
  apply P_log, P_loadSceneFromYAML, P_set_history, H.
Qed.

Hypothesis P_lockEditing : forall v s, P s -> P (lockEditing v s).

Lemma kept_on_loadBehaviorTree (tree : AbsBehaviorTree) (s : MainWindow) :
  P s -> P (on_loadBehaviorTree tree s).
Proof.
  intros H. unfold on_loadBehaviorTree.
  apply P_onPushUndo, P_set_history, P_blockSignals, P_lockEditing,
    kept_run, P_onSceneChanged, kept_run, kept_run, P_blockSignals, H.
Qed.

Hypothesis P_set_world : forall w s, P s -> P (set_world w s).

Lemma kept_on_actionSave_triggered (accepted : bool)
                                   (selectedFiles : list QString)
                                   (opens : bool) (s : MainWindow) :
  P s -> P (on_actionSave_triggered accepted selectedFiles opens s).
Proof.
  intros H. unfold on_actionSave_triggered.
  destruct (save_entry _); [|apply P_log, H].
  destruct (String.eqb _ _); [exact H|].
  unfold set_lastSaveDirectory, write_file.
  destruct opens; repeat apply P_set_world; exact H.
Qed.

Hypothesis P_set_models : forall g m s, P s -> P (set_models g m s).

Lemma kept_clear_for_load (s : MainWindow) : P s -> P (clear_for_load s).
Proof.
  intros H. unfold clear_for_load.
  apply P_blockSignals, kept_run, P_blockSignals, H.
Qed.

Lemma kept_rebuild_from_XML (root : XMLNode) (s : MainWindow) :
  P s -> P (fst (rebuild_from_XML root s)).
Proof.
  intros H. unfold rebuild_from_XML. cbn [fst].
  apply P_blockSignals.
  destruct (snd (CreateTreeInSceneFromXML _ _ _)).
  - apply kept_run, P_log, P_blockSignals, H.
  - cbv zeta. apply kept_run, P_log, kept_run, P_log, P_blockSignals, H.
Qed.

(** Whichever way [loadFromXML] ends with a window, the property is
    kept. *)
Lemma kept_loadFromXML (xml_text : QString) (s : MainWindow) :
  P s ->
  match loadFromXML xml_text s with
  | Returned s' => P s'
  | Escaped _ s' => P s'
  | NullDereference => True
  end.
Proof.
  intros H. unfold loadFromXML. cbv beta zeta.
  destruct (fst (XMLDocument_Parse _ _)); [|apply P_lockEditing, H].
  destruct (ReadTreeNodesModel _ _ _) as [[g m] [[w|w]|]].
  - apply P_log, P_set_models, H.
  - apply P_set_models, H.
  - destruct (snd (XMLDocument_Parse _ _)) as [root|]; [|exact I].
    assert (K : P (fst (rebuild_from_XML root
                          (clear_for_load (set_models g m s)))))
      by (apply kept_rebuild_from_XML, kept_clear_for_load, P_set_models, H).
    destruct (snd (rebuild_from_XML _ _)).
    + apply P_lockEditing, P_log, P_log, P_loadSceneFromYAML, K.
    + apply P_lockEditing, P_onPushUndo, P_onSceneChanged, K.
Qed.

End Kept.

(** ** Frames and invariants of the slots *)

Section SlotFacts.

Context {E : External}.

Lemma onPushUndo_frame (s : MainWindow) :
  surroundings (onPushUndo s) = surroundings s
  /\ _undo_enabled (onPushUndo s) = _undo_enabled s.
Proof.
  destruct s as [md ly en us rs cs g m tb tc ta u w].
  unfold onPushUndo. simpl. destruct en; simpl; [|split; reflexivity].
  destruct us as [|back rest]; simpl; [split; reflexivity|].
  destruct (negb _ && negb _); split; reflexivity.
Qed.

Lemma set_scene_frame (p : TabPos) (sc : FlowScene) (s : MainWindow) :
  surroundings (set_scene p sc s) = surroundings s
  /\ _undo_enabled (set_scene p sc s) = _undo_enabled s
  /\ ui (set_scene p sc s) = ui s
  /\ signalsBlocked (currentTabInfo (set_scene p sc s))
     = signalsBlocked (currentTabInfo s)
  /\ _current_layout (set_scene p sc s) = _current_layout s.
Proof.
  unfold set_scene. destruct (tab_at p s) as [c|] eqn:T; [|repeat split].
  destruct p; simpl in *; repeat split.
  injection T as T. subst c. reflexivity.
Qed.

Lemma surroundings_restore (v : GraphicMode * TreeNodesModel
                                * DataModelRegistry
                                * list (QString * string) * QString)
                           (state : QByteArray) (s : MainWindow) :
  surroundings s = v -> surroundings (loadSceneFromYAML state s) = v.
Proof.
  apply kept_restore with (P := fun x => surroundings x = v);
    try (intros; assumption).
  - intros x H. rewrite (proj1 (onPushUndo_frame x)). exact H.
  - intros q sc x H. rewrite (proj1 (set_scene_frame q sc x)). exact H.
Qed.

(** X1.  Undo, redo, the orientation toggle, auto-arrange, an edit on
    the canvas and a tree delivered by the monitor act on the documents
    and their history only: the mode, the node models and their
    registry, the files and the stored save directory are the ones from
    before, whatever the scene operations emit. *)
Theorem document_slots_keep_surroundings (s : MainWindow) :
  surroundings (onUndoInvoked s) = surroundings s
  /\ surroundings (onRedoInvoked s) = surroundings s
  /\ surroundings (on_toolButtonLayout_clicked s) = surroundings s
  /\ surroundings (on_actionAuto_arrange_triggered s) = surroundings s
  /\ surroundings (on_toolButtonReorder_pressed s) = surroundings s
  /\ (forall sc, surroundings (user_edit sc s) = surroundings s)
  /\ (forall tree, surroundings (on_loadBehaviorTree tree s)
                   = surroundings s).
Proof.
  assert (A : forall x, surroundings x = surroundings s ->
                        surroundings (onPushUndo x) = surroundings s).
  { intros x H. rewrite (proj1 (onPushUndo_frame x)). exact H. }
  assert (B : forall q sc x, surroundings x = surroundings s ->
                             surroundings (set_scene q sc x)
                             = surroundings s).
  { intros q sc x H. rewrite (proj1 (set_scene_frame q sc x)). exact H. }
  assert (R : forall state x, surroundings x = surroundings s ->
                              surroundings (loadSceneFromYAML state x)
                              = surroundings s).
  { intros state x. apply surroundings_restore. }
  repeat split; intros.
  - apply kept_onUndoInvoked with (P := fun x => surroundings x = surroundings s);
      try (intros; assumption); auto.
  - apply kept_onRedoInvoked with (P := fun x => surroundings x = surroundings s);
      try (intros; assumption); auto.
  - apply kept_on_toolButtonLayout_clicked
      with (P := fun x => surroundings x = surroundings s);
      try (intros; assumption); auto.
  - apply kept_on_actionAuto_arrange_triggered
      with (P := fun x => surroundings x = surroundings s);
      try (intros; assumption); auto.
  - apply kept_on_actionAuto_arrange_triggered
      with (P := fun x => surroundings x = surroundings s);
      try (intros; assumption); auto.
  - apply kept_user_edit with (P := fun x => surroundings x = surroundings s);
      try (intros; assumption); auto.
  - apply kept_on_loadBehaviorTree
      with (P := fun x => surroundings x = surroundings s);
      try (intros; assumption); auto.
Qed.

(** *** The undo switch *)

Lemma restore_enables_undo (state : QByteArray) (s : MainWindow) :
  _undo_enabled (loadSceneFromYAML state s) = true.
Proof. reflexivity. Qed.

(** X2.  [_undo_enabled] is a switch for the time of one call: every
    slot that finds it on leaves it on, whatever the scene operations
    emit and however [loadFromXML] ends; and a restore ends with the
    switch on in any case. *)
Theorem undo_switch_back_on (s : MainWindow) :
  _undo_enabled s = true ->
  _undo_enabled (onPushUndo s) = true
  /\ _undo_enabled (onUndoInvoked s) = true
  /\ _undo_enabled (onRedoInvoked s) = true
  /\ _undo_enabled (on_toolButtonLayout_clicked s) = true
  /\ _undo_enabled (on_actionAuto_arrange_triggered s) = true
  /\ (forall sc, _undo_enabled (user_edit sc s) = true)
  /\ (forall tree, _undo_enabled (on_loadBehaviorTree tree s) = true)
  /\ (forall accepted selectedFiles opens,
        _undo_enabled
          (on_actionSave_triggered accepted selectedFiles opens s) = true)
  /\ (forall xml_text,
        match loadFromXML xml_text s with
        | Returned s' => _undo_enabled s' = true
        | Escaped _ s' => _undo_enabled s' = true
        | NullDereference => True
        end)
  /\ (forall state x, _undo_enabled (loadSceneFromYAML state x) = true).
Proof.
  intros H.
  assert (A : forall x, _undo_enabled x = true ->
                        _undo_enabled (onPushUndo x) = true).
  { intros x K. rewrite (proj2 (onPushUndo_frame x)). exact K. }
  assert (B : forall q sc x, _undo_enabled x = true ->
                             _undo_enabled (set_scene q sc x) = true).
  { intros q sc x K.
    rewrite (proj1 (proj2 (set_scene_frame q sc x))). exact K. }
  assert (R : forall state x, _undo_enabled x = true ->
                              _undo_enabled (loadSceneFromYAML state x)
                              = true).
  { intros state x _. apply restore_enables_undo. }
  split; [apply A, H|].
  split.
  { apply kept_onUndoInvoked with (P := fun x => _undo_enabled x = true);
      try (intros; assumption); auto. }
  split.
  { apply kept_onRedoInvoked with (P := fun x => _undo_enabled x = true);
      try (intros; assumption); auto. }
  split.
  { apply kept_on_toolButtonLayout_clicked
      with (P := fun x => _undo_enabled x = true);
      try (intros; assumption); auto. }
  split.
  { apply kept_on_actionAuto_arrange_triggered
      with (P := fun x => _undo_enabled x = true);
      try (intros; assumption); auto. }
  split.
  { intros sc.
    apply kept_user_edit with (P := fun x => _undo_enabled x = true);
      try (intros; assumption); auto. }
  split.
  { intros tree.
    apply kept_on_loadBehaviorTree
      with (P := fun x => _undo_enabled x = true);
      try (intros; assumption); auto. }
  split.
  { intros accepted selectedFiles opens.
    apply kept_on_actionSave_triggered
      with (P := fun x => _undo_enabled x = true);
      try (intros; assumption); auto. }
  split.
  { intros xml_text.
    apply kept_loadFromXML with (P := fun x => _undo_enabled x = true);
      try (intros; assumption); auto. }
  intros state x. apply restore_enables_undo.
Qed.

(** *** The indicator and the three actions *)

Lemma ui_consistent_onSceneChanged (s : MainWindow) :
  ui_consistent (onSceneChanged s).
Proof.
  unfold ui_consistent, onSceneChanged. simpl.
  destruct (valid_BT s); repeat split.
Qed.

(** X3.  The layout button, the reorder button and the save action are
    enabled together, and the indicator shows the green circle with
    "Valid Tree" exactly then: [onSceneChanged] and the constructor
    establish it and every slot keeps it. *)
Theorem ui_consistent_kept (s : MainWindow) :
  ui_consistent s ->
  ui_consistent (onPushUndo s)
  /\ ui_consistent (onUndoInvoked s)
  /\ ui_consistent (onRedoInvoked s)
  /\ ui_consistent (on_toolButtonLayout_clicked s)
  /\ ui_consistent (on_actionAuto_arrange_triggered s)
  /\ (forall sc, ui_consistent (user_edit sc s))
  /\ (forall tree, ui_consistent (on_loadBehaviorTree tree s))
  /\ (forall accepted selectedFiles opens,
        ui_consistent
          (on_actionSave_triggered accepted selectedFiles opens s))
  /\ (forall xml_text,
        match loadFromXML xml_text s with
        | Returned s' => ui_consistent s'
        | Escaped _ s' => ui_consistent s'
        | NullDereference => True
        end)
  /\ (forall x, ui_consistent (onSceneChanged x))
  /\ (forall settings initial_mode,
        ui_consistent (MainWindow_from_settings settings initial_mode)).
Proof.
  intros H.
  assert (A : forall x, ui_consistent x -> ui_consistent (onPushUndo x)).
  { intros x K. unfold ui_consistent. rewrite onPushUndo_ui. exact K. }
  assert (B : forall q sc x, ui_consistent x ->
                             ui_consistent (set_scene q sc x)).
  { intros q sc x K. unfold ui_consistent.
    rewrite (proj1 (proj2 (proj2 (set_scene_frame q sc x)))). exact K. }
  assert (C : forall x, ui_consistent x -> ui_consistent (onSceneChanged x)).
  { intros x _. apply ui_consistent_onSceneChanged. }
  assert (R : forall state x, ui_consistent x ->
                              ui_consistent (loadSceneFromYAML state x)).
  { intros state x _. unfold loadSceneFromYAML.
    apply ui_consistent_onSceneChanged. }
  split; [apply A, H|].
  split.
  { apply kept_onUndoInvoked with (P := ui_consistent);
      try (intros; assumption); auto. }
  split.
  { apply kept_onRedoInvoked with (P := ui_consistent);
      try (intros; assumption); auto. }
  split.
  { apply kept_on_toolButtonLayout_clicked with (P := ui_consistent);
      try (intros; assumption); auto. }
  split.
  { apply kept_on_actionAuto_arrange_triggered with (P := ui_consistent);
      try (intros; assumption); auto. }
  split.
  { intros sc. apply kept_user_edit with (P := ui_consistent);
      try (intros; assumption); auto. }
  split.
  { intros tree. apply kept_on_loadBehaviorTree with (P := ui_consistent);
      try (intros; assumption); auto. }
  split.
  { intros accepted selectedFiles opens.
    apply kept_on_actionSave_triggered with (P := ui_consistent);
      try (intros; assumption); auto. }
  split.
  { intros xml_text. apply kept_loadFromXML with (P := ui_consistent);
      try (intros; assumption); auto. }
  split.
  { intros x. apply ui_consistent_onSceneChanged. }
  intros settings initial_mode. unfold MainWindow_from_settings.
  apply ui_consistent_onSceneChanged.
Qed.

(** *** Signal blockers *)

Ltac keep lem Pr :=
  apply lem with (P := Pr); try (intros; assumption); auto.

Lemma list_set_blocked (sc : FlowScene) (l : list GraphicContainer) :
  forall (i : nat) (c : GraphicContainer),
    nth_error l i = Some c ->
    map signalsBlocked
        (list_set i {| scene := sc; signalsBlocked := signalsBlocked c;
                       locked := locked c |} l)
    = map signalsBlocked l.
Proof.
  induction l as [|y l IH]; intros [|i] c H; simpl in *; try discriminate.
  - injection H as H. subst y. reflexivity.
  - rewrite (IH i c H). reflexivity.
Qed.

Lemma background_blocked_set_scene (p : TabPos) (sc : FlowScene)
                                   (s : MainWindow) :
  background_blocked (set_scene p sc s) = background_blocked s.
Proof.
  unfold set_scene. destruct (tab_at p s) as [c|] eqn:T; [|reflexivity].
  unfold background_blocked.
  destruct p; simpl in *.
  - rewrite (list_set_blocked sc _ _ T). reflexivity.
  - reflexivity.
  - rewrite (list_set_blocked sc _ _ T). reflexivity.
Qed.

Lemma background_blocked_onPushUndo (s : MainWindow) :
  background_blocked (onPushUndo s) = background_blocked s.
Proof.
  unfold background_blocked.
  destruct (onPushUndo_tabs s) as (A & _ & C & _).
  rewrite A, C. reflexivity.
Qed.

Lemma background_blocked_lockEditing (v : bool) (s : MainWindow) :
  background_blocked (lockEditing v s) = background_blocked s.
Proof.
  unfold background_blocked, lockEditing. simpl.
  rewrite !map_map. reflexivity.
Qed.

Lemma blocked_flags_parts (s s' : MainWindow) :
  background_blocked s' = background_blocked s ->
  signalsBlocked (currentTabInfo s') = signalsBlocked (currentTabInfo s) ->
  blocked_flags s' = blocked_flags s.
Proof.
  unfold background_blocked, blocked_flags, all_containers.
  intros H K. injection H as A B. rewrite !map_app. simpl.
  rewrite A, B, K. reflexivity.
Qed.

Lemma current_blocked_onPushUndo (s : MainWindow) :
  signalsBlocked (currentTabInfo (onPushUndo s))
  = signalsBlocked (currentTabInfo s).
Proof.
  destruct (onPushUndo_tabs s) as (_ & B & _). rewrite B. reflexivity.
Qed.

Lemma current_blocked_run (p : TabPos) (r : SceneRun FlowScene)
                          (s : MainWindow) :
  signalsBlocked (currentTabInfo (run p r s))
  = signalsBlocked (currentTabInfo s).
Proof.
  apply kept_run
    with (P := fun x => signalsBlocked (currentTabInfo x)
                        = signalsBlocked (currentTabInfo s));
    try (intros; assumption); auto.
  - intros x H. rewrite current_blocked_onPushUndo. exact H.
  - intros q sc x H.
    rewrite (proj1 (proj2 (proj2 (proj2 (set_scene_frame q sc x))))).
    exact H.
Qed.

Lemma current_blocked_refreshNodesLayout (new_layout : PortLayout)
                                         (s : MainWindow) :
  signalsBlocked (currentTabInfo (refreshNodesLayout new_layout s))
  = signalsBlocked (currentTabInfo s).
Proof.
  unfold refreshNodesLayout. cbv zeta.
  match goal with
  | |- context [if snd ?l then _ else _] => destruct (snd l)
  end.
  - rewrite current_blocked_onPushUndo.
    destruct (PortLayout_eqb new_layout (_current_layout s)); reflexivity.
  - destruct (PortLayout_eqb new_layout (_current_layout s)); reflexivity.
Qed.

Lemma current_blocked_restore (state : QByteArray) (s : MainWindow) :
  signalsBlocked (currentTabInfo (loadSceneFromYAML state s))
  = signalsBlocked (currentTabInfo s).
Proof. reflexivity. Qed.

Lemma current_blocked_loadFromXML (xml_text : QString) (s : MainWindow) :
  match loadFromXML xml_text s with
  | Returned s' =>
      signalsBlocked (currentTabInfo s') = signalsBlocked (currentTabInfo s)
  | Escaped _ s' =>
      signalsBlocked (currentTabInfo s') = signalsBlocked (currentTabInfo s)
  | NullDereference => True
  end.
Proof.
  unfold loadFromXML. cbv beta zeta.
  destruct (fst (XMLDocument_Parse _ _)); [|reflexivity].
  destruct (ReadTreeNodesModel _ _ _) as [[g m] [[w|w]|]];
    [reflexivity|reflexivity|].
  destruct (snd (XMLDocument_Parse _ _)) as [root|]; [|exact I].
  destruct (snd (rebuild_from_XML _ _)).
  - reflexivity.
  - change (signalsBlocked
              (currentTabInfo
                 (onPushUndo
                    (onSceneChanged
                       (fst (rebuild_from_XML root
                               (clear_for_load (set_models g m s)))))))
            = signalsBlocked (currentTabInfo s)).
    rewrite current_blocked_onPushUndo. reflexivity.
Qed.

Lemma background_blocked_restore (v : list bool * list bool)
                                 (state : QByteArray) (s : MainWindow) :
  background_blocked s = v ->
  background_blocked (loadSceneFromYAML state s) = v.
Proof.
  apply kept_restore with (P := fun x => background_blocked x = v);
    try (intros; assumption).
  - intros x H. rewrite background_blocked_onPushUndo. exact H.
  - intros q sc x H. rewrite background_blocked_set_scene. exact H.
Qed.

(** X4.  A blocker is taken off where it was put on: after every slot
    each container's signals are blocked exactly when they were before
    it, in the current tab and in the others, whatever the scene
    operations emit and however [loadFromXML] ends. *)
Theorem blockers_released (s : MainWindow) :
  blocked_flags (onPushUndo s) = blocked_flags s
  /\ blocked_flags (onUndoInvoked s) = blocked_flags s
  /\ blocked_flags (onRedoInvoked s) = blocked_flags s
  /\ blocked_flags (on_toolButtonLayout_clicked s) = blocked_flags s
  /\ blocked_flags (on_actionAuto_arrange_triggered s) = blocked_flags s
  /\ (forall state, blocked_flags (loadSceneFromYAML state s)
                    = blocked_flags s)
  /\ (forall tree, blocked_flags (on_loadBehaviorTree tree s)
                   = blocked_flags s)
  /\ (forall xml_text,
        match loadFromXML xml_text s with
        | Returned s' => blocked_flags s' = blocked_flags s
        | Escaped _ s' => blocked_flags s' = blocked_flags s
        | NullDereference => True
        end).
Proof.
  assert (A : forall x, background_blocked x = background_blocked s ->
                        background_blocked (onPushUndo x)
                        = background_blocked s).
  { intros x H. rewrite background_blocked_onPushUndo. exact H. }
  assert (B : forall q sc x, background_blocked x = background_blocked s ->
                             background_blocked (set_scene q sc x)
                             = background_blocked s).
  { intros q sc x H. rewrite background_blocked_set_scene. exact H. }
  assert (L : forall v x, background_blocked x = background_blocked s ->
                          background_blocked (lockEditing v x)
                          = background_blocked s).
  { intros v x H. rewrite background_blocked_lockEditing. exact H. }
  assert (R : forall state x, background_blocked x = background_blocked s ->
                              background_blocked (loadSceneFromYAML state x)
                              = background_blocked s).
  { intros state x. apply background_blocked_restore. }
  split.
  { apply blocked_flags_parts;
      [apply A; reflexivity|apply current_blocked_onPushUndo]. }
  split.
  { apply blocked_flags_parts.
    - keep kept_onUndoInvoked
           (fun x => background_blocked x = background_blocked s).
    - unfold onUndoInvoked. destruct (negb _); [reflexivity|].
      destruct (_undo_stack s); reflexivity. }
  split.
  { apply blocked_flags_parts.
    - keep kept_onRedoInvoked
           (fun x => background_blocked x = background_blocked s).
    - unfold onRedoInvoked. destruct (negb _); [reflexivity|].
      destruct (_redo_stack s); reflexivity. }
  split.
  { apply blocked_flags_parts.
    - keep kept_on_toolButtonLayout_clicked
           (fun x => background_blocked x = background_blocked s).
    - unfold on_toolButtonLayout_clicked.
      destruct (_current_layout s);
        apply current_blocked_refreshNodesLayout. }
  split.
  { apply blocked_flags_parts.
    - keep kept_on_actionAuto_arrange_triggered
           (fun x => background_blocked x = background_blocked s).
    - apply current_blocked_run. }
  split.
  { intros state. apply blocked_flags_parts;
      [apply R; reflexivity|apply current_blocked_restore]. }
  split.
  { intros tree. apply blocked_flags_parts.
    - keep kept_on_loadBehaviorTree
           (fun x => background_blocked x = background_blocked s).
    - unfold on_loadBehaviorTree. cbv zeta.
      rewrite current_blocked_onPushUndo. reflexivity. }
  intros xml_text.
  assert (K : match loadFromXML xml_text s with
              | Returned s' => background_blocked s' = background_blocked s
              | Escaped _ s' => background_blocked s' = background_blocked s
              | NullDereference => True
              end).
  { keep kept_loadFromXML
         (fun x => background_blocked x = background_blocked s). }
  assert (K' := current_blocked_loadFromXML xml_text s).
  destruct (loadFromXML xml_text s); [| |exact I];
    apply blocked_flags_parts; assumption.
Qed.

(** *** The history as a timeline *)

Lemma timeline_undo_store (s s' : MainWindow) :
  store_of s' = undo_store (store_of s) -> timeline s' = timeline s.
Proof.
  unfold store_of, timeline, undo_store.
  destruct (_undo_stack s) as [|back rest]; intros H; injection H as A B C;
    rewrite A, B, C; [reflexivity|].
  simpl. rewrite <- app_assoc. reflexivity.
Qed.

Lemma timeline_redo_store (s s' : MainWindow) :
  store_of s' = redo_store (store_of s) -> timeline s' = timeline s.
Proof.
  unfold store_of, timeline, redo_store.
  destruct (_redo_stack s) as [|back rest]; intros H; injection H as A B C;
    rewrite A, B, C; [reflexivity|].
  simpl. rewrite <- app_assoc. reflexivity.
Qed.

(** X5.  Undo and redo move a cursor and lose nothing: the snapshots
    of the undo stack from its bottom, the current state and the redo
    stack from its top are the same sequence before and after either
    slot, in every mode and whatever the restore emits; in the editor
    mode undo shortens the undo stack by one entry, unless it is empty,
    and redo the redo stack. *)
Theorem undo_redo_keep_timeline (s : MainWindow) :
  timeline (onUndoInvoked s) = timeline s
  /\ timeline (onRedoInvoked s) = timeline s
  /\ (_current_mode s = EDITOR ->
      length (_undo_stack (onUndoInvoked s)) = pred (length (_undo_stack s))
      /\ length (_redo_stack (onRedoInvoked s))
         = pred (length (_redo_stack s))).
Proof.
  destruct (_current_mode s) eqn:M.
  - destruct (onUndoInvoked_store s M) as (U & _).
    destruct (onRedoInvoked_store s M) as (R & _).
    split; [exact (timeline_undo_store s U)|].
    split; [exact (timeline_redo_store s R)|].
    intros _. unfold store_of, undo_store in U.
    unfold store_of, redo_store in R.
    destruct (_undo_stack s); destruct (_redo_stack s);
      injection U as U1 _ _; injection R as _ R1 _;
      rewrite U1, R1; split; reflexivity.
  - assert (N : _current_mode s <> EDITOR) by (rewrite M; discriminate).
    destruct (locked_noop s N) as (A & B). rewrite A, B.
    repeat split; discriminate.
  - assert (N : _current_mode s <> EDITOR) by (rewrite M; discriminate).
    destruct (locked_noop s N) as (A & B). rewrite A, B.
    repeat split; discriminate.
Qed.

(** X6.  In the editor mode, an edit that is pushed and then undone:
    the two stacks hold what they held before the edit, except that the
    redo stack, whatever it held, now holds the snapshot of the edit and
    nothing else; [_current_state] is the one from before the edit and
    the live scene is rebuilt from it.  A redo then brings the store of
    the edit back. *)
Theorem edit_then_undo (sc : FlowScene) (s : MainWindow) :
  _current_mode s = EDITOR ->
  _undo_enabled s = true ->
  signalsBlocked (currentTabInfo s) = false ->
  push_rule (set_scene TabCurrent sc s) = true ->
  _undo_stack (onUndoInvoked (user_edit sc s)) = _undo_stack s
  /\ _current_state (onUndoInvoked (user_edit sc s)) = _current_state s
  /\ _redo_stack (onUndoInvoked (user_edit sc s)) = [saveToMemory sc]
  /\ restored (onUndoInvoked (user_edit sc s))
  /\ store_of (onRedoInvoked (onUndoInvoked (user_edit sc s)))
     = store_of (user_edit sc s).
Proof.
  intros M En B P.
  destruct (user_edit_effect sc s En B) as (U & R & C & _ & _ & M' & _).
  rewrite P in U, R. rewrite M in M'.
  destruct (onUndoInvoked_store (user_edit sc s) M') as (S1 & M1).
  assert (S2 : store_of (onUndoInvoked (user_edit sc s))
               = (_undo_stack s, [saveToMemory sc], _current_state s)).
  { rewrite S1. unfold store_of. rewrite U, R, C. reflexivity. }
  assert (S3 := S2). unfold store_of in S3. injection S3 as A1 A2 A3.
  split; [exact A1|]. split; [exact A3|]. split; [exact A2|].
  split.
  - apply onUndoInvoked_restored. left. split; [exact M'|].
    rewrite U. discriminate.
  - destruct (onRedoInvoked_store _ M1) as (S4 & _).
    rewrite S4, S2. unfold store_of. rewrite U, R, C. reflexivity.
Qed.

(** *** The orientation *)

Lemma layout_onPushUndo (s : MainWindow) :
  _current_layout (onPushUndo s) = _current_layout s.
Proof. apply (onPushUndo_tabs s). Qed.

Lemma layout_refreshNodesLayout (new_layout : PortLayout) (s : MainWindow) :
  _current_layout (refreshNodesLayout new_layout s) = new_layout.
Proof.
  unfold refreshNodesLayout. cbv zeta.
  match goal with
  | |- context [if snd ?l then _ else _] => destruct (snd l)
  end; [|reflexivity].
  rewrite layout_onPushUndo. reflexivity.
Qed.

Lemma layout_restore (state : QByteArray) (s : MainWindow) :
  _current_layout (loadSceneFromYAML state s)
  = layout (scene (currentTabInfo (loadSceneFromYAML state s))).
Proof.
  unfold loadSceneFromYAML. cbv zeta.
  set (y := run TabCurrent (loadFromMemory _ _) _).
  set (z := refreshNodesLayout (layout (scene (currentTabInfo y))) y).
  change (_current_layout z = layout (scene (currentTabInfo z))).
  unfold z. rewrite refreshNodesLayout_cur_scene.
  apply layout_refreshNodesLayout.
Qed.

Lemma layout_log (e : Event) (s : MainWindow) :
  _current_layout s = layout (scene (currentTabInfo s)) ->
  _current_layout (log e s) = layout (scene (currentTabInfo (log e s))).
Proof. intros H. exact H. Qed.

(** X7.  [_current_layout] follows the documents: [refreshNodesLayout]
    leaves it at the orientation it was given, the toggle at the other
    one than before (so that two toggles lead back), and a restore,
    hence every undo and redo that moves, at the orientation stored in
    the snapshot it has just loaded into the current document; whatever
    the scene operations emit. *)
Theorem orientation_follows (s : MainWindow) :
  (forall new_layout,
     _current_layout (refreshNodesLayout new_layout s) = new_layout)
  /\ _current_layout (on_toolButtonLayout_clicked s)
     = other_layout (_current_layout s)
  /\ _current_layout (on_toolButtonLayout_clicked
                        (on_toolButtonLayout_clicked s))
     = _current_layout s
  /\ (forall state,
        _current_layout (loadSceneFromYAML state s)
        = layout (scene (currentTabInfo (loadSceneFromYAML state s)))
        /\ scene (currentTabInfo (loadSceneFromYAML state s))
           = final (loadFromMemory state
                      (final (clearScene (scene (currentTabInfo s))))))
  /\ (_current_mode s = EDITOR ->
      (_undo_stack s <> [] ->
       _current_layout (onUndoInvoked s)
       = layout (scene (currentTabInfo (onUndoInvoked s))))
      /\ (_redo_stack s <> [] ->
          _current_layout (onRedoInvoked s)
          = layout (scene (currentTabInfo (onRedoInvoked s))))).
Proof.
  assert (T : forall x, _current_layout (on_toolButtonLayout_clicked x)
                        = other_layout (_current_layout x)).
  { intros x. unfold on_toolButtonLayout_clicked.
    destruct (_current_layout x); apply layout_refreshNodesLayout. }
  split; [intros new_layout; apply layout_refreshNodesLayout|].
  split; [apply T|].
  split; [rewrite !T; destruct (_current_layout s); reflexivity|].
  split; [intros state; split;
          [apply layout_restore|apply loadSceneFromYAML_scene]|].
  intros M. split; intros N.
  - unfold onUndoInvoked. rewrite M. cbn [GraphicMode_eqb negb].
    destruct (_undo_stack s) as [|back rest]; [contradiction|].
    cbv zeta. apply layout_log, layout_restore.
  - unfold onRedoInvoked. rewrite M. cbn [GraphicMode_eqb negb].
    destruct (_redo_stack s) as [|back rest]; [contradiction|].
    cbv zeta. apply layout_log, layout_restore.
Qed.



(** *** Save *)

Lemma save_entry_iff (sc : FlowScene) (c : Node) :
  save_entry sc = Some c
  <-> exists r, findRoots sc = [r]
                /\ isRootNodeModel sc r = true
                /\ getChildren sc r = [c].
Proof.
  unfold save_entry. split.
  - intros H.
    destruct (findRoots sc) as [|r [|r' l]]; simpl in H; try discriminate H.
    destruct (isRootNodeModel sc r) eqn:B; simpl in H; try discriminate H.
    destruct (getChildren sc r) as [|c' [|c'' l]] eqn:C; try discriminate H.
    injection H as H. subst c'. exists r. repeat split; assumption.
  - intros (r & A & B & C). rewrite A. simpl. rewrite B, C. reflexivity.
Qed.

(** X8.  Save, for a document with one root that has one child.  If
    the root is not a [RootNodeModel], save stops at the warning,
    whatever the dialog would answer.  If it is, save goes on to the
    dialog: a dialog that is cancelled, answers no file or several, or
    an empty name, changes nothing at all; with one file name, the file
    receives the printed document followed by a line feed when it can
    be opened and nothing is written when it cannot, and in both cases
    the directory of that name is stored as the last save directory,
    while the documents, the history, the models and the messages are
    as before. *)
Theorem save_writes_when_accepted (r c : Node) (fileName : QString)
                                  (opens : bool) (s : MainWindow) :
  findRoots (scene (currentTabInfo s)) = [r] ->
  getChildren (scene (currentTabInfo s)) r = [c] ->
  fileName <> EmptyString ->
  (isRootNodeModel (scene (currentTabInfo s)) r = true ->
   on_actionSave_triggered true [fileName] opens s
   = set_world
       {| events := events (world s);
          files :=
            (if opens
             then (fileName,
                   String.append
                     (XMLPrinter_CStr
                        (build_save_document (scene (currentTabInfo s)) c
                                             (_tree_nodes_model s)))
                     nl) :: files (world s)
             else files (world s));
          lastSaveDirectory := absolutePath fileName |} s
   /\ (forall accepted selectedFiles,
         accepted = false \/ length selectedFiles <> 1
         \/ selectedFiles = [EmptyString] ->
         on_actionSave_triggered accepted selectedFiles opens s = s))
  /\ (isRootNodeModel (scene (currentTabInfo s)) r = false ->
      forall accepted selectedFiles,
        on_actionSave_triggered accepted selectedFiles opens s
        = log (MsgWarning "Oops!"
                 "Malformed behavior tree. There must be only 1 root node")
              s).
Proof.
  intros HR HC HF. split.
  - intros HM.
    assert (SE : save_entry (scene (currentTabInfo s)) = Some c).
    { apply save_entry_iff. exists r. repeat split; assumption. }
    unfold on_actionSave_triggered. rewrite SE. cbv zeta. split.
    + cbn [andb length Nat.eqb nth].
      destruct (String.eqb fileName EmptyString) eqn:Q.
      * apply String.eqb_eq in Q. contradiction.
      * destruct opens; reflexivity.
    + intros accepted selectedFiles [A|[A|A]].
      * subst accepted. reflexivity.
      * destruct accepted; [|reflexivity].
        destruct selectedFiles as [|f [|f' l]]; try reflexivity.
        simpl in A. contradiction.
      * subst selectedFiles. destruct accepted; reflexivity.
  - intros HM accepted selectedFiles.
    unfold on_actionSave_triggered, save_entry. rewrite HR. simpl.
    rewrite HM. reflexivity.
Qed.

(** *** Load from XML *)

(** X9.  How [loadFromXML] ends before it touches the document.  A
    text that does not parse: the slot returns, having set the lock of
    every tab by the mode and nothing else; no message is shown.  A
    model section that throws [std::runtime_error]: the slot returns
    with the critical message carrying the exception's text on top; the
    documents, their locks and the history are untouched, but the
    models and the registry are the ones [ReadTreeNodesModel] had
    reached.  Any other exception from there leaves the slot.  A text
    that parses to a document without a root element, and whose model
    section is accepted, ends in the dereference of a null pointer. *)
Theorem load_stops_before_the_scene (xml_text : QString) (s : MainWindow) :
  (fst (XMLDocument_Parse (toStdString xml_text) (String.length xml_text))
   <> 0 ->
   loadFromXML xml_text s
   = Returned (lockEditing (negb (GraphicMode_eqb (_current_mode s) EDITOR))
                           s))
  /\ (forall g m e,
        fst (XMLDocument_Parse (toStdString xml_text)
                               (String.length xml_text)) = 0 ->
        ReadTreeNodesModel
          (snd (XMLDocument_Parse (toStdString xml_text)
                                  (String.length xml_text)))
          (_model_registry s) (_tree_nodes_model s)
        = (g, m, Some e) ->
        loadFromXML xml_text s
        = match e with
          | runtime_error w =>
              Returned (log (MsgCritical "Error" w) (set_models g m s))
          | logic_error _ => Escaped e (set_models g m s)
          end)
  /\ (forall g m,
        XMLDocument_Parse (toStdString xml_text) (String.length xml_text)
        = (0, None) ->
        ReadTreeNodesModel None (_model_registry s) (_tree_nodes_model s)
        = (g, m, None) ->
        loadFromXML xml_text s = NullDereference).
Proof.
  unfold loadFromXML. cbv beta zeta. split; [|split].
  - intros H.
    destruct (fst (XMLDocument_Parse _ _)); [contradiction|reflexivity].
  - intros g m e H K. rewrite H, K. destruct e; reflexivity.
  - intros g m H K. rewrite H. cbn [fst snd]. rewrite K. reflexivity.
Qed.

Lemma surroundings_fields (s s' : MainWindow) :
  surroundings s' = surroundings s ->
  _current_mode s' = _current_mode s
  /\ _tree_nodes_model s' = _tree_nodes_model s
  /\ _model_registry s' = _model_registry s
  /\ files (world s') = files (world s)
  /\ lastSaveDirectory (world s') = lastSaveDirectory (world s).
Proof.
  unfold surroundings. intros H. injection H as A B C D F.
  repeat split; assumption.
Qed.

Lemma clear_for_load_eq (s : MainWindow) :
  clear_for_load s
  = blockSignals (signalsBlocked (currentTabInfo s))
      (set_scene TabCurrent (final (clearScene (scene (currentTabInfo s))))
                 (blockSignals true s)).
Proof.
  unfold clear_for_load. rewrite run_blocked by reflexivity. reflexivity.
Qed.

Lemma rebuild_from_XML_ok (root : XMLNode) (s : MainWindow) :
  snd (CreateTreeInSceneFromXML (FirstChildElement root "BehaviorTree")
                                (_model_registry s)
                                (scene (currentTabInfo s))) = None ->
  fst (rebuild_from_XML root s)
  = blockSignals (signalsBlocked (currentTabInfo s))
      (set_scene TabCurrent
         (final (nodeReorder
                   (final (fst (CreateTreeInSceneFromXML
                                  (FirstChildElement root "BehaviorTree")
                                  (_model_registry s)
                                  (scene (currentTabInfo s)))))))
         (log (Cout "XML Parsed Successfully!")
            (set_scene TabCurrent
               (final (fst (CreateTreeInSceneFromXML
                              (FirstChildElement root "BehaviorTree")
                              (_model_registry s)
                              (scene (currentTabInfo s)))))
               (log (Cout "Starting parsing") (blockSignals true s)))))
  /\ snd (rebuild_from_XML root s) = None.
Proof.
  intros H. unfold rebuild_from_XML. cbv zeta. cbn [fst snd].
  set (s1 := log (Cout "Starting parsing") (blockSignals true s)).
  change (_model_registry s1) with (_model_registry s).
  change (scene (currentTabInfo s1)) with (scene (currentTabInfo s)).
  rewrite H. split; [|reflexivity].
  assert (B1 : signalsBlocked (currentTabInfo s1) = true) by reflexivity.
  rewrite (run_blocked _ s1 B1).
  set (s2 := set_scene TabCurrent _ s1).
  set (s3 := log (Cout "XML Parsed Successfully!") s2).
  assert (B3 : signalsBlocked (currentTabInfo s3) = true) by reflexivity.
  rewrite (run_blocked _ s3 B3). reflexivity.
Qed.

Lemma locked_lockEditing (v : bool) (s : MainWindow) :
  Forall (fun c => locked c = v) (all_containers (lockEditing v s)).
Proof.
  unfold all_containers, lockEditing. simpl.
  apply Forall_app. split; [|constructor; [reflexivity|]];
    apply Forall_forall; intros c H; apply in_map_iff in H;
    destruct H as (y & A & _); subst c; reflexivity.
Qed.

Lemma messages_onPushUndo (s : MainWindow) :
  messages (onPushUndo s) = messages s.
Proof.
  destruct s as [md ly en us rs cs g m tb tc ta u w].
  unfold onPushUndo, messages. simpl. destruct en; simpl; [|reflexivity].
  destruct us as [|back rest]; simpl; [reflexivity|].
  destruct (negb _ && negb _); reflexivity.
Qed.

(** X10.  A load that succeeds, with the undo switch on.  The text
    parses, the model section is read and the tree is built without an
    exception.  Then [loadFromXML] returns; the current document is the
    tree built on the cleared scene and laid out; the node models and
    the registry are the ones read from the file; [onPushUndo] ran
    once, after the blockers were released: [_current_state] is the
    snapshot of the new document and the stacks follow the push rule;
    the save action is enabled exactly when the new document has one
    root; every tab is locked exactly outside the editor mode; and no
    message box is shown. *)
Theorem load_replaces_document (xml_text : QString) (root : XMLNode)
                               (g : DataModelRegistry) (m : TreeNodesModel)
                               (s : MainWindow) :
  XMLDocument_Parse (toStdString xml_text) (String.length xml_text)
  = (0, Some root) ->
  ReadTreeNodesModel (Some root) (_model_registry s) (_tree_nodes_model s)
  = (g, m, None) ->
  snd (CreateTreeInSceneFromXML
         (FirstChildElement root "BehaviorTree") g
         (final (clearScene (scene (currentTabInfo s)))))
  = None ->
  _undo_enabled s = true ->
  exists s',
    loadFromXML xml_text s = Returned s'
    /\ scene (currentTabInfo s')
       = final (nodeReorder
                  (final (fst (CreateTreeInSceneFromXML
                                 (FirstChildElement root "BehaviorTree") g
                                 (final (clearScene
                                           (scene (currentTabInfo s))))))))
    /\ _tree_nodes_model s' = m
    /\ _model_registry s' = g
    /\ _current_state s' = saveToMemory (scene (currentTabInfo s'))
    /\ _undo_stack s'
       = (if push_rule (set_scene TabCurrent (scene (currentTabInfo s')) s)
          then _current_state s :: _undo_stack s else _undo_stack s)
    /\ _redo_stack s'
       = (if push_rule (set_scene TabCurrent (scene (currentTabInfo s')) s)
          then [] else _redo_stack s)
    /\ pushes s' = S (pushes s)
    /\ save_check_ok s'
    /\ Forall (fun c => locked c
                        = negb (GraphicMode_eqb (_current_mode s) EDITOR))
              (all_containers s')
    /\ messages s' = messages s.
Proof.
  intros HP HR HC En. unfold loadFromXML. cbv beta zeta.
  rewrite HP. cbn [fst snd]. rewrite HR.
  set (s0 := set_models g m s).
  rewrite (clear_for_load_eq s0).
  set (s1 := blockSignals _ (set_scene TabCurrent _ (blockSignals true s0))).
  assert (HC1 : snd (CreateTreeInSceneFromXML
                       (FirstChildElement root "BehaviorTree")
                       (_model_registry s1) (scene (currentTabInfo s1)))
                = None) by exact HC.
  destruct (rebuild_from_XML_ok root s1 HC1) as (F & T).
  rewrite T, F.
  change (_model_registry s1) with g.
  change (scene (currentTabInfo s1))
    with (final (clearScene (scene (currentTabInfo s)))).
  set (built := CreateTreeInSceneFromXML _ g _).
  set (x0 := blockSignals _ (set_scene TabCurrent _ _)).
  set (x := onSceneChanged x0).
  assert (Ex : _undo_enabled x = true) by exact En.
  destruct (onPushUndo_enabled x Ex) as (U & R & C & _ & M & Sc & _ & P).
  destruct (onPushUndo_frame x) as (Fr & _).
  pose proof (onPushUndo_tabs x) as (_ & CT & _).
  pose proof (messages_onPushUndo x) as Ms.
  pose proof (save_check_onPushUndo (save_check_onSceneChanged x0)) as SC.
  fold x in SC.
  set (y := onPushUndo x) in *.
  exists (lockEditing (negb (GraphicMode_eqb (_current_mode y) EDITOR)) y).
  split; [reflexivity|].
  assert (PR : push_rule x
               = push_rule (set_scene TabCurrent
                              (final (nodeReorder (final (fst built)))) s))
    by reflexivity.
  assert (Scy : scene (currentTabInfo
                         (lockEditing
                            (negb (GraphicMode_eqb (_current_mode y) EDITOR))
                            y))
                = final (nodeReorder (final (fst built)))).
  { change (scene (currentTabInfo y)
            = final (nodeReorder (final (fst built)))).
    rewrite Sc. reflexivity. }
  rewrite Scy.
  split; [reflexivity|].
  split.
  { change (_tree_nodes_model y = m).
    destruct (surroundings_fields Fr) as (_ & A & _). exact A. }
  split.
  { change (_model_registry y = g).
    destruct (surroundings_fields Fr) as (_ & _ & B & _). exact B. }
  split.
  { change (_current_state y = saveToMemory (final (nodeReorder (final (fst built))))).
    rewrite C. reflexivity. }
  split.
  { change (_undo_stack y
            = (if push_rule (set_scene TabCurrent
                               (final (nodeReorder (final (fst built)))) s)
               then _current_state s :: _undo_stack s else _undo_stack s)).
    rewrite U, PR. reflexivity. }
  split.
  { change (_redo_stack y
            = (if push_rule (set_scene TabCurrent
                               (final (nodeReorder (final (fst built)))) s)
               then [] else _redo_stack s)).
    rewrite R, PR. reflexivity. }
  split.
  { change (pushes y = S (pushes s)). rewrite P. reflexivity. }
  split.
  { apply save_check_lockEditing. exact SC. }
  split.
  { replace (_current_mode s) with (_current_mode y)
      by (rewrite M; reflexivity).
    apply locked_lockEditing. }
  change (messages y = messages s). rewrite Ms. reflexivity.
Qed.

(** *** A delivered tree *)

Lemma locked_blockSignals (v b : bool) (s : MainWindow) :
  Forall (fun c => locked c = v) (all_containers s) ->
  Forall (fun c => locked c = v) (all_containers (blockSignals b s)).
Proof.
  unfold all_containers. simpl. intros H.
  apply Forall_app in H. destruct H as (A & B).
  apply Forall_app. split; [exact A|].
  inversion B as [|? ? C D]. constructor; [exact C|exact D].
Qed.

(** X11.  After a tree is delivered by the monitor or the replay
    panel, every tab, not only the current one, refuses edits exactly
    outside the editor mode; the save action is enabled exactly when
    the tree as built, before it is laid out, has one root; and no
    message box is shown. *)
Theorem tree_delivery_locks (tree : AbsBehaviorTree) (s : MainWindow) :
  Forall (fun c => locked c
                   = negb (GraphicMode_eqb (_current_mode s) EDITOR))
         (all_containers (on_loadBehaviorTree tree s))
  /\ actionSave_enabled (ui (on_loadBehaviorTree tree s))
     = Nat.eqb
         (length
            (findRoots
               (final (BuildSceneFromBehaviorTree
                         (final (clearScene (scene (currentTabInfo s))))
                         tree))))
         1
  /\ messages (on_loadBehaviorTree tree s) = messages s.
Proof.
  unfold on_loadBehaviorTree.
  set (s1 := blockSignals true s).
  assert (B1 : signalsBlocked (currentTabInfo s1) = true) by reflexivity.
  rewrite (run_blocked (clearScene (scene (currentTabInfo s1))) s1 B1).
  set (s2 := set_scene TabCurrent _ s1).
  assert (B2 : signalsBlocked (currentTabInfo s2) = true) by reflexivity.
  rewrite (run_blocked
             (BuildSceneFromBehaviorTree (scene (currentTabInfo s2)) tree)
             s2 B2).
  set (s3 := set_scene TabCurrent _ s2).
  set (s4 := onSceneChanged s3).
  assert (B4 : signalsBlocked (currentTabInfo s4) = true) by reflexivity.
  rewrite (run_blocked (nodeReorder (scene (currentTabInfo s4))) s4 B4).
  set (s5 := set_scene TabCurrent _ s4).
  set (v := negb (GraphicMode_eqb (_current_mode s5) EDITOR)).
  set (s7 := blockSignals _ (lockEditing v s5)).
  set (s8 := set_history [] [] (_current_state s7) s7).
  destruct (onPushUndo_tabs s8) as (TB & TC & TA & _).
  split; [|split].
  - unfold all_containers. rewrite TB, TC, TA.
    change (Forall (fun c => locked c = v) (all_containers s7)).
    apply locked_blockSignals, locked_lockEditing.
  - rewrite onPushUndo_ui. reflexivity.
  - rewrite messages_onPushUndo. reflexivity.
Qed.

(** *** Auto-arrange *)

(** X12.  The arrange action and the reorder button run the same
    code.  The current document ends as [nodeReorder] leaves it.  While
    the container's signals are blocked, or when the operation emits
    nothing, nothing else happens: no push, same store.  Otherwise,
    with the undo switch on, [onPushUndo] runs once for each signal, and
    after a single signal [_current_state] is the snapshot of the
    document as it was when the signal was sent. *)
Theorem auto_arrange_effect (s : MainWindow) :
  on_toolButtonReorder_pressed s = on_actionAuto_arrange_triggered s
  /\ scene (currentTabInfo (on_actionAuto_arrange_triggered s))
     = final (nodeReorder (scene (currentTabInfo s)))
  /\ (signalsBlocked (currentTabInfo s) = true
      \/ emitted (nodeReorder (scene (currentTabInfo s))) = [] ->
      on_actionAuto_arrange_triggered s
      = set_scene TabCurrent
                  (final (nodeReorder (scene (currentTabInfo s)))) s)
  /\ (forall sc,
        signalsBlocked (currentTabInfo s) = false ->
        _undo_enabled s = true ->
        emitted (nodeReorder (scene (currentTabInfo s))) = [sc] ->
        pushes (on_actionAuto_arrange_triggered s) = S (pushes s)
        /\ _current_state (on_actionAuto_arrange_triggered s)
           = saveToMemory sc).
Proof.
  split; [reflexivity|]. split; [reflexivity|]. split.
  - intros [B|Q].
    + apply run_blocked. exact B.
    + unfold on_actionAuto_arrange_triggered, run. rewrite Q. reflexivity.
  - intros sc B En Q.
    unfold on_actionAuto_arrange_triggered, run. rewrite Q.
    cbn [fold_left]. unfold emit_undoableChange.
    cbn [tab_at]. 
    change (signalsBlocked (currentTabInfo (set_scene TabCurrent sc s)))
      with (signalsBlocked (currentTabInfo s)).
    rewrite B.
    set (x := set_scene TabCurrent sc s).
    assert (Ex : _undo_enabled x = true) by exact En.
    destruct (onPushUndo_enabled x Ex) as (_ & _ & C & _ & _ & _ & _ & P).
    split.
    + change (pushes (onPushUndo x) = S (pushes s)). rewrite P. reflexivity.
    + change (_current_state (onPushUndo x) = saveToMemory sc).
      rewrite C. reflexivity.
Qed.

(** *** Load from a file *)

Lemma readLine_cons (c : ascii) (r : string) :
  readLine (String c r)
  = if Ascii.eqb c LF then (EmptyString, r)
    else match r with
         | String c' r' =>
             if Ascii.eqb c CR && Ascii.eqb c' LF then (EmptyString, r')
             else (String c (fst (readLine r)), snd (readLine r))
         | EmptyString => (String c EmptyString, EmptyString)
         end.
Proof. destruct r; reflexivity. Qed.

Lemma readLine_rest_length (r : string) :
  forall c, String.length (snd (readLine (String c r))) <= String.length r.
Proof.
  induction r as [|c' r' IH]; intros c.
  - simpl. destruct (Ascii.eqb c LF); simpl; lia.
  - rewrite (readLine_cons c (String c' r')).
    destruct (Ascii.eqb c LF); [simpl; lia|].
    destruct (Ascii.eqb c CR && Ascii.eqb c' LF); [simpl; lia|].
    cbn [snd]. specialize (IH c').
    change (String.length (String c' r')) with (S (String.length r')). lia.
Qed.

Lemma read_lines_fuel (n : nat) :
  forall (s : string) (fuel fuel' : nat),
    String.length s <= n -> n <= fuel -> n <= fuel' ->
    read_lines fuel s = read_lines fuel' s.
Proof.
  induction n as [|n IH]; intros s fuel fuel' L A B.
  - destruct s; [|simpl in L; lia]. destruct fuel, fuel'; reflexivity.
  - destruct s as [|c r]; [destruct fuel, fuel'; reflexivity|].
    destruct fuel as [|f]; [lia|]. destruct fuel' as [|f']; [lia|].
    cbn [read_lines]. f_equal. apply IH; try lia.
    pose proof (readLine_rest_length r c). simpl in L. lia.
Qed.

Lemma readLine_line (l rest : string) :
  no_line_end l = true ->
  readLine (String.append l (String LF rest)) = (l, rest)
  /\ readLine (String.append l (String CR (String LF rest))) = (l, rest).
Proof.
  induction l as [|c l IH]; intros H.
  - split; reflexivity.
  - simpl in H. apply andb_prop in H. destruct H as (H & N).
    apply andb_prop in H. destruct H as (A & B).
    apply negb_true_iff in A. apply negb_true_iff in B.
    destruct (IH N) as (I1 & I2).
    split.
    + change (String.append (String c l) (String LF rest))
        with (String c (String.append l (String LF rest))).
      rewrite readLine_cons. rewrite A, B. cbn [andb].
      rewrite I1.
      destruct (String.append l (String LF rest)) eqn:Q.
      * destruct l; discriminate Q.
      * reflexivity.
    + change (String.append (String c l) (String CR (String LF rest)))
        with (String c (String.append l (String CR (String LF rest)))).
      rewrite readLine_cons. rewrite A, B. cbn [andb].
      rewrite I2.
      destruct (String.append l (String CR (String LF rest))) eqn:Q.
      * destruct l; discriminate Q.
      * reflexivity.
Qed.

Lemma read_lines_unlines (eol : string) (ls : list string) :
  eol = String LF EmptyString \/ eol = String CR (String LF EmptyString) ->
  Forall (fun l => no_line_end l = true) ls ->
  forall fuel, length ls <= fuel ->
               read_lines fuel (unlines eol ls) = String.concat EmptyString ls.
Proof.
  intros HE H. induction H as [|l ls N F IH]; intros fuel L.
  - destruct fuel; reflexivity.
  - destruct fuel as [|f]; [simpl in L; lia|].
    assert (R : readLine (unlines eol (l :: ls)) = (l, unlines eol ls)).
    { destruct HE as [HE|HE]; subst eol.
      - exact (proj1 (@readLine_line l (unlines _ ls) N)).
      - exact (proj2 (@readLine_line l (unlines _ ls) N)). }
    assert (NE : unlines eol (l :: ls) <> EmptyString).
    { destruct HE as [HE|HE]; subst eol; cbn [unlines];
        destruct l; discriminate. }
    cbn [read_lines]. destruct (unlines eol (l :: ls)) eqn:Q;
      [contradiction|].
    rewrite R. cbn [fst snd]. rewrite IH by (simpl in L; lia).
    destruct ls as [|l' ls']; [|reflexivity].
    simpl. clear. induction l as [|a l IHl]; simpl; [reflexivity|].
    rewrite IHl. reflexivity.
Qed.

Lemma length_append (a b : string) :
  String.length (String.append a b) = String.length a + String.length b.
Proof. induction a as [|c a IH]; simpl; [reflexivity|]. rewrite IH. lia. Qed.

Lemma unlines_length (eol : string) (ls : list string) :
  eol <> EmptyString -> length ls <= String.length (unlines eol ls).
Proof.
  intros H. induction ls as [|l ls IH]; simpl; [lia|].
  rewrite !length_append. destruct eol; [contradiction|]. simpl. lia.
Qed.

(** X13.  What [on_actionLoad_triggered] hands to [loadFromXML] is the
    file without its line ends: for a file of lines that hold neither
    line feed nor carriage return, each ended by a line feed or by a
    carriage return and a line feed, the text is the lines put together
    with nothing in between.  The loop over [readLine] ends within as
    many rounds as the file has characters: more rounds give the same
    text. *)
Theorem read_all_glues_lines (eol : string) (ls : list string) :
  eol = String LF EmptyString \/ eol = String CR (String LF EmptyString) ->
  Forall (fun l => no_line_end l = true) ls ->
  read_all (unlines eol ls) = String.concat EmptyString ls
  /\ (forall content fuel,
        String.length content <= fuel ->
        read_lines fuel content = read_all content).
Proof.
  intros HE H. split.
  - unfold read_all. apply read_lines_unlines; try assumption.
    apply unlines_length. destruct HE; subst eol; discriminate.
  - intros content fuel L. unfold read_all.
    apply read_lines_fuel with (n := String.length content); lia.
Qed.

Lemma save_accepted_eq (c : Node) (fileName : QString) (opens : bool)
                       (s : MainWindow) :
  save_entry (scene (currentTabInfo s)) = Some c ->
  fileName <> EmptyString ->
  on_actionSave_triggered true [fileName] opens s
  = set_world
      {| events := events (world s);
         files :=
           (if opens
            then (fileName,
                  String.append
                    (XMLPrinter_CStr
                       (build_save_document (scene (currentTabInfo s)) c
                                            (_tree_nodes_model s)))
                    nl) :: files (world s)
            else files (world s));
         lastSaveDirectory := absolutePath fileName |} s.
Proof.
  intros SE HF. unfold on_actionSave_triggered. rewrite SE. cbv zeta.
  cbn [andb length Nat.eqb nth].
  destruct (String.eqb fileName EmptyString) eqn:Q.
  - apply String.eqb_eq in Q. contradiction.
  - destruct opens; reflexivity.
Qed.

(** X14.  Load after save.  When the save went through to the file
    [fileName], a load of that file reads the text that was written,
    the printed document and its final line feed, through the line
    loop and hands it to [loadFromXML] on the window as the save left
    it; the directory of the file is stored as the last load directory.
    A load of a name that no file has, of a file that cannot be opened,
    or with the dialog cancelled returns with the window untouched and
    stores nothing. *)
Theorem saved_file_is_loaded (c : Node) (fileName : QString)
                             (s : MainWindow) :
  save_entry (scene (currentTabInfo s)) = Some c ->
  fileName <> EmptyString ->
  on_actionLoad_triggered fileName true
    (on_actionSave_triggered true [fileName] true s)
  = (loadFromXML
       (read_all
          (String.append
             (XMLPrinter_CStr
                (build_save_document (scene (currentTabInfo s)) c
                                     (_tree_nodes_model s)))
             nl))
       (on_actionSave_triggered true [fileName] true s),
     Some (absolutePath fileName))
  /\ (forall name opens x,
        name = EmptyString
        \/ file_content name (files (world x)) = None
        \/ opens = false ->
        on_actionLoad_triggered name opens x = (Returned x, None)).
Proof.
  intros SE HF. split.
  - rewrite (save_accepted_eq true s SE HF).
    unfold on_actionLoad_triggered.
    destruct (String.eqb fileName EmptyString) eqn:Q.
    { apply String.eqb_eq in Q. contradiction. }
    unfold file_content. cbn [world files find fst snd set_world].
    rewrite String.eqb_refl. reflexivity.
  - intros name opens x [A|[A|A]]; unfold on_actionLoad_triggered.
    + subst name. reflexivity.
    + rewrite A. destruct (String.eqb name EmptyString); reflexivity.
    + subst opens. destruct (String.eqb name EmptyString); [reflexivity|].
      destruct (file_content name (files (world x))); reflexivity.
Qed.

(** *** Settings *)

(** X15.  [closeEvent] stores the orientation, as HORIZONTAL or
    VERTICAL, next to the geometry and the window state; the
    constructor reads the stored string and starts Horizontal whatever
    it says: the window built from any settings is the window built
    from none, so a Vertical orientation does not survive a
    restart. *)
Theorem orientation_not_restored (geometry windowState : QByteArray)
                                 (initial_mode : GraphicMode)
                                 (s : MainWindow) :
  settings_value "MainWindow/layout" (closeEvent geometry windowState s)
  = match _current_layout s with
    | Horizontal => "HORIZONTAL"
    | Vertical => "VERTICAL"
    end
  /\ settings_value "MainWindow/geometry"
                    (closeEvent geometry windowState s) = geometry
  /\ settings_value "MainWindow/windowState"
                    (closeEvent geometry windowState s) = windowState
  /\ _current_layout
       (MainWindow_from_settings (closeEvent geometry windowState s)
                                 initial_mode) = Horizontal
  /\ (forall settings,
        MainWindow_from_settings settings initial_mode
        = new_MainWindow initial_mode).
Proof.
  split; [reflexivity|]. split; [reflexivity|]. split; [reflexivity|].
  assert (A : forall settings,
             MainWindow_from_settings settings initial_mode
             = new_MainWindow initial_mode).
  { intros settings. unfold MainWindow_from_settings, initial_layout.
    destruct (String.eqb _ "HORIZONTAL"); reflexivity. }
  split; [rewrite A; reflexivity|exact A].
Qed.

End SlotFacts.

(** ** The orientation toggle *)

Section ToggleFacts.

Context {E : External}.

Lemma nth_error_list_set (A : Type) (x : A) (l : list A) :
  forall i y, nth_error l i = Some y -> nth_error (list_set i x l) i = Some x.
Proof.
  induction l as [|z l IH]; intros [|i] y H; simpl in *; try discriminate.
  - reflexivity.
  - exact (IH i y H).
Qed.

Lemma nth_error_list_set_none (A : Type) (x : A) (l : list A) :
  forall i, nth_error l i = None -> list_set i x l = l.
Proof.
  induction l as [|z l IH]; intros [|i] H; simpl in *; try discriminate.
  - reflexivity.
  - reflexivity.
  - rewrite (IH i H). reflexivity.
Qed.

Lemma list_set_twice (A : Type) (x y : A) (l : list A) :
  forall i, list_set i x (list_set i y l) = list_set i x l.
Proof.
  induction l as [|z l IH]; intros [|i]; simpl; try reflexivity.
  rewrite IH. reflexivity.
Qed.

(** What [set_scene] does to the tabs depends on the tabs alone. *)
Lemma tabs_of_set_scene (p : TabPos) (sc : FlowScene) (a b : MainWindow) :
  tabs_of a = tabs_of b ->
  tabs_of (set_scene p sc a) = tabs_of (set_scene p sc b).
Proof.
  unfold tabs_of. intros H. injection H as A B C.
  unfold set_scene. destruct p as [i| |i]; cbn [tab_at].
  - rewrite A. destruct (nth_error (tabs_before b) i); cbn;
      rewrite ?A, ?B, ?C; reflexivity.
  - cbn. rewrite A, B, C. reflexivity.
  - rewrite C. destruct (nth_error (tabs_after b) i); cbn;
      rewrite ?A, ?B, ?C; reflexivity.
Qed.

Lemma tabs_of_set_scene_twice (p : TabPos) (x y : FlowScene)
                              (s : MainWindow) :
  tabs_of (set_scene p x (set_scene p y s)) = tabs_of (set_scene p x s).
Proof.
  unfold set_scene at 2 3. destruct p as [i| |i]; cbn [tab_at].
  - destruct (nth_error (tabs_before s) i) as [c|] eqn:Q.
    + unfold set_scene. cbn [tab_at set_tab tabs_before set_tabs].
      rewrite (nth_error_list_set _ _ _ Q). unfold tabs_of. cbn.
      rewrite list_set_twice. reflexivity.
    + unfold set_scene. cbn [tab_at]. rewrite Q. reflexivity.
  - reflexivity.
  - destruct (nth_error (tabs_after s) i) as [c|] eqn:Q.
    + unfold set_scene. cbn [tab_at set_tab tabs_after set_tabs].
      rewrite (nth_error_list_set _ _ _ Q). unfold tabs_of. cbn.
      rewrite list_set_twice. reflexivity.
    + unfold set_scene. cbn [tab_at]. rewrite Q. reflexivity.
Qed.

Lemma tabs_of_onPushUndo (s : MainWindow) :
  tabs_of (onPushUndo s) = tabs_of s.
Proof.
  unfold tabs_of. destruct (onPushUndo_tabs s) as (A & B & C & _).
  rewrite A, B, C. reflexivity.
Qed.

Lemma tabs_of_emit (p : TabPos) (s : MainWindow) :
  tabs_of (emit_undoableChange p s) = tabs_of s.
Proof.
  unfold emit_undoableChange. destruct (tab_at p s) as [c|]; [|reflexivity].
  destruct (signalsBlocked c); [reflexivity|].
  exact (tabs_of_onPushUndo s).
Qed.

(** Whatever a scene operation emits, it leaves the tabs as if it had
    only put its result in place. *)
Lemma tabs_of_run (p : TabPos) (r : SceneRun FlowScene) (s : MainWindow) :
  tabs_of (run p r s) = tabs_of (set_scene p (final r) s).
Proof.
  unfold run. generalize (final r) as x. intros x. revert s.
  induction (emitted r) as [|sc l IH]; intros s; [reflexivity|].
  cbn [fold_left]. rewrite IH.
  rewrite (@tabs_of_set_scene p x _ _
             (tabs_of_emit p (set_scene p sc s))).
  apply tabs_of_set_scene_twice.
Qed.

Lemma tabs_of_with_scene_before (sc : FlowScene)
                                (pre l : list GraphicContainer)
                                (y c : GraphicContainer)
                                (a : list GraphicContainer)
                                (st : MainWindow) :
  tabs_of st = (pre ++ y :: l, c, a) ->
  tabs_of (set_scene (TabBefore (length pre)) sc st)
  = (pre ++ with_scene sc y :: l, c, a).
Proof.
  intros H.
  rewrite (@tabs_of_set_scene (TabBefore (length pre)) sc st
             (set_tabs (pre ++ y :: l) c a st) H).
  rewrite set_scene_before. reflexivity.
Qed.

Lemma tabs_of_with_scene_after (sc : FlowScene)
                               (pre l : list GraphicContainer)
                               (y c : GraphicContainer)
                               (b : list GraphicContainer)
                               (st : MainWindow) :
  tabs_of st = (b, c, pre ++ y :: l) ->
  tabs_of (set_scene (TabAfter (length pre)) sc st)
  = (b, c, pre ++ with_scene sc y :: l).
Proof.
  intros H.
  rewrite (@tabs_of_set_scene (TabAfter (length pre)) sc st
             (set_tabs b c (pre ++ y :: l) st) H).
  rewrite set_scene_after. reflexivity.
Qed.

Lemma tabs_of_with_scene_current (sc : FlowScene)
                                 (b a : list GraphicContainer)
                                 (c : GraphicContainer) (st : MainWindow) :
  tabs_of st = (b, c, a) ->
  tabs_of (set_scene TabCurrent sc st) = (b, with_scene sc c, a).
Proof.
  intros H.
  rewrite (@tabs_of_set_scene TabCurrent sc st (set_tabs b c a st) H).
  reflexivity.
Qed.

Lemma list_set_same (A : Type) (l : list A) :
  forall i x, nth_error l i = Some x -> list_set i x l = l.
Proof.
  induction l as [|z l IH]; intros [|i] x H; simpl in *; try discriminate.
  - injection H as ->. reflexivity.
  - rewrite (IH i x H). reflexivity.
Qed.

Lemma tabs_of_set_scene_same (p : TabPos) (x : GraphicContainer)
                             (st : MainWindow) :
  tab_at p st = Some x -> tabs_of (set_scene p (scene x) st) = tabs_of st.
Proof.
  intros T. unfold set_scene. rewrite T.
  replace {| scene := scene x; signalsBlocked := signalsBlocked x;
             locked := locked x |} with x by (destruct x; reflexivity).
  destruct p as [i| |i]; cbn [tab_at] in T; unfold tabs_of; cbn.
  - rewrite (@list_set_same _ _ _ _ T). reflexivity.
  - injection T as ->. reflexivity.
  - rewrite (@list_set_same _ _ _ _ T). reflexivity.
Qed.

(** One turn of the loop of [refreshNodesLayout], whatever the tab
    emits: the document of that tab is laid out when its layout
    differs, and no other tab is touched. *)
Lemma relayout_step (new_layout : PortLayout) (p : TabPos)
                    (x : GraphicContainer) (st : MainWindow) (flag : bool) :
  tab_at p st = Some x ->
  tabs_of (fst (relayout_tab new_layout (st, flag) p))
  = tabs_of (set_scene p (relaid_scene new_layout (scene x)) st)
  /\ snd (relayout_tab new_layout (st, flag) p)
     = flag || differs new_layout x.
Proof.
  intros T. unfold relayout_tab, differs, relaid_scene. cbn [fst]. rewrite T.
  destruct (PortLayout_eqb (layout (scene x)) new_layout) eqn:D.
  - cbn [fst snd negb]. rewrite orb_false_r.
    rewrite (@tabs_of_set_scene_same _ _ _ T). split; reflexivity.
  - cbn [fst snd negb]. rewrite orb_true_r. split; [|reflexivity].
    rewrite tabs_of_run. apply tabs_of_set_scene_twice.
Qed.

Lemma relayout_before_tabs (new_layout : PortLayout)
                           (L : list GraphicContainer) :
  forall (pre : list GraphicContainer) (c : GraphicContainer)
         (a : list GraphicContainer) (st : MainWindow) (flag : bool),
    tabs_of st = (pre ++ L, c, a) ->
    tabs_of (fst (fold_left (relayout_tab new_layout)
                            (map TabBefore (seq (length pre) (length L)))
                            (st, flag)))
    = (pre ++ map (relaid new_layout) L, c, a)
    /\ snd (fold_left (relayout_tab new_layout)
                      (map TabBefore (seq (length pre) (length L)))
                      (st, flag))
       = flag || existsb (differs new_layout) L.
Proof.
  induction L as [|x L IH]; intros pre c a st flag H.
  - simpl. rewrite orb_false_r. split; [exact H|reflexivity].
  - cbn [length seq map fold_left existsb].
    assert (T : tab_at (TabBefore (length pre)) st = Some x).
    { cbn [tab_at]. injection H as -> _ _. apply nth_error_middle. }
    destruct (@relayout_step new_layout _ _ _ flag T) as [S1 S2].
    rewrite (@tabs_of_with_scene_before _ _ _ _ _ _ _ H) in S1.
    destruct (relayout_tab new_layout (st, flag) (TabBefore (length pre)))
      as [st' flag'].
    cbn [fst snd] in S1, S2. subst flag'.
    replace (S (length pre))
      with (length (pre ++ [relaid new_layout x]))
      by (rewrite length_app; simpl; lia).
    assert (H' : tabs_of st' = ((pre ++ [relaid new_layout x]) ++ L, c, a)).
    { rewrite S1, <- app_assoc. reflexivity. }
    destruct (IH _ _ _ _ (flag || differs new_layout x) H') as [I1 I2].
    rewrite I1, I2, <- app_assoc, orb_assoc. split; reflexivity.
Qed.

Lemma relayout_after_tabs (new_layout : PortLayout)
                          (L : list GraphicContainer) :
  forall (pre : list GraphicContainer) (c : GraphicContainer)
         (b : list GraphicContainer) (st : MainWindow) (flag : bool),
    tabs_of st = (b, c, pre ++ L) ->
    tabs_of (fst (fold_left (relayout_tab new_layout)
                            (map TabAfter (seq (length pre) (length L)))
                            (st, flag)))
    = (b, c, pre ++ map (relaid new_layout) L)
    /\ snd (fold_left (relayout_tab new_layout)
                      (map TabAfter (seq (length pre) (length L)))
                      (st, flag))
       = flag || existsb (differs new_layout) L.
Proof.
  induction L as [|x L IH]; intros pre c b st flag H.
  - simpl. rewrite orb_false_r. split; [exact H|reflexivity].
  - cbn [length seq map fold_left existsb].
    assert (T : tab_at (TabAfter (length pre)) st = Some x).
    { cbn [tab_at]. injection H as _ _ ->. apply nth_error_middle. }
    destruct (@relayout_step new_layout _ _ _ flag T) as [S1 S2].
    rewrite (@tabs_of_with_scene_after _ _ _ _ _ _ _ H) in S1.
    destruct (relayout_tab new_layout (st, flag) (TabAfter (length pre)))
      as [st' flag'].
    cbn [fst snd] in S1, S2. subst flag'.
    replace (S (length pre))
      with (length (pre ++ [relaid new_layout x]))
      by (rewrite length_app; simpl; lia).
    assert (H' : tabs_of st' = (b, c, (pre ++ [relaid new_layout x]) ++ L)).
    { rewrite S1, <- app_assoc. reflexivity. }
    destruct (IH _ _ _ _ (flag || differs new_layout x) H') as [I1 I2].
    rewrite I1, I2, <- app_assoc, orb_assoc. split; reflexivity.
Qed.

(** The whole loop, whatever the tabs emit: every tab is visited once,
    and the flag says whether some layout differed. *)
Lemma relayout_loop_tabs (new_layout : PortLayout) (s : MainWindow) :
  tabs_of (fst (fold_left (relayout_tab new_layout) (all_tabs s)
                          (blockSignals true s, false)))
  = (map (relaid new_layout) (tabs_before s),
     relaid new_layout
       {| scene := scene (currentTabInfo s);
          signalsBlocked := true;
          locked := locked (currentTabInfo s) |},
     map (relaid new_layout) (tabs_after s))
  /\ snd (fold_left (relayout_tab new_layout) (all_tabs s)
                    (blockSignals true s, false))
     = any_differs new_layout s.
Proof.
  unfold all_tabs. rewrite fold_left_app.
  set (c := {| scene := scene (currentTabInfo s);
               signalsBlocked := true;
               locked := locked (currentTabInfo s) |}).
  assert (H : tabs_of (blockSignals true s)
              = ([] ++ tabs_before s, c, tabs_after s)) by reflexivity.
  destruct (@relayout_before_tabs new_layout (tabs_before s) [] c
              (tabs_after s) (blockSignals true s) false H) as [B1 B2].
  cbn [length app] in B1, B2.
  destruct (fold_left (relayout_tab new_layout)
                      (map TabBefore (seq 0 (length (tabs_before s))))
                      (blockSignals true s, false)) as [s1 f1].
  cbn [fst snd] in B1, B2. subst f1. cbn [fold_left orb].
  assert (T : tab_at TabCurrent s1 = Some c).
  { cbn [tab_at]. injection B1 as _ -> _. reflexivity. }
  destruct (@relayout_step new_layout _ _ _
              (existsb (differs new_layout) (tabs_before s)) T) as [C1 C2].
  rewrite (@tabs_of_with_scene_current _ _ _ _ _ B1) in C1.
  destruct (relayout_tab new_layout
              (s1, existsb (differs new_layout) (tabs_before s)) TabCurrent)
    as [s2 f2].
  cbn [fst snd] in C1, C2. subst f2.
  assert (H2 : tabs_of s2
               = (map (relaid new_layout) (tabs_before s),
                  relaid new_layout c, [] ++ tabs_after s)) by exact C1.
  destruct (@relayout_after_tabs new_layout (tabs_after s) [] _ _ s2
              (existsb (differs new_layout) (tabs_before s)
               || differs new_layout c) H2) as [A1 A2].
  cbn [length app] in A1, A2. rewrite A1, A2. split; [reflexivity|].
  unfold any_differs. rewrite existsb_app. cbn [existsb].
  rewrite orb_assoc. reflexivity.
Qed.

(** [refreshNodesLayout], whatever the tabs emit: every document is
    laid out under the new layout, which becomes the current one. *)
Lemma refreshNodesLayout_tabs (new_layout : PortLayout) (s : MainWindow) :
  tabs_of (refreshNodesLayout new_layout s)
  = (map (relaid new_layout) (tabs_before s),
     relaid new_layout (currentTabInfo s),
     map (relaid new_layout) (tabs_after s))
  /\ _current_layout (refreshNodesLayout new_layout s) = new_layout.
Proof.
  unfold refreshNodesLayout.
  set (s0 := if PortLayout_eqb new_layout (_current_layout s) then s
             else set_ui _ s).
  assert (T0 : tabs_of s0 = tabs_of s).
  { unfold s0. destruct (PortLayout_eqb new_layout (_current_layout s));
      reflexivity. }
  injection T0 as Tb Tc Ta.
  destruct (relayout_loop_tabs new_layout s0) as [L1 _].
  rewrite Tb, Tc, Ta in L1. rewrite Tc.
  destruct (fold_left (relayout_tab new_layout) (all_tabs s0)
                      (blockSignals true s0, false)) as [st f].
  cbn [fst snd] in *. injection L1 as Lb Lc La.
  assert (K : tabs_of (set_current_layout new_layout
                         (blockSignals (signalsBlocked (currentTabInfo s))
                            (on_toolButtonCenterView_pressed st)))
              = (map (relaid new_layout) (tabs_before s),
                 relaid new_layout (currentTabInfo s),
                 map (relaid new_layout) (tabs_after s))).
  { unfold tabs_of, on_toolButtonCenterView_pressed. cbn.
    rewrite Lb, Lc, La. reflexivity. }
  destruct f.
  - rewrite tabs_of_onPushUndo.
    rewrite (proj2 (proj2 (proj2 (onPushUndo_tabs _)))).
    split; [exact K|reflexivity].
  - split; [exact K|reflexivity].
Qed.

Lemma pushes_onPushUndo (s : MainWindow) : pushes s <= pushes (onPushUndo s).
Proof.
  destruct (_undo_enabled s) eqn:En.
  - destruct (onPushUndo_enabled s En) as (_ & _ & _ & _ & _ & _ & _ & P).
    rewrite P. lia.
  - rewrite (onPushUndo_disabled s En). lia.
Qed.

Lemma grown_from_refl (s : MainWindow) : grown_from s s.
Proof. split; [lia|]. exists []. split; [reflexivity|simpl; lia]. Qed.

Lemma grown_from_same (s a b : MainWindow) :
  same_history a b -> grown_from s a -> grown_from s b.
Proof.
  intros [(U & _ & _) (_ & _ & P & _)] [G1 (added & G2 & G3)].
  unfold grown_from. rewrite U, P. split; [exact G1|].
  exists added. split; assumption.
Qed.

Lemma grown_from_onPushUndo (s x : MainWindow) :
  grown_from s x -> grown_from s (onPushUndo x).
Proof.
  intros [G1 (added & G2 & G3)].
  destruct (_undo_enabled x) eqn:En.
  - destruct (onPushUndo_enabled x En) as (U & _ & _ & _ & _ & _ & _ & P).
    unfold grown_from. rewrite U, P. split; [lia|].
    destruct (push_rule x).
    + exists (_current_state x :: added). rewrite G2.
      split; [reflexivity|cbn [length]; lia].
    + exists added. split; [exact G2|lia].
  - rewrite (onPushUndo_disabled x En). split; [exact G1|].
    exists added. split; assumption.
Qed.

(** With the undo switch on, a layout that differs makes
    [refreshNodesLayout] reach [onPushUndo], whatever the tabs emit. *)
Lemma refreshNodesLayout_pushes (new_layout : PortLayout) (s : MainWindow) :
  _undo_enabled s = true ->
  any_differs new_layout s = true ->
  pushes s < pushes (refreshNodesLayout new_layout s).
Proof.
  intros En D. unfold refreshNodesLayout.
  set (s0 := if PortLayout_eqb new_layout (_current_layout s) then s
             else set_ui _ s).
  assert (H0 : same_history s s0).
  { unfold s0. destruct (PortLayout_eqb new_layout (_current_layout s));
      [apply same_history_refl|apply same_history_set_ui]. }
  assert (T0 : tabs_of s0 = tabs_of s).
  { unfold s0. destruct (PortLayout_eqb new_layout (_current_layout s));
      reflexivity. }
  destruct (relayout_loop_tabs new_layout s0) as [_ L2].
  assert (D0 : any_differs new_layout s0 = true).
  { unfold any_differs. injection T0 as -> -> ->. exact D. }
  rewrite D0 in L2.
  set (looped := fold_left (relayout_tab new_layout) (all_tabs s0)
                           (blockSignals true s0, false)) in *.
  rewrite L2.
  set (s3 := set_current_layout new_layout
               (blockSignals (signalsBlocked (currentTabInfo s0))
                  (on_toolButtonCenterView_pressed (fst looped)))).
  assert (A : forall x, _undo_enabled x = true ->
                        _undo_enabled (onPushUndo x) = true).
  { intros x K. rewrite (proj2 (onPushUndo_frame x)). exact K. }
  assert (B : forall q sc x, _undo_enabled x = true ->
                             _undo_enabled (set_scene q sc x) = true).
  { intros q sc x K.
    rewrite (proj1 (proj2 (set_scene_frame q sc x))). exact K. }
  assert (E1 : _undo_enabled (fst looped) = true).
  { unfold looped.
    apply kept_relayout with (P := fun x => _undo_enabled x = true);
      try (intros; assumption); auto.
    cbn [fst]. destruct H0 as (_ & _ & K & _). cbn. rewrite K. exact En. }
  assert (B2 : forall q sc x, pushes s <= pushes x ->
                              pushes s <= pushes (set_scene q sc x)).
  { intros q sc x K.
    destruct (same_history_set_scene q sc x) as (_ & _ & _ & P & _).
    rewrite P. exact K. }
  assert (P1 : pushes s <= pushes (fst looped)).
  { unfold looped.
    apply kept_relayout with (P := fun x => pushes s <= pushes x);
      try (intros; assumption); auto.
    - intros x K. pose proof (pushes_onPushUndo x). lia.
    - cbn [fst]. destruct H0 as (_ & _ & _ & K & _).
      change (pushes s <= pushes s0). rewrite K. lia. }
  assert (E3 : _undo_enabled s3 = true) by exact E1.
  destruct (onPushUndo_enabled s3 E3) as (_ & _ & _ & _ & _ & _ & _ & P).
  rewrite P. change (pushes s3) with (pushes (fst looped)). lia.
Qed.

Lemma not_differs_quiet (new_layout : PortLayout) (s : MainWindow) :
  any_differs new_layout s = false -> background_quiet new_layout s.
Proof.
  unfold any_differs. rewrite existsb_app. cbn [existsb].
  intros H. apply orb_false_iff in H. destruct H as [Hb H].
  apply orb_false_iff in H. destruct H as [_ Ha].
  assert (K : forall l, existsb (differs new_layout) l = false ->
                        Forall (quiet_tab new_layout) l).
  { induction l as [|x l IH]; intros Q; constructor.
    - simpl in Q. apply orb_false_iff in Q. destruct Q as [Q _].
      intros D. congruence.
    - simpl in Q. apply orb_false_iff in Q. destruct Q as [_ Q].
      exact (IH Q). }
  split; apply K; assumption.
Qed.

(** C8, as the code has it.  For every orientation toggle: (1) every
    open document whose layout differs from the new orientation is laid
    out again under it and the others are untouched, whatever the tabs
    emit; (2) when no document differed, both stacks and
    [_current_state] are unchanged and [onPushUndo] did not run; (3) the
    undo stack only grows, by no more entries than [onPushUndo] ran; (4)
    with the undo switch on, [onPushUndo] runs if and only if some
    document differed; (5) with the switch off nothing is recorded; (6)
    with the switch on, no background tab reaching a slot and some
    document differing, [onPushUndo] runs exactly once: [_current_state]
    becomes the snapshot of the current document as laid out, and one
    entry, the previous [_current_state], is added to the undo stack
    (the redo stack being cleared) exactly when the stack was empty or
    [_current_state] differed both from that snapshot and from the top
    of the stack; otherwise the two stacks stay as they were, though a
    layout changed. *)
Theorem toggle_relayout_and_push (s : MainWindow) :
  (_current_layout (on_toolButtonLayout_clicked s)
   = other_layout (_current_layout s)
   /\ tabs_before (on_toolButtonLayout_clicked s)
      = map (relaid (other_layout (_current_layout s))) (tabs_before s)
   /\ currentTabInfo (on_toolButtonLayout_clicked s)
      = relaid (other_layout (_current_layout s)) (currentTabInfo s)
   /\ tabs_after (on_toolButtonLayout_clicked s)
      = map (relaid (other_layout (_current_layout s))) (tabs_after s))
  /\ (any_differs (other_layout (_current_layout s)) s = false ->
      same_store s (on_toolButtonLayout_clicked s)
      /\ pushes (on_toolButtonLayout_clicked s) = pushes s)
  /\ (pushes s <= pushes (on_toolButtonLayout_clicked s)
      /\ exists added : list QByteArray,
           _undo_stack (on_toolButtonLayout_clicked s)
           = added ++ _undo_stack s
           /\ length added
              <= pushes (on_toolButtonLayout_clicked s) - pushes s)
  /\ (_undo_enabled s = true ->
      (any_differs (other_layout (_current_layout s)) s = true
       <-> pushes s < pushes (on_toolButtonLayout_clicked s)))
  /\ (_undo_enabled s = false ->
      same_store s (on_toolButtonLayout_clicked s)
      /\ pushes (on_toolButtonLayout_clicked s) = pushes s)
  /\ (_undo_enabled s = true ->
      background_quiet (other_layout (_current_layout s)) s ->
      any_differs (other_layout (_current_layout s)) s = true ->
      pushes (on_toolButtonLayout_clicked s) = S (pushes s)
      /\ _current_state (on_toolButtonLayout_clicked s)
         = saveToMemory (relaid_scene (other_layout (_current_layout s))
                                      (scene (currentTabInfo s)))
      /\ (_undo_stack (on_toolButtonLayout_clicked s),
          _redo_stack (on_toolButtonLayout_clicked s))
         = if match _undo_stack s with
              | [] => true
              | back :: _ =>
                  negb (String.eqb
                          (saveToMemory
                             (relaid_scene (other_layout (_current_layout s))
                                           (scene (currentTabInfo s))))
                          (_current_state s))
                  && negb (String.eqb back (_current_state s))
              end
           then (_current_state s :: _undo_stack s, [])
           else (_undo_stack s, _redo_stack s)).
Proof.
  assert (R : on_toolButtonLayout_clicked s
              = refreshNodesLayout (other_layout (_current_layout s)) s).
  { unfold on_toolButtonLayout_clicked.
    destruct (_current_layout s); reflexivity. }
  rewrite R. clear R.
  set (new_layout := other_layout (_current_layout s)).
  assert (Same : any_differs new_layout s = false ->
                 same_store s (refreshNodesLayout new_layout s)
                 /\ pushes (refreshNodesLayout new_layout s) = pushes s).
  { intros D.
    destruct (refreshNodesLayout_effect (not_differs_quiet _ _ D))
      as (s3 & Eq & [St (_ & _ & P3 & _)] & _).
    rewrite Eq, D. split; assumption. }
  split; [|split; [|split; [|split; [|split]]]].
  - destruct (refreshNodesLayout_tabs new_layout s) as [T L].
    injection T as Tb Tc Ta. repeat split; assumption.
  - exact Same.
  - change (grown_from s (refreshNodesLayout new_layout s)).
    apply kept_refreshNodesLayout with (P := grown_from s).
    + apply grown_from_onPushUndo.
    + intros x. apply grown_from_same, same_history_onSceneChanged.
    + intros p sc x. apply grown_from_same, same_history_set_scene.
    + intros b x. apply grown_from_same, same_history_blockSignals.
    + intros icon x. apply grown_from_same, same_history_set_ui.
    + intros l x. apply grown_from_same, same_history_set_current_layout.
    + apply grown_from_refl.
  - intros En. split.
    + intros D. apply refreshNodesLayout_pushes; assumption.
    + intros Lt. destruct (any_differs new_layout s) eqn:D; [reflexivity|].
      destruct (Same eq_refl) as [_ P]. lia.
  - intros En.
    destruct (same_history_refreshNodesLayout_quiet new_layout s En)
      as (St & _ & _ & P & _).
    split; assumption.
  - intros En Q D.
    destruct (refreshNodesLayout_effect Q)
      as (s3 & Eq & [(U3 & R3 & C3) (_ & En3 & P3 & _)] & _ & _ & T3 & _).
    rewrite Eq, D. clear Eq.
    assert (En3' : _undo_enabled s3 = true) by congruence.
    destruct (onPushUndo_enabled s3 En3')
      as (U & Rd & C & _ & _ & _ & _ & P).
    rewrite P, P3, C, U, Rd. unfold push_rule.
    rewrite U3, R3, C3, T3. cbn [scene relaid].
    split; [reflexivity|]. split; [reflexivity|].
    destruct (_undo_stack s) as [|back rest]; [reflexivity|].
    destruct (negb _ && negb _); reflexivity.
Qed.

End ToggleFacts.

(** ** The heap of the saved document *)

Lemma length_dom_update (f : DomNode -> DomNode) (d : XMLDocument) :
  forall i, length (dom_update i f d) = length d.
Proof.
  induction d as [|n d IH]; intros [|i]; simpl; try reflexivity.
  rewrite IH. reflexivity.
Qed.

Lemma nth_error_dom_update (f : DomNode -> DomNode) (d : XMLDocument) :
  forall i j,
    nth_error (dom_update i f d) j
    = if Nat.eqb j i then option_map f (nth_error d j) else nth_error d j.
Proof.
  induction d as [|n d IH]; intros [|i] [|j]; simpl; try reflexivity.
  - destruct (Nat.eqb j i); reflexivity.
  - apply IH.
Qed.

Lemma nth_error_InsertEndChild (p c : nat) (d : XMLDocument) (j : nat) :
  nth_error (InsertEndChild p c d) j
  = option_map (inserted_cell p c (parent_of d c) j) (nth_error d j).
Proof.
  unfold InsertEndChild, inserted_cell, parent_of.
  destruct (nth_error d c) as [nc|]; [destruct (dom_parent nc) as [q|]|];
    unfold Unlink; rewrite !nth_error_dom_update;
    destruct (Nat.eqb j c), (Nat.eqb j p); try destruct (Nat.eqb j q);
    destruct (nth_error d j); reflexivity.
Qed.

Lemma length_InsertEndChild (p c : nat) (d : XMLDocument) :
  length (InsertEndChild p c d) = length d.
Proof.
  unfold InsertEndChild.
  destruct (nth_error d c) as [nc|]; [destruct (dom_parent nc) as [q|]|];
    unfold Unlink; rewrite !length_dom_update; reflexivity.
Qed.

Lemma filter_above (rm : nat) (l : list nat) :
  Forall (fun x => rm < x) l ->
  filter (fun x => negb (Nat.eqb x rm)) l = l.
Proof.
  induction 1 as [|x l H F IH]; simpl; [reflexivity|].
  destruct (Nat.eqb_spec x rm); [lia|]. simpl. rewrite IH. reflexivity.
Qed.

Lemma nth_error_SetAttribute (e : nat) (k v : string) (d : XMLDocument)
                             (j : nat) :
  nth_error (SetAttribute e k v d) j
  = if Nat.eqb j e
    then option_map (fun n => {| dom_kind := dom_kind n;
                                 dom_attrs := set_assoc k v (dom_attrs n);
                                 dom_parent := dom_parent n;
                                 dom_children := dom_children n |})
                    (nth_error d j)
    else nth_error d j.
Proof. unfold SetAttribute. apply nth_error_dom_update. Qed.

Section SavedHeap.

Context {E : External}.

(** One round of the inner loop of lines 294-301, cell by cell: the
    new [Parameter] takes the section's element from whoever held it,
    gets its two attributes and goes below [n]. *)
Lemma save_params_round (rm n : nat) (h : option nat)
                        (pr : QString * ParamType) (d : XMLDocument) :
  rm < length d -> n < length d -> n <> rm ->
  parent_of d rm = h ->
  let L := length d in
  let d' := save_params n rm [pr] d in
  length d' = S L
  /\ parent_of d' rm = Some L
  /\ nth_error d' L = Some (param_cell n rm true pr)
  /\ nth_error d' rm
     = option_map (fun c => set_parent L (if holds h rm then drop_child rm c
                                           else c))
                  (nth_error d rm)
  /\ nth_error d' n
     = option_map (fun c => add_child L (if holds h n then drop_child rm c
                                         else c))
                  (nth_error d n)
  /\ (forall j, j < L -> j <> rm -> j <> n ->
                nth_error d' j
                = option_map (fun c => if holds h j then drop_child rm c
                                       else c)
                             (nth_error d j)).
Proof.
  intros Hrm Hn Hne Hpar L d'.
  unfold save_params in d'. cbn [fold_left] in d'.
  unfold NewElement in d'. cbn [fst snd] in d'. fold L in d'.
  set (fresh := {| dom_kind := DomElement "Parameter"; dom_attrs := [];
                   dom_parent := None; dom_children := [] |}) in d'.
  set (d1 := d ++ [fresh]) in d'.
  set (d2 := InsertEndChild L rm d1) in d'.
  set (d3 := SetAttribute L "label" (toStdString (fst pr)) d2) in d'.
  set (d4 := SetAttribute L "type" (ParamType_toStr (snd pr)) d3) in d'.
  assert (O1 : forall j, j < L -> nth_error d1 j = nth_error d j).
  { intros j Hj. unfold d1. apply nth_error_app1. exact Hj. }
  assert (N1 : nth_error d1 L = Some fresh).
  { unfold d1, L. rewrite nth_error_app2 by lia.
    rewrite Nat.sub_diag. reflexivity. }
  assert (P1 : parent_of d1 rm = h).
  { unfold parent_of. rewrite O1 by exact Hrm. exact Hpar. }
  assert (C2 : forall j, nth_error d2 j
                         = option_map (inserted_cell L rm h j)
                                      (nth_error d1 j)).
  { intros j. unfold d2. rewrite nth_error_InsertEndChild, P1.
    reflexivity. }
  assert (N4 : nth_error d4 L
               = Some {| dom_kind := DomElement "Parameter";
                         dom_attrs := [("label", toStdString (fst pr));
                                       ("type", ParamType_toStr (snd pr))];
                         dom_parent := None; dom_children := [rm] |}).
  { unfold d4, d3. rewrite !nth_error_SetAttribute, Nat.eqb_refl.
    rewrite C2, N1. unfold inserted_cell, fresh. cbn [option_map].
    rewrite Nat.eqb_refl.
    destruct (Nat.eqb_spec L rm) as [Q|Q]; [unfold L in Q; lia|].
    destruct h as [q|]; [destruct (Nat.eqb L q)|]; reflexivity. }
  assert (O4 : forall j, j <> L -> nth_error d4 j = nth_error d2 j).
  { intros j Hj. unfold d4, d3. rewrite !nth_error_SetAttribute.
    destruct (Nat.eqb_spec j L); [contradiction|reflexivity]. }
  assert (P4 : parent_of d4 L = None).
  { unfold parent_of. rewrite N4. reflexivity. }
  assert (C5 : forall j, nth_error d' j
                         = option_map (inserted_cell n L None j)
                                      (nth_error d4 j)).
  { intros j. unfold d'. rewrite nth_error_InsertEndChild, P4.
    reflexivity. }
  split.
  { unfold d'. rewrite length_InsertEndChild. unfold d4, d3, SetAttribute.
    rewrite !length_dom_update. unfold d2.
    rewrite length_InsertEndChild. unfold d1. rewrite length_app.
    simpl. unfold L. lia. }
  split.
  { unfold parent_of. rewrite C5, O4 by (unfold L; lia).
    rewrite C2, O1 by exact Hrm.
    destruct (nth_error d rm) as [crm|] eqn:Q0;
      [|apply nth_error_None in Q0; lia].
    unfold inserted_cell. cbn [option_map]. rewrite Nat.eqb_refl.
    destruct (Nat.eqb_spec rm L) as [Q|Q]; [unfold L in Q; lia|].
    destruct (Nat.eqb_spec rm n) as [Q'|Q']; [congruence|].
    reflexivity. }
  split.
  { rewrite C5, N4. unfold inserted_cell. cbn [option_map].
    rewrite Nat.eqb_refl.
    destruct (Nat.eqb_spec L n) as [Q|Q]; [unfold L in Q; lia|].
    reflexivity. }
  split.
  { rewrite C5, O4 by (unfold L; lia). rewrite C2, O1 by exact Hrm.
    destruct (nth_error d rm) as [crm|]; [|reflexivity].
    unfold inserted_cell, holds. cbn [option_map]. rewrite Nat.eqb_refl.
    destruct (Nat.eqb_spec rm L) as [Q|Q]; [unfold L in Q; lia|].
    destruct (Nat.eqb_spec rm n) as [Q'|Q']; [congruence|].
    destruct h as [q|]; [destruct (Nat.eqb rm q)|]; reflexivity. }
  split.
  { rewrite C5, O4 by (unfold L; lia). rewrite C2, O1 by exact Hn.
    destruct (nth_error d n) as [cn|]; [|reflexivity].
    unfold inserted_cell, holds. cbn [option_map]. rewrite Nat.eqb_refl.
    destruct (Nat.eqb_spec n L) as [Q|Q]; [unfold L in Q; lia|].
    destruct (Nat.eqb_spec n rm) as [Q'|Q']; [congruence|].
    destruct h as [q|]; [destruct (Nat.eqb n q)|]; reflexivity. }
  intros j Hj Hjr Hjn.
  rewrite C5, O4 by lia. rewrite C2, O1 by exact Hj.
  destruct (nth_error d j) as [cj|]; [|reflexivity].
  unfold inserted_cell, holds. cbn [option_map].
  destruct (Nat.eqb_spec j L) as [Q|Q]; [lia|].
  destruct (Nat.eqb_spec j rm) as [Q1|Q1]; [contradiction|].
  destruct (Nat.eqb_spec j n) as [Q2|Q2]; [contradiction|].
  destruct h as [q|]; [destruct (Nat.eqb j q)|]; reflexivity.
Qed.

Lemma drop_held (n rm : nat) (held : bool) (pr : QString * ParamType) :
  drop_child rm (param_cell n rm held pr) = param_cell n rm false pr.
Proof.
  unfold drop_child, param_cell. cbn [dom_children dom_kind dom_attrs
                                       dom_parent].
  destruct held; cbn [filter]; [rewrite Nat.eqb_refl|]; reflexivity.
Qed.

Lemma params_in_above (d : XMLDocument) (rm : nat) (h : option nat)
                      (n : nat) (prs : list (QString * ParamType))
                      (ps : list nat) :
  params_in d rm h n prs ps -> Forall (fun p => rm < p) ps.
Proof.
  induction 1 as [|pr p prs ps (A & _) F IH]; constructor; assumption.
Qed.

Lemma models_in_above (d : XMLDocument) (rm : nat) (h : option nat)
                      (models : TreeNodesModel)
                      (ns : list (nat * list nat)) :
  Forall2 (model_in d rm h) models ns ->
  Forall (fun x => rm < x) (map fst ns).
Proof.
  induction 1 as [|it nps models ns (A & _) F IH]; constructor; assumption.
Qed.

(** The cells of the models already in place, across a step that
    moves the section's element to a new holder [h'] and otherwise
    leaves alone every cell above [rm] that has a parent. *)
Lemma params_in_step (d d' : XMLDocument) (rm : nat) (h h' : option nat)
                     (n : nat) (prs : list (QString * ParamType))
                     (ps : list nat) :
  (forall j c, rm < j -> nth_error d j = Some c -> dom_parent c <> None ->
               nth_error d' j
               = Some (if holds h j then drop_child rm c else c)) ->
  (forall j c, rm < j -> nth_error d j = Some c -> holds h' j = false) ->
  params_in d rm h n prs ps -> params_in d' rm h' n prs ps.
Proof.
  intros Hstep Hnew. induction 1 as [|pr p prs ps (A & B) F IH];
    constructor; [|exact IH].
  split; [exact A|].
  rewrite (Hstep p _ A B) by discriminate.
  rewrite (Hnew p _ A B).
  destruct (holds h p); [rewrite drop_held|]; reflexivity.
Qed.

Lemma model_in_step (d d' : XMLDocument) (rm : nat) (h h' : option nat)
                    (it : QString * TreeNodeModel NodeType ParamType)
                    (nps : nat * list nat) :
  (forall j c, rm < j -> nth_error d j = Some c -> dom_parent c <> None ->
               nth_error d' j
               = Some (if holds h j then drop_child rm c else c)) ->
  (forall j c, rm < j -> nth_error d j = Some c -> holds h' j = false) ->
  model_in d rm h it nps -> model_in d' rm h' it nps.
Proof.
  intros Hstep Hnew (A & B & C). split; [exact A|]. split.
  - rewrite (Hstep _ _ A B) by discriminate.
    destruct (holds h (fst nps)); [|reflexivity].
    unfold drop_child, model_cell.
    cbn [dom_children dom_kind dom_attrs dom_parent].
    rewrite (filter_above (params_in_above C)). reflexivity.
  - apply params_in_step with (d := d) (h := h); assumption.
Qed.

Lemma models_in_step (d d' : XMLDocument) (rm : nat) (h h' : option nat)
                     (models : TreeNodesModel)
                     (ns : list (nat * list nat)) :
  (forall j c, rm < j -> nth_error d j = Some c -> dom_parent c <> None ->
               nth_error d' j
               = Some (if holds h j then drop_child rm c else c)) ->
  (forall j c, rm < j -> nth_error d j = Some c -> holds h' j = false) ->
  Forall2 (model_in d rm h) models ns ->
  Forall2 (model_in d' rm h') models ns.
Proof.
  intros Hstep Hnew. induction 1 as [|it nps models ns A F IH];
    constructor; [|exact IH].
  apply model_in_step with (d := d) (h := h); assumption.
Qed.

Lemma nth_error_lt (d : XMLDocument) (j : nat) (c : DomNode) :
  nth_error d j = Some c -> j < length d.
Proof. intros H. apply nth_error_Some. rewrite H. discriminate. Qed.

(** The inner loop: the parameters of the model at [n], which is not
    yet below the section's element. *)
Lemma save_params_cells (rm n : nat)
                        (it : QString * TreeNodeModel NodeType ParamType)
                        (models : TreeNodesModel)
                        (ns : list (nat * list nat))
                        (prs : list (QString * ParamType)) :
  forall (prs0 : list (QString * ParamType)) (ps0 : list nat)
         (h : option nat) (d : XMLDocument),
    rm < n ->
    nth_error d rm = Some (section_cell h (map fst ns)) ->
    Forall2 (model_in d rm h) models ns ->
    nth_error d n = Some (model_cell it None ps0) ->
    params_in d rm h n prs0 ps0 ->
    exists h' ps1,
      nth_error (save_params n rm prs d) rm
      = Some (section_cell h' (map fst ns))
      /\ Forall2 (model_in (save_params n rm prs d) rm h') models ns
      /\ nth_error (save_params n rm prs d) n
         = Some (model_cell it None (ps0 ++ ps1))
      /\ params_in (save_params n rm prs d) rm h' n (prs0 ++ prs)
                   (ps0 ++ ps1).
Proof.
  induction prs as [|pr prs IH]; intros prs0 ps0 h d Hn Hrm Hms Hcn Hps.
  - exists h, []. rewrite !app_nil_r. repeat split; assumption.
  - change (save_params n rm (pr :: prs) d)
      with (save_params n rm prs (save_params n rm [pr] d)).
    pose proof (nth_error_lt _ _ Hrm) as Lrm.
    pose proof (nth_error_lt _ _ Hcn) as Ln.
    assert (Hne : n <> rm) by lia.
    assert (Hpar : parent_of d rm = h).
    { unfold parent_of. rewrite Hrm. reflexivity. }
    destruct (@save_params_round rm n h pr d Lrm Ln Hne Hpar)
      as (R1 & R2 & R3 & R4 & R5 & R6).
    set (d1 := save_params n rm [pr] d) in *.
    set (L := length d) in *.
    assert (Hstep : forall j c,
               rm < j -> nth_error d j = Some c -> dom_parent c <> None ->
               nth_error d1 j
               = Some (if holds h j then drop_child rm c else c)).
    { intros j c A B C.
      assert (j <> n).
      { intros Q. subst j. rewrite Hcn in B. injection B as B. subst c.
        apply C. reflexivity. }
      rewrite R6; [rewrite B; reflexivity| |lia|assumption].
      exact (nth_error_lt _ _ B). }
    assert (Hnew : forall j c, rm < j -> nth_error d j = Some c ->
                               holds (Some L) j = false).
    { intros j c _ B. pose proof (nth_error_lt _ _ B). unfold holds.
      apply Nat.eqb_neq. unfold L. lia. }
    destruct (IH (prs0 ++ [pr]) (ps0 ++ [L]) (Some L) d1) as (h' & ps1 & I).
    + exact Hn.
    + rewrite R4, Hrm. cbn [option_map]. f_equal.
      destruct (holds h rm); [|reflexivity].
      unfold set_parent, drop_child, section_cell.
      cbn [dom_children dom_kind dom_attrs dom_parent].
      rewrite (filter_above (models_in_above Hms)). reflexivity.
    + apply models_in_step with (d := d) (h := h); assumption.
    + rewrite R5, Hcn. cbn [option_map]. f_equal.
      destruct (holds h n); [|reflexivity].
      unfold add_child, drop_child, model_cell.
      cbn [dom_children dom_kind dom_attrs dom_parent].
      rewrite (filter_above (params_in_above Hps)). reflexivity.
    + apply Forall2_app.
      * apply params_in_step with (d := d) (h := h); assumption.
      * constructor; [|constructor]. split; [unfold L; lia|].
        rewrite R3. unfold holds. rewrite Nat.eqb_refl. reflexivity.
    + exists h', (L :: ps1).
      rewrite <- !app_assoc in I. exact I.
Qed.

(** A step that leaves alone every cell above [rm] that has a
    parent. *)
Lemma params_in_frame (d d' : XMLDocument) (rm : nat) (h : option nat)
                      (n : nat) (prs : list (QString * ParamType))
                      (ps : list nat) :
  (forall j c, rm < j -> nth_error d j = Some c -> dom_parent c <> None ->
               nth_error d' j = Some c) ->
  params_in d rm h n prs ps -> params_in d' rm h n prs ps.
Proof.
  intros Hf. induction 1 as [|pr p prs ps (A & B) F IH];
    constructor; [|exact IH].
  split; [exact A|]. rewrite (Hf p _ A B) by discriminate. reflexivity.
Qed.

Lemma models_in_frame (d d' : XMLDocument) (rm : nat) (h : option nat)
                      (models : TreeNodesModel)
                      (ns : list (nat * list nat)) :
  (forall j c, rm < j -> nth_error d j = Some c -> dom_parent c <> None ->
               nth_error d' j = Some c) ->
  Forall2 (model_in d rm h) models ns ->
  Forall2 (model_in d' rm h) models ns.
Proof.
  intros Hf. induction 1 as [|it nps models ns (A & B & C) F IH];
    constructor; [|exact IH].
  split; [exact A|]. split.
  - rewrite (Hf _ _ A B) by discriminate. reflexivity.
  - apply params_in_frame with (d := d); assumption.
Qed.

(** One round of the outer loop of lines 286-305. *)
Lemma save_models_round (rm : nat)
                        (it : QString * TreeNodeModel NodeType ParamType)
                        (models : TreeNodesModel)
                        (ns : list (nat * list nat)) (h : option nat)
                        (d : XMLDocument) :
  section_in d rm h models ns ->
  exists h' ps,
    section_in (save_models rm [it] d) rm h' (models ++ [it])
               (ns ++ [(length d, ps)]).
Proof.
  intros (Hrm & Hms).
  pose proof (nth_error_lt _ _ Hrm) as Lrm.
  unfold save_models. cbn [fold_left]. unfold NewElement. cbn [fst snd].
  set (L := length d).
  set (fresh := {| dom_kind := DomElement (NodeType_toStr (node_type (snd it)));
                   dom_attrs := []; dom_parent := None;
                   dom_children := [] |}).
  set (d1 := SetAttribute L "ID" (toStdString (fst it)) (d ++ [fresh])).
  assert (O1 : forall j, j < L -> nth_error d1 j = nth_error d j).
  { intros j Hj. unfold d1. rewrite nth_error_SetAttribute.
    destruct (Nat.eqb_spec j L); [lia|]. apply nth_error_app1. exact Hj. }
  assert (N1 : nth_error d1 L = Some (model_cell it None [])).
  { unfold d1. rewrite nth_error_SetAttribute, Nat.eqb_refl.
    unfold L. rewrite nth_error_app2 by lia. rewrite Nat.sub_diag.
    reflexivity. }
  assert (F1 : forall j c, rm < j -> nth_error d j = Some c ->
                           dom_parent c <> None -> nth_error d1 j = Some c).
  { intros j c _ B _. rewrite O1; [exact B|exact (nth_error_lt _ _ B)]. }
  destruct (@save_params_cells rm L it models ns (params (snd it)) [] []
              h d1) as (h' & ps & I1 & I2 & I3 & I4).
  { exact Lrm. }
  { rewrite O1 by exact Lrm. exact Hrm. }
  { apply models_in_frame with (d := d); assumption. }
  { exact N1. }
  { constructor. }
  cbn [app] in I3, I4.
  set (d2 := save_params L rm (params (snd it)) d1) in *.
  assert (P2 : parent_of d2 L = None).
  { unfold parent_of. rewrite I3. reflexivity. }
  assert (C3 : forall j, nth_error (InsertEndChild rm L d2) j
                         = option_map (inserted_cell rm L None j)
                                      (nth_error d2 j)).
  { intros j. rewrite nth_error_InsertEndChild, P2. reflexivity. }
  assert (F3 : forall j c, rm < j -> nth_error d2 j = Some c ->
                           dom_parent c <> None ->
                           nth_error (InsertEndChild rm L d2) j = Some c).
  { intros j c A B C. rewrite C3, B. cbn [option_map]. f_equal.
    unfold inserted_cell.
    destruct (Nat.eqb_spec j rm) as [Q|Q]; [lia|].
    destruct (Nat.eqb_spec j L) as [Q'|Q']; [|reflexivity].
    subst j. rewrite I3 in B. injection B as B. subst c.
    exfalso. apply C. reflexivity. }
  exists h', ps. split.
  - rewrite C3, I1. cbn [option_map]. unfold inserted_cell.
    rewrite Nat.eqb_refl.
    destruct (Nat.eqb_spec rm L) as [Q|Q]; [lia|].
    rewrite map_app. reflexivity.
  - apply Forall2_app.
    + apply models_in_frame with (d := d2); assumption.
    + constructor; [|constructor]. split; [exact Lrm|]. split.
      * cbn [fst snd]. rewrite C3, I3. cbn [option_map].
        unfold inserted_cell. rewrite Nat.eqb_refl.
        destruct (Nat.eqb_spec L rm) as [Q|Q]; [lia|]. reflexivity.
      * cbn [fst snd]. apply params_in_frame with (d := d2); assumption.
Qed.

Lemma save_models_cells (rm : nat) (todo : TreeNodesModel) :
  forall (models : TreeNodesModel) (ns : list (nat * list nat))
         (h : option nat) (d : XMLDocument),
    section_in d rm h models ns ->
    exists h' ns',
      section_in (save_models rm todo d) rm h' (models ++ todo) ns'.
Proof.
  induction todo as [|it todo IH]; intros models ns h d H.
  - exists h, ns. rewrite app_nil_r. exact H.
  - change (save_models rm (it :: todo) d)
      with (save_models rm todo (save_models rm [it] d)).
    destruct (save_models_round it H) as (h1 & ps & H1).
    destruct (IH _ _ _ _ H1) as (h' & ns' & H').
    exists h', ns'. rewrite <- app_assoc in H'. exact H'.
Qed.

Lemma dom_tree_S (fuel : nat) (d : XMLDocument) (i : nat) :
  dom_tree (S fuel) d i
  = match nth_error d i with
    | None => None
    | Some n =>
        match dom_kind n with
        | DomComment t => Some (XMLComment t)
        | DomElement name =>
            Some (XMLElement name (dom_attrs n)
                    (flat_map (fun c => match dom_tree fuel d c with
                                        | Some x => [x]
                                        | None => []
                                        end) (dom_children n)))
        | DomDocument =>
            Some (XMLElement EmptyString []
                    (flat_map (fun c => match dom_tree fuel d c with
                                        | Some x => [x]
                                        | None => []
                                        end) (dom_children n)))
        end
    end.
Proof. reflexivity. Qed.

(** What the printer reads below the section's element once no
    parameter holds it. *)
Lemma dom_tree_section (d : XMLDocument) (rm root : nat)
                       (models : TreeNodesModel)
                       (ns : list (nat * list nat)) (fuel : nat) :
  root < rm ->
  section_in d rm (Some root) models ns ->
  dom_tree (S (S (S fuel))) d rm
  = Some (XMLElement "TreeNodesModel" [] (map model_xml models)).
Proof.
  intros Hroot (Hrm & Hms). rewrite dom_tree_S, Hrm.
  cbn [section_cell dom_kind dom_attrs dom_children]. do 2 f_equal.
  clear Hrm.
  induction Hms as [|it nps models ns (A & B & C) F IH]; [reflexivity|].
  cbn [map flat_map]. rewrite IH. rewrite dom_tree_S, B.
  cbn [model_cell dom_kind dom_attrs dom_children app].
  f_equal. unfold model_xml. f_equal.
  clear - C Hroot. induction C as [|pr p prs ps (A & B) F IH];
    [reflexivity|].
  cbn [map flat_map]. rewrite IH. rewrite dom_tree_S, B.
  assert (Q : holds (Some root) p = false).
  { unfold holds. apply Nat.eqb_neq. lia. }
  rewrite Q. reflexivity.
Qed.

(** [InsertEndChild root rm]: the section's element leaves the
    parameter that held it. *)
Lemma section_in_released (d : XMLDocument) (rm root : nat)
                          (h : option nat) (models : TreeNodesModel)
                          (ns : list (nat * list nat)) :
  root < rm ->
  section_in d rm h models ns ->
  section_in (InsertEndChild root rm d) rm (Some root) models ns.
Proof.
  intros Hroot (Hrm & Hms).
  assert (Hpar : parent_of d rm = h).
  { unfold parent_of. rewrite Hrm. reflexivity. }
  assert (C : forall j, nth_error (InsertEndChild root rm d) j
                        = option_map (inserted_cell root rm h j)
                                     (nth_error d j)).
  { intros j. rewrite nth_error_InsertEndChild, Hpar. reflexivity. }
  split.
  - rewrite C, Hrm. cbn [option_map]. f_equal. unfold inserted_cell.
    rewrite Nat.eqb_refl.
    destruct (Nat.eqb_spec rm root) as [Q|Q]; [lia|].
    assert (D : drop_child rm (section_cell h (map fst ns))
                = section_cell h (map fst ns)).
    { unfold drop_child, section_cell.
      cbn [dom_children dom_kind dom_attrs dom_parent].
      rewrite (filter_above (models_in_above Hms)). reflexivity. }
    destruct h as [q|]; [destruct (Nat.eqb rm q); [rewrite D|]|];
      reflexivity.
  - apply models_in_step with (d := d) (h := h); [| |exact Hms].
    + intros j c A B _. rewrite C, B. cbn [option_map]. f_equal.
      unfold inserted_cell, holds.
      destruct (Nat.eqb_spec j root) as [Q|Q]; [lia|].
      destruct (Nat.eqb_spec j rm) as [Q'|Q']; [lia|].
      destruct h as [q|]; reflexivity.
    + intros j c A _. unfold holds. apply Nat.eqb_neq. lia.
Qed.

(** A comment appended to the root afterwards does not reach the
    section. *)
Lemma section_in_comment (d : XMLDocument) (rm root : nat)
                         (h : option nat) (models : TreeNodesModel)
                         (ns : list (nat * list nat)) (text : string) :
  root < rm ->
  section_in d rm h models ns ->
  section_in (InsertEndChild root (snd (NewComment text d))
                             (fst (NewComment text d)))
             rm h models ns.
Proof.
  intros Hroot (Hrm & Hms). unfold NewComment. cbn [fst snd].
  set (cm := {| dom_kind := DomComment text; dom_attrs := [];
                dom_parent := None; dom_children := [] |}).
  assert (Hpar : parent_of (d ++ [cm]) (length d) = None).
  { unfold parent_of. rewrite nth_error_app2 by lia.
    rewrite Nat.sub_diag. reflexivity. }
  assert (C : forall j c,
             root < j -> nth_error d j = Some c ->
             nth_error (InsertEndChild root (length d) (d ++ [cm])) j
             = Some c).
  { intros j c A B. pose proof (nth_error_lt _ _ B) as Lj.
    rewrite nth_error_InsertEndChild, Hpar.
    rewrite nth_error_app1 by exact Lj. rewrite B. cbn [option_map].
    f_equal. unfold inserted_cell.
    destruct (Nat.eqb_spec j root) as [Q|Q]; [lia|].
    destruct (Nat.eqb_spec j (length d)) as [Q'|Q']; [lia|].
    reflexivity. }
  split.
  - apply C; assumption.
  - apply models_in_frame with (d := d); [|exact Hms].
    intros j c A B _. apply C; [lia|exact B].
Qed.

(** The cells below [rm] are out of reach of the loops: the
    section's element is held by nobody or by a cell above it. *)
Lemma save_params_low (rm n : nat) (prs : list (QString * ParamType)) :
  forall d : XMLDocument,
    rm < n -> n < length d ->
    (forall q, parent_of d rm = Some q -> rm < q) ->
    (forall j, j < rm -> nth_error (save_params n rm prs d) j = nth_error d j)
    /\ length d <= length (save_params n rm prs d)
    /\ (forall q, parent_of (save_params n rm prs d) rm = Some q -> rm < q)
    /\ parent_of (save_params n rm prs d) n = parent_of d n.
Proof.
  induction prs as [|pr prs IH]; intros d Hn Ln Hh.
  - repeat split; auto.
  - change (save_params n rm (pr :: prs) d)
      with (save_params n rm prs (save_params n rm [pr] d)).
    assert (Lrm : rm < length d) by lia.
    assert (Hne : n <> rm) by lia.
    destruct (@save_params_round rm n (parent_of d rm) pr d Lrm Ln Hne
                eq_refl) as (R1 & R2 & _ & _ & R5 & R6).
    set (d1 := save_params n rm [pr] d) in *.
    destruct (IH d1) as (I1 & I2 & I3 & I4).
    + exact Hn.
    + rewrite R1. lia.
    + intros q Q. rewrite R2 in Q. injection Q as Q. subst q. lia.
    + split; [|split; [|split]].
      * intros j Hj. rewrite (I1 j Hj).
        rewrite R6 by lia.
        assert (K : holds (parent_of d rm) j = false).
        { unfold holds. destruct (parent_of d rm) as [q|] eqn:Q;
            [|reflexivity].
          apply Nat.eqb_neq. specialize (Hh q eq_refl). lia. }
        rewrite K. destruct (nth_error d j); reflexivity.
      * rewrite R1 in I2. lia.
      * exact I3.
      * rewrite I4.
        change (parent_of d1 n)
          with (match nth_error d1 n with
                | Some c => dom_parent c
                | None => None
                end).
        change (parent_of d n)
          with (match nth_error d n with
                | Some c => dom_parent c
                | None => None
                end).
        rewrite R5. destruct (nth_error d n) as [c|]; [|reflexivity].
        cbn [option_map]. destruct (holds (parent_of d rm) n); reflexivity.
Qed.

Lemma save_models_low (rm : nat) (todo : TreeNodesModel) :
  forall d : XMLDocument,
    rm < length d ->
    (forall q, parent_of d rm = Some q -> rm < q) ->
    (forall j, j < rm -> nth_error (save_models rm todo d) j = nth_error d j)
    /\ length d <= length (save_models rm todo d)
    /\ (forall q, parent_of (save_models rm todo d) rm = Some q -> rm < q).
Proof.
  induction todo as [|it todo IH]; intros d Lrm Hh.
  - repeat split; auto.
  - change (save_models rm (it :: todo) d)
      with (save_models rm todo (save_models rm [it] d)).
    assert (Round :
              (forall j, j < rm ->
                         nth_error (save_models rm [it] d) j = nth_error d j)
              /\ length d <= length (save_models rm [it] d)
              /\ (forall q, parent_of (save_models rm [it] d) rm = Some q ->
                            rm < q)).
    { unfold save_models. cbn [fold_left]. unfold NewElement. cbn [fst snd].
      set (L := length d).
      set (fresh := {| dom_kind :=
                         DomElement (NodeType_toStr (node_type (snd it)));
                       dom_attrs := []; dom_parent := None;
                       dom_children := [] |}).
      set (d1 := SetAttribute L "ID" (toStdString (fst it)) (d ++ [fresh])).
      assert (O1 : forall j, j < L -> nth_error d1 j = nth_error d j).
      { intros j Hj. unfold d1. rewrite nth_error_SetAttribute.
        destruct (Nat.eqb_spec j L); [lia|]. apply nth_error_app1.
        exact Hj. }
      assert (L1 : length d1 = S L).
      { unfold d1, SetAttribute. rewrite length_dom_update, length_app.
        simpl. unfold L. lia. }
      assert (P1 : parent_of d1 L = None).
      { unfold parent_of, d1. rewrite nth_error_SetAttribute, Nat.eqb_refl.
        unfold L. rewrite nth_error_app2 by lia. rewrite Nat.sub_diag.
        reflexivity. }
      assert (H1 : forall q, parent_of d1 rm = Some q -> rm < q).
      { intros q. unfold parent_of. rewrite O1 by exact Lrm. apply Hh. }
      destruct (@save_params_low rm L (params (snd it)) d1)
        as (I1 & I2 & I3 & I4); [exact Lrm|lia|exact H1|].
      set (d2 := save_params L rm (params (snd it)) d1) in *.
      rewrite P1 in I4.
      assert (C3 : forall j, nth_error (InsertEndChild rm L d2) j
                             = option_map (inserted_cell rm L None j)
                                          (nth_error d2 j)).
      { intros j. rewrite nth_error_InsertEndChild, I4. reflexivity. }
      split; [|split].
      - intros j Hj. rewrite C3, (I1 j Hj), O1 by (unfold L; lia).
        destruct (nth_error d j) as [c|]; [|reflexivity].
        cbn [option_map]. unfold inserted_cell.
        destruct (Nat.eqb_spec j rm) as [Q|Q]; [lia|].
        destruct (Nat.eqb_spec j L) as [Q'|Q']; [unfold L in Q'; lia|].
        reflexivity.
      - rewrite length_InsertEndChild. rewrite L1 in I2. unfold L in I2. lia.
      - intros q. unfold parent_of. rewrite C3.
        intros Q. apply (I3 q). unfold parent_of.
        destruct (nth_error d2 rm) as [c|]; [|discriminate Q].
        cbn [option_map] in Q. unfold inserted_cell in Q.
        rewrite Nat.eqb_refl in Q.
        destruct (Nat.eqb_spec rm L) as [Q'|Q']; [unfold L in Q'; lia|].
        exact Q. }
    destruct Round as (A1 & A2 & A3).
    destruct (IH (save_models rm [it] d)) as (I1 & I2 & I3);
      [lia|exact A3|].
    split; [|split].
    + intros j Hj. rewrite (I1 j Hj). apply A1. exact Hj.
    + lia.
    + exact I3.
Qed.

(** X17.  The [TreeNodesModel] section of the saved document, in
    spite of line 297: [param_node->InsertEndChild(root_models)] hangs
    the section's element below each new [Parameter] while the section
    is built, and the last [InsertEndChild] of the root takes it back.
    When the [root] element is still in its cell after the tree was
    written, the [root] of the finished document, read to any depth
    from four levels on, holds what it held after the tree and then a
    separator, the section and a separator; the section's parent is
    the [root]; and the section holds one element per model, in the
    order of the map, named by the model's category with its [ID], and
    below it one [Parameter] per parameter with [label] and [type]; no
    [Parameter] has a child. *)
Theorem models_section_written (sc : FlowScene) (current_node : Node)
                               (models : TreeNodesModel) (fuel : nat)
                               (R : DomNode) :
  nth_error (document_with_tree sc current_node) 1 = Some R ->
  dom_kind R = DomElement "root" ->
  dom_tree (S (S (S (S fuel))))
           (build_save_document sc current_node models) 1
  = Some (XMLElement "root" (dom_attrs R)
            (flat_map
               (fun c =>
                  match dom_tree (S (S (S fuel)))
                                 (build_save_document sc current_node models)
                                 c with
                  | Some x => [x]
                  | None => []
                  end)
               (dom_children R)
             ++ [XMLComment dashes;
                 XMLElement "TreeNodesModel" [] (map model_xml models);
                 XMLComment dashes]))
  /\ parent_of (build_save_document sc current_node models)
               (S (length (document_with_tree sc current_node)))
     = Some 1
  /\ dom_tree (S (S (S fuel)))
              (build_save_document sc current_node models)
              (S (length (document_with_tree sc current_node)))
     = Some (XMLElement "TreeNodesModel" [] (map model_xml models)).
Proof.
  intros HR HK.
  set (d4 := document_with_tree sc current_node) in *.
  pose proof (nth_error_lt _ _ HR) as L4.
  change (build_save_document sc current_node models)
    with (let c2 := NewComment dashes d4 in
          let d5 := InsertEndChild 1 (snd c2) (fst c2) in
          let m := NewElement "TreeNodesModel" d5 in
          let d6 := save_models (snd m) models (fst m) in
          let d7 := InsertEndChild 1 (snd m) d6 in
          InsertEndChild 1 (snd (NewComment dashes d7))
                         (fst (NewComment dashes d7))).
  cbv zeta. unfold NewComment, NewElement. cbn [fst snd].
  set (cm := {| dom_kind := DomComment dashes; dom_attrs := [];
                dom_parent := None; dom_children := [] |}).
  set (c2 := length d4).
  set (d5 := InsertEndChild 1 c2 (d4 ++ [cm])).
  assert (L5 : length d5 = S c2).
  { unfold d5. rewrite length_InsertEndChild, length_app. simpl.
    unfold c2. lia. }
  assert (P4 : parent_of (d4 ++ [cm]) c2 = None).
  { unfold parent_of, c2. rewrite nth_error_app2 by lia.
    rewrite Nat.sub_diag. reflexivity. }
  assert (C5a : nth_error d5 1 = Some (add_child c2 R)).
  { unfold d5. rewrite nth_error_InsertEndChild, P4.
    rewrite nth_error_app1 by lia. rewrite HR. cbn [option_map].
    unfold inserted_cell. rewrite Nat.eqb_refl.
    destruct (Nat.eqb_spec 1 c2) as [Q|Q]; [unfold c2 in Q; lia|].
    reflexivity. }
  assert (C5b : nth_error d5 c2 = Some (set_parent 1 cm)).
  { assert (Q0 : nth_error (d4 ++ [cm]) c2 = Some cm).
    { unfold c2. rewrite nth_error_app2 by lia. rewrite Nat.sub_diag.
      reflexivity. }
    unfold d5. rewrite nth_error_InsertEndChild, P4, Q0.
    cbn [option_map]. unfold inserted_cell. rewrite Nat.eqb_refl.
    destruct (Nat.eqb_spec c2 1) as [Q|Q]; [unfold c2 in Q; lia|].
    reflexivity. }
  rewrite !L5.
  set (rm := S c2).
  set (tnm := {| dom_kind := DomElement "TreeNodesModel"; dom_attrs := [];
                 dom_parent := None; dom_children := [] |}).
  assert (Ntnm : nth_error (d5 ++ [tnm]) rm = Some tnm).
  { unfold rm. rewrite <- L5. rewrite nth_error_app2 by lia.
    rewrite Nat.sub_diag. reflexivity. }
  assert (S0 : section_in (d5 ++ [tnm]) rm None [] []).
  { split; [exact Ntnm|constructor]. }
  destruct (save_models_cells models S0) as (h' & ns' & S1).
  cbn [app] in S1.
  destruct (@save_models_low rm models (d5 ++ [tnm])) as (Low & _ & Hh).
  { rewrite length_app. simpl. unfold rm. lia. }
  { intros q Q. unfold parent_of in Q. rewrite Ntnm in Q.
    discriminate Q. }
  set (d6 := save_models rm models (d5 ++ [tnm])) in *.
  assert (Hroot : 1 < rm) by (unfold rm, c2; lia).
  assert (Hpar : parent_of d6 rm = h').
  { unfold parent_of. rewrite (proj1 S1). reflexivity. }
  assert (Hh' : forall q, h' = Some q -> rm < q).
  { intros q Q. apply Hh. rewrite Hpar. exact Q. }
  assert (C6a : nth_error d6 1 = Some (add_child c2 R)).
  { rewrite Low by exact Hroot. rewrite nth_error_app1 by lia.
    exact C5a. }
  assert (C6b : nth_error d6 c2 = Some (set_parent 1 cm)).
  { rewrite Low by (unfold rm; lia). rewrite nth_error_app1 by lia.
    exact C5b. }
  set (d7 := InsertEndChild 1 rm d6).
  assert (S7 : section_in d7 rm (Some 1) models ns').
  { apply section_in_released with (h := h'); assumption. }
  assert (C7 : forall j, nth_error d7 j
                         = option_map (inserted_cell 1 rm h' j)
                                      (nth_error d6 j)).
  { intros j. unfold d7. rewrite nth_error_InsertEndChild, Hpar.
    reflexivity. }
  assert (C7a : nth_error d7 1 = Some (add_child rm (add_child c2 R))).
  { rewrite C7, C6a. cbn [option_map]. f_equal. unfold inserted_cell.
    rewrite Nat.eqb_refl.
    destruct (Nat.eqb_spec 1 rm) as [Q|Q]; [lia|].
    destruct h' as [q|]; [|reflexivity].
    specialize (Hh' q eq_refl).
    destruct (Nat.eqb_spec 1 q) as [Q'|Q']; [lia|reflexivity]. }
  assert (C7b : nth_error d7 c2 = Some (set_parent 1 cm)).
  { rewrite C7, C6b. cbn [option_map]. f_equal. unfold inserted_cell.
    destruct (Nat.eqb_spec c2 1) as [Q|Q]; [unfold c2 in Q; lia|].
    destruct (Nat.eqb_spec c2 rm) as [Q1|Q1]; [unfold rm in Q1; lia|].
    destruct h' as [q|]; [|reflexivity].
    specialize (Hh' q eq_refl).
    destruct (Nat.eqb_spec c2 q) as [Q'|Q']; [unfold rm in Hh'; lia|].
    reflexivity. }
  pose proof (nth_error_lt _ _ C7a) as L7.
  pose proof (nth_error_lt _ _ C7b) as L7b.
  set (c3 := length d7) in *.
  set (final := InsertEndChild 1 c3 (d7 ++ [cm])).
  assert (P7 : parent_of (d7 ++ [cm]) c3 = None).
  { unfold parent_of, c3. rewrite nth_error_app2 by lia.
    rewrite Nat.sub_diag. reflexivity. }
  assert (CF : forall j, nth_error final j
                         = option_map (inserted_cell 1 c3 None j)
                                      (nth_error (d7 ++ [cm]) j)).
  { intros j. unfold final. rewrite nth_error_InsertEndChild, P7.
    reflexivity. }
  assert (CFa : nth_error final 1
                = Some (add_child c3 (add_child rm (add_child c2 R)))).
  { rewrite CF, nth_error_app1 by exact L7. rewrite C7a.
    cbn [option_map]. f_equal. unfold inserted_cell.
    rewrite Nat.eqb_refl.
    destruct (Nat.eqb_spec 1 c3) as [Q|Q]; [lia|reflexivity]. }
  assert (CFb : nth_error final c2 = Some (set_parent 1 cm)).
  { rewrite CF, nth_error_app1 by exact L7b. rewrite C7b.
    cbn [option_map]. f_equal. unfold inserted_cell.
    destruct (Nat.eqb_spec c2 1) as [Q|Q]; [unfold c2 in Q; lia|].
    destruct (Nat.eqb_spec c2 c3) as [Q1|Q1]; [lia|reflexivity]. }
  assert (CFc : nth_error final c3 = Some (set_parent 1 cm)).
  { assert (Q0 : nth_error (d7 ++ [cm]) c3 = Some cm).
    { unfold c3. rewrite nth_error_app2 by lia. rewrite Nat.sub_diag.
      reflexivity. }
    rewrite CF, Q0. cbn [option_map]. f_equal.
    unfold inserted_cell. rewrite Nat.eqb_refl.
    destruct (Nat.eqb_spec c3 1) as [Q|Q]; [lia|reflexivity]. }
  assert (SF : section_in final rm (Some 1) models ns').
  { exact (@section_in_comment d7 rm 1 (Some 1) models ns' dashes
             Hroot S7). }
  assert (TS : forall k, dom_tree (S (S (S k))) final rm
                         = Some (XMLElement "TreeNodesModel" []
                                   (map model_xml models))).
  { intros k. apply dom_tree_section with (root := 1) (ns := ns');
      assumption. }
  split; [|split].
  - rewrite dom_tree_S, CFa.
    cbn [add_child dom_kind dom_attrs dom_children]. rewrite HK.
    do 2 f_equal. rewrite <- !app_assoc. rewrite flat_map_app.
    f_equal. cbn [app flat_map].
    rewrite (TS fuel).
    rewrite !dom_tree_S, CFb, CFc. reflexivity.
  - unfold parent_of. rewrite (proj1 SF). reflexivity.
  - apply TS.
Qed.

End SavedHeap.

(** ** The splitter *)

Lemma int_wrap_small (x : Z) :
  (- 2147483648 <= x < 2147483648)%Z -> int_wrap x = x.
Proof.
  intros H. unfold int_wrap.
  rewrite Z.mod_small by lia. lia.
Qed.

(** X16.  While the sizes are not negative and their sum is an [int],
    [on_splitter_splitterMoved] caps the left pane at the maximum
    width of the left frame and gives what it took to the right pane:
    the sum of the two sizes is kept, the panes after them are not
    touched, and running the slot again changes nothing.  A splitter
    with fewer than two sizes makes the slot index out of range. *)
Theorem splitter_caps_left_pane (s0 s1 maxLeftWidth : Z) (rest : list Z) :
  (0 <= s0)%Z -> (0 <= s1)%Z -> (s0 + s1 < 2147483648)%Z ->
  (0 <= maxLeftWidth)%Z ->
  exists a b,
    on_splitter_splitterMoved (s0 :: s1 :: rest) maxLeftWidth
    = Some (a :: b :: rest)
    /\ a = Z.min s0 maxLeftWidth
    /\ (a + b = s0 + s1)%Z
    /\ on_splitter_splitterMoved (a :: b :: rest) maxLeftWidth
       = Some (a :: b :: rest)
    /\ on_splitter_splitterMoved [] maxLeftWidth = None
    /\ on_splitter_splitterMoved [s0] maxLeftWidth = None.
Proof.
  intros H0 H1 HS HM. unfold on_splitter_splitterMoved at 1. cbv zeta.
  destruct (Z.ltb_spec maxLeftWidth s0) as [L|L].
  - exists maxLeftWidth, (s0 + s1 - maxLeftWidth)%Z.
    rewrite (@int_wrap_small (s0 + s1)%Z) by lia.
    rewrite (@int_wrap_small (s0 + s1 - maxLeftWidth)%Z) by lia.
    split; [reflexivity|]. split; [lia|]. split; [lia|].
    split; [|split; reflexivity].
    unfold on_splitter_splitterMoved. rewrite Z.ltb_irrefl. reflexivity.
  - exists s0, s1.
    split; [reflexivity|]. split; [lia|]. split; [lia|].
    split; [|split; reflexivity].
    unfold on_splitter_splitterMoved.
    destruct (Z.ltb_spec maxLeftWidth s0); [lia|reflexivity].
Qed.


(** ** The mode actions *)

Section Modes.

Context {E : External}.

Lemma mode_actions_connections (ms : list GraphicMode) :
  forall sp : MainWindow * ModePanel,
    (loadFile_to_on_actionLoad (snd sp) = 0
     \/ loadFile_to_on_LoadLog (snd sp) = 0
     \/ In EDITOR ms \/ In REPLAY ms) ->
    loadFile_to_on_actionLoad
      (snd (fold_left (fun acc m => mode_action m acc) ms sp)) = 0
    \/ loadFile_to_on_LoadLog
         (snd (fold_left (fun acc m => mode_action m acc) ms sp)) = 0.
Proof.
  induction ms as [|m ms IH]; intros sp H.
  - destruct H as [H|[H|[[]|[]]]]; [left|right]; exact H.
  - cbn [fold_left]. apply IH.
    destruct m; cbn [mode_action snd fst updateCurrentMode
                     loadFile_to_on_actionLoad loadFile_to_on_LoadLog
                     on_actionEditor_Mode_triggered
                     on_actionMonitor_mode_triggered
                     on_actionReplay_mode_triggered
                     set_current_mode _current_mode].
    + right. left. reflexivity.
    + destruct H as [H|[H|[[H|H]|[H|H]]]]; try discriminate;
        auto.
    + left. reflexivity.
Qed.

(** X18.  A mode action sets the mode and shows the side panel of
    that mode and no other; the load-file button is shown except in
    MONITOR, the connect button only in MONITOR, load-remote and
    save-file only in EDITOR.  The click of the load-file button never
    leads both to the XML load and to the log load once the editor or
    the replay mode was entered, however the modes are switched after
    that; MONITOR leaves the connections alone.  But each switch to
    EDITOR adds a connection: after [n] of them in a row one click
    runs [on_actionLoad_triggered] once more for each. *)
Theorem mode_action_panel (m : GraphicMode) (ms : list GraphicMode)
                          (n : nat) (sp : MainWindow * ModePanel) :
  _current_mode (fst (mode_action m sp)) = m
  /\ shown_panels (snd (mode_action m sp)) = [m]
  /\ shown_buttons (snd (mode_action m sp))
     = match m with
       | EDITOR => ["toolButtonLoadFile"; "toolButtonLoadRemote";
                    "toolButtonSaveFile"]
       | MONITOR => ["toolButtonConnect"]
       | REPLAY => ["toolButtonLoadFile"]
       end
  /\ (loadFile_to_on_actionLoad (snd sp) = 0
      \/ loadFile_to_on_LoadLog (snd sp) = 0
      \/ In EDITOR ms \/ In REPLAY ms ->
      loadFile_to_on_actionLoad
        (snd (fold_left (fun acc m => mode_action m acc) ms sp)) = 0
      \/ loadFile_to_on_LoadLog
           (snd (fold_left (fun acc m => mode_action m acc) ms sp)) = 0)
  /\ (loadFile_to_on_actionLoad (snd (mode_action MONITOR sp))
      = loadFile_to_on_actionLoad (snd sp)
      /\ loadFile_to_on_LoadLog (snd (mode_action MONITOR sp))
         = loadFile_to_on_LoadLog (snd sp))
  /\ loadFile_to_on_actionLoad
       (snd (Nat.iter n (mode_action EDITOR) sp))
     = n + loadFile_to_on_actionLoad (snd sp).
Proof.
  split; [destruct m; reflexivity|].
  split; [destruct m; reflexivity|].
  split; [destruct m; reflexivity|].
  split; [apply mode_actions_connections|].
  split; [split; reflexivity|].
  induction n as [|n IH]; [reflexivity|].
  cbn [Nat.iter]. 
  change (S (loadFile_to_on_actionLoad
               (snd (Nat.iter n (mode_action EDITOR) sp)))
          = S n + loadFile_to_on_actionLoad (snd sp)).
  rewrite IH. reflexivity.
Qed.

End Modes.

(** ** The first edit *)

Section FirstEdit.

Context {E : External}.

Lemma scene_log (e : Event) (s : MainWindow) :
  scene (currentTabInfo (log e s)) = scene (currentTabInfo s).
Proof. reflexivity. Qed.

Lemma onUndoInvoked_scene (back : QByteArray) (rest : list QByteArray)
                          (s : MainWindow) :
  _current_mode s = EDITOR ->
  _undo_stack s = back :: rest ->
  scene (currentTabInfo (onUndoInvoked s))
  = final (loadFromMemory back
             (final (clearScene (scene (currentTabInfo s))))).
Proof.
  intros M U. unfold onUndoInvoked. rewrite M, U.
  cbn [GraphicMode_eqb negb]. cbv zeta.
  rewrite scene_log, loadSceneFromYAML_scene. reflexivity.
Qed.

(** X19.  The constructor leaves [_current_state] as the empty byte
    array, not as the snapshot of the empty scene.  So the first edit
    on the canvas of a window just built, in the editor mode, pushes the
    empty byte array: the undo stack holds it and nothing else.  The
    undo of that edit hands the empty byte array to [loadFromMemory]
    on the cleared scene, makes it the current state and leaves the
    snapshot of the edit as the one entry of the redo stack. *)
Theorem first_edit_pushes_empty_state (settings : list (string * string))
                                      (sc : FlowScene) :
  _current_state (MainWindow_from_settings settings EDITOR) = EmptyString
  /\ _undo_stack (user_edit sc (MainWindow_from_settings settings EDITOR))
     = [EmptyString]
  /\ _current_state (user_edit sc (MainWindow_from_settings settings EDITOR))
     = saveToMemory sc
  /\ store_of (onUndoInvoked
                 (user_edit sc (MainWindow_from_settings settings EDITOR)))
     = ([], [saveToMemory sc], EmptyString)
  /\ scene (currentTabInfo
              (onUndoInvoked
                 (user_edit sc (MainWindow_from_settings settings EDITOR))))
     = final (loadFromMemory EmptyString (final (clearScene sc))).
Proof.
  assert (A : MainWindow_from_settings settings EDITOR
              = new_MainWindow EDITOR).
  { unfold MainWindow_from_settings, initial_layout.
    destruct (String.eqb _ "HORIZONTAL"); reflexivity. }
  rewrite A. set (s0 := new_MainWindow EDITOR).
  assert (En : _undo_enabled s0 = true) by reflexivity.
  assert (B : signalsBlocked (currentTabInfo s0) = false) by reflexivity.
  destruct (user_edit_effect sc s0 En B) as (U & R & C & _ & _ & M & Sc).
  assert (P : push_rule (set_scene TabCurrent sc s0) = true) by reflexivity.
  rewrite P in U, R.
  change (_current_state s0) with EmptyString in U.
  change (_undo_stack s0) with (@nil QByteArray) in U.
  change (_current_mode s0) with EDITOR in M.
  split; [reflexivity|]. split; [exact U|]. split; [exact C|]. split.
  - destruct (onUndoInvoked_store (user_edit sc s0) M) as (S1 & _).
    rewrite S1. unfold store_of, undo_store. rewrite U, R, C. reflexivity.
  - rewrite (onUndoInvoked_scene (user_edit sc s0) M U), Sc. reflexivity.
Qed.

End FirstEdit.

(** * The properties at concrete windows *)

Import Examples.

(** C10 at a window in MONITOR mode whose stacks are not empty. *)
Lemma undo_redo_locked_witness :
  _current_mode window_monitor <> EDITOR
  /\ _undo_stack window_monitor <> []
  /\ @onUndoInvoked Ref.external window_monitor = window_monitor
  /\ @onRedoInvoked Ref.external window_monitor = window_monitor.
Proof.
  assert (H : _current_mode window_monitor <> EDITOR) by (simpl; discriminate).
  split; [exact H|]. split; [vm_compute; discriminate|].
  exact (@undo_redo_locked Ref.external window_monitor H).
Defined.

(** C3 at two edits from a fresh window. *)
Lemma undo_redo_duality_witness :
  (_undo_enabled window0 = true
   /\ signalsBlocked (currentTabInfo window0) = false
   /\ _undo_stack window0 = []
   /\ _redo_stack window0 = [])
  /\ same_store window2
       (Nat.iter 2 (@onRedoInvoked Ref.external)
          (Nat.iter 2 (@onUndoInvoked Ref.external) window2))
  /\ (each_changes (_current_state window0)
        (map Ref.save [scene_tree; scene_childless_root]) = true ->
      length (_undo_stack window2) = 2).
Proof.
  split; [repeat split|].
  pose proof (@undo_redo_duality Ref.external
                [scene_tree; scene_childless_root] window0
                eq_refl eq_refl eq_refl eq_refl) as H.
  cbv zeta in H. destruct H as (A & _ & _ & _ & B).
  split; [exact A|]. intros C. exact (proj1 (B C)).
Defined.

(** C4 at the window where the tree of the first edit is back. *)
Lemma push_if_changed_rule_witness :
  _undo_enabled window_before_push = true
  /\ _current_state (@onPushUndo Ref.external window_before_push)
     = Ref.save scene_tree
  /\ _undo_stack (onPushUndo (@onPushUndo Ref.external window_before_push))
     = _undo_stack (@onPushUndo Ref.external window_before_push).
Proof.
  split; [reflexivity|].
  destruct (@push_if_changed_rule Ref.external window_before_push eq_refl)
    as (A & _ & _ & B).
  split; [exact A|exact B].
Defined.

(** The two rules differ: the fresh snapshot equals the top of the undo
    stack, and the code pushes all the same. *)
Lemma push_although_snapshot_on_top :
  _undo_enabled window_before_push = true
  /\ hd_error (_undo_stack window_before_push)
     = Some (Ref.save (scene (currentTabInfo window_before_push)))
  /\ @spec_push_rule Ref.external window_before_push = false
  /\ _undo_stack (@onPushUndo Ref.external window_before_push)
     = _current_state window_before_push :: _undo_stack window_before_push
  /\ _redo_stack (@onPushUndo Ref.external window_before_push) = [].
Proof. vm_compute. repeat split. Qed.

(** C5 at a document with two roots. *)
Lemma save_rejects_invalid_witness :
  length (Ref.roots (scene (currentTabInfo window_two_roots))) <> 1
  /\ files (world (@on_actionSave_triggered Ref.external true ["out.xml"]
                     true window_two_roots))
     = files (world window_two_roots).
Proof.
  assert (H : length (Ref.roots (scene (currentTabInfo window_two_roots)))
              <> 1) by (vm_compute; discriminate).
  split; [exact H|].
  exact (proj1 (proj2 (@save_rejects_invalid Ref.external true ["out.xml"]
                         true window_two_roots (or_introl H)))).
Defined.

(** C6 at a tree delivered to [window2]. *)
Lemma tree_received_history_witness :
  _undo_enabled window2 = true
  /\ _undo_stack (@on_loadBehaviorTree Ref.external delivered_tree window2)
     = [_current_state window2]
  /\ _undo_stack (@on_loadBehaviorTree Ref.external delivered_tree window2)
     <> [].
Proof.
  split; [reflexivity|].
  destruct (@tree_received_history Ref.external delivered_tree window2
              eq_refl) as (_ & _ & _ & A).
  split; [exact A|]. rewrite A. discriminate.
Defined.

(** The save action is enabled for a root without children, which the
    stricter condition rejects. *)
Lemma save_enabled_for_childless_root :
  actionSave_enabled (ui window_childless_root) = true
  /\ @strict_valid Ref.external (scene (currentTabInfo window_childless_root))
     = false.
Proof. vm_compute. split; reflexivity. Qed.

(** C2 at the file that uses an unregistered type, loaded into
    [window2], whose [_current_state] is the snapshot of its
    document: the stacks stay and the document has the snapshot it had
    before the load. *)
Lemma failed_load_rolls_back_witness :
  (@XMLDocument_Parse Ref.external (@toStdString Ref.external bad_text)
                      (String.length bad_text)
   = (0, Some bad_root)
   /\ @ReadTreeNodesModel Ref.external (Some bad_root)
        (_model_registry window2) (_tree_nodes_model window2)
      = (bad_registry, bad_models, None)
   /\ snd (@CreateTreeInSceneFromXML Ref.external
             (FirstChildElement bad_root "BehaviorTree") bad_registry
             (final (@clearScene Ref.external
                       (scene (currentTabInfo window2)))))
      = Some (runtime_error "unregistered ID")
   /\ _current_state window2
      = @saveToMemory Ref.external (scene (currentTabInfo window2))
   /\ (forall x,
         @saveToMemory Ref.external
           (final (@loadFromMemory Ref.external (_current_state window2)
                     (final (@clearScene Ref.external x))))
         = _current_state window2))
  /\ exists s',
       @loadFromXML Ref.external bad_text window2 = Returned s'
       /\ same_store window2 s'
       /\ pushes s' = pushes window2
       /\ @saveToMemory Ref.external (scene (currentTabInfo s'))
          = @saveToMemory Ref.external (scene (currentTabInfo window2)).
Proof.
  assert (HP : @XMLDocument_Parse Ref.external
                 (@toStdString Ref.external bad_text) (String.length bad_text)
               = (0, Some bad_root)) by (vm_compute; reflexivity).
  assert (HR : @ReadTreeNodesModel Ref.external (Some bad_root)
                 (_model_registry window2) (_tree_nodes_model window2)
               = (bad_registry, bad_models, None))
    by (vm_compute; reflexivity).
  assert (HC : snd (@CreateTreeInSceneFromXML Ref.external
                      (FirstChildElement bad_root "BehaviorTree")
                      bad_registry
                      (final (@clearScene Ref.external
                                (scene (currentTabInfo window2)))))
               = Some (runtime_error "unregistered ID"))
    by (vm_compute; reflexivity).
  assert (HS : _current_state window2
               = @saveToMemory Ref.external (scene (currentTabInfo window2)))
    by (vm_compute; reflexivity).
  assert (HF : forall x,
             @saveToMemory Ref.external
               (final (@loadFromMemory Ref.external (_current_state window2)
                         (final (@clearScene Ref.external x))))
             = _current_state window2)
    by (intros x; vm_compute; reflexivity).
  split; [repeat split; assumption|].
  destruct (@failed_load_rolls_back Ref.external bad_text window2)
    as (_ & _ & _ & K).
  destruct (K bad_root bad_registry bad_models
              (runtime_error "unregistered ID") HP HR HC)
    as (s' & A & B & C & _ & D & _).
  exists s'. split; [exact A|split; [exact B|split; [exact C|]]].
  exact (D HS HF).
Defined.

(** After that failed load the node models are those of the file, not
    those from before the load; a text that does not parse at all is
    dropped without any message; and at [window_before_push], whose
    [_current_state] is not the snapshot of its document, the failed
    load leaves another document than the one from before the load. *)
Lemma failed_load_keeps_new_models :
  (option_map (fun s => hd_error (messages s))
              (returned (@loadFromXML Ref.external bad_text window2))
   = Some (Some (MsgWarning "Exception!"
                   (parse_failure_text "unregistered ID")))
   /\ _tree_nodes_model window2 = []
   /\ option_map (@_tree_nodes_model Ref.external)
                 (returned (@loadFromXML Ref.external bad_text window2))
      = Some bad_models)
  /\ (fst (@XMLDocument_Parse Ref.external EmptyString 0) = 1
      /\ option_map messages
                    (returned (@loadFromXML Ref.external EmptyString window2))
         = Some [])
  /\ (@saveToMemory Ref.external (scene (currentTabInfo window_before_push))
      = @saveToMemory Ref.external scene_tree
      /\ option_map (fun s => @saveToMemory Ref.external
                                (scene (currentTabInfo s)))
                    (returned (@loadFromXML Ref.external bad_text
                                 window_before_push))
         = Some (@saveToMemory Ref.external scene_childless_root)
      /\ @saveToMemory Ref.external scene_childless_root
         <> @saveToMemory Ref.external scene_tree).
Proof.
  split; [repeat split; vm_compute; reflexivity|].
  split; [repeat split; vm_compute; reflexivity|].
  split; [vm_compute; reflexivity|].
  split; [vm_compute; reflexivity|].
  vm_compute. discriminate.
Qed.

(** C8 at [window2], whose only tab is laid out horizontally and whose
    undo stack ends in another snapshot than [_current_state]: the
    toggle adds one entry. *)
Lemma toggle_relayout_and_push_witness :
  (_undo_enabled window2 = true
   /\ @background_quiet Ref.external (other_layout (_current_layout window2))
                         window2
   /\ @any_differs Ref.external (other_layout (_current_layout window2))
                   window2 = true)
  /\ pushes (@on_toolButtonLayout_clicked Ref.external window2)
     = S (pushes window2)
  /\ _undo_stack (@on_toolButtonLayout_clicked Ref.external window2)
     = _current_state window2 :: _undo_stack window2
  /\ _redo_stack (@on_toolButtonLayout_clicked Ref.external window2) = [].
Proof.
  assert (Q : @background_quiet Ref.external
                (other_layout (_current_layout window2)) window2)
    by (split; constructor).
  assert (En : _undo_enabled window2 = true) by reflexivity.
  assert (D : @any_differs Ref.external
                (other_layout (_current_layout window2)) window2 = true)
    by (vm_compute; reflexivity).
  split; [split; [exact En|split; [exact Q|exact D]]|].
  destruct (@toggle_relayout_and_push Ref.external window2)
    as (_ & _ & _ & _ & _ & K).
  destruct (K En Q D) as (P & _ & St).
  split; [exact P|].
  assert (St' : (_undo_stack (@on_toolButtonLayout_clicked Ref.external
                                window2),
                 _redo_stack (@on_toolButtonLayout_clicked Ref.external
                                window2))
                = (_current_state window2 :: _undo_stack window2, [])).
  { rewrite St. vm_compute. reflexivity. }
  exact (proj1 (pair_equal_spec _ _ _ _) St').
Defined.

(** At [window_delivered_twice] the undo switch is on, there is no
    background tab and the one document is laid out horizontally.  The
    toggle lays it out vertically, its snapshot changes and [onPushUndo]
    runs once, yet no entry is added to the undo history: the top of
    the undo stack already was [_current_state]. *)
Lemma toggle_without_new_entry :
  _undo_enabled window_delivered_twice = true
  /\ @background_quiet Ref.external
       (other_layout (_current_layout window_delivered_twice))
       window_delivered_twice
  /\ @any_differs Ref.external
       (other_layout (_current_layout window_delivered_twice))
       window_delivered_twice = true
  /\ @layout Ref.external
       (scene (currentTabInfo window_delivered_twice)) = Horizontal
  /\ @layout Ref.external
       (scene (currentTabInfo
                 (@on_toolButtonLayout_clicked Ref.external
                    window_delivered_twice))) = Vertical
  /\ @saveToMemory Ref.external
       (scene (currentTabInfo
                 (@on_toolButtonLayout_clicked Ref.external
                    window_delivered_twice)))
     <> @saveToMemory Ref.external
          (scene (currentTabInfo window_delivered_twice))
  /\ pushes (@on_toolButtonLayout_clicked Ref.external
               window_delivered_twice)
     = S (pushes window_delivered_twice)
  /\ _undo_stack (@on_toolButtonLayout_clicked Ref.external
                    window_delivered_twice)
     = _undo_stack window_delivered_twice
  /\ _redo_stack (@on_toolButtonLayout_clicked Ref.external
                    window_delivered_twice)
     = _redo_stack window_delivered_twice
  /\ length (_undo_stack window_delivered_twice) = 1.
Proof.
  split; [vm_compute; reflexivity|].
  split; [split; apply Forall_nil|].
  split; [vm_compute; reflexivity|].
  split; [vm_compute; reflexivity|].
  split; [vm_compute; reflexivity|].
  split; [vm_compute; discriminate|].
  split; [vm_compute; reflexivity|].
  split; [vm_compute; reflexivity|].
  split; vm_compute; reflexivity.
Qed.

(** C1 at the valid document Root -> Sequence[ActionA, ActionB]: the
    node to save is found, and the document built for the file holds
    the three separator comments, each a run of hyphens, which is not
    the text of an XML comment. *)
Lemma saved_document_has_hyphen_comments :
  @save_entry Ref.external scene_tree = Some sequence_node
  /\ option_map comments_in
       (dom_tree 8 (@build_save_document Ref.external scene_tree
                      sequence_node []) 0)
     = Some [dashes; dashes; dashes]
  /\ xml_comment_ok dashes = false.
Proof. repeat split; vm_compute; reflexivity. Qed.

(** * More properties at concrete windows *)

(** X2 at [window2]. *)
Lemma undo_switch_back_on_witness :
  _undo_enabled window2 = true
  /\ _undo_enabled (@onUndoInvoked Ref.external window2) = true
  /\ _undo_enabled (@on_toolButtonLayout_clicked Ref.external window2) = true.
Proof.
  split; [reflexivity|].
  destruct (@undo_switch_back_on Ref.external window2 eq_refl)
    as (_ & A & _ & B & _).
  split; [exact A|exact B].
Defined.

(** X3 at [window2]. *)
Lemma ui_consistent_kept_witness :
  @ui_consistent Ref.external window2
  /\ @ui_consistent Ref.external (@onUndoInvoked Ref.external window2)
  /\ @ui_consistent Ref.external
       (@on_loadBehaviorTree Ref.external delivered_tree window2).
Proof.
  assert (H : @ui_consistent Ref.external window2)
    by (repeat split; vm_compute; reflexivity).
  split; [exact H|].
  destruct (@ui_consistent_kept Ref.external window2 H)
    as (_ & A & _ & _ & _ & _ & B & _).
  split; [exact A|apply B].
Defined.

(** X6 at [window2], whose undo stack holds two snapshots, with a
    third edit. *)
Lemma edit_then_undo_witness :
  (_current_mode window2 = EDITOR
   /\ _undo_enabled window2 = true
   /\ signalsBlocked (currentTabInfo window2) = false
   /\ @push_rule Ref.external
        (@set_scene Ref.external TabCurrent scene_two_roots window2) = true)
  /\ _undo_stack (@onUndoInvoked Ref.external
                    (@user_edit Ref.external scene_two_roots window2))
     = _undo_stack window2
  /\ _redo_stack (@onUndoInvoked Ref.external
                    (@user_edit Ref.external scene_two_roots window2))
     = [Ref.save scene_two_roots].
Proof.
  assert (P : @push_rule Ref.external
                (@set_scene Ref.external TabCurrent scene_two_roots window2)
              = true) by (vm_compute; reflexivity).
  split; [repeat split; exact P|].
  destruct (@edit_then_undo Ref.external scene_two_roots window2
              eq_refl eq_refl eq_refl P) as (A & _ & B & _).
  split; [exact A|exact B].
Defined.

(** X8 at the valid document of [window_tree]: the file is written
    and holds the printed document. *)
Lemma save_writes_when_accepted_witness :
  (Ref.find_roots (scene (currentTabInfo window_tree)) = [root_node]
   /\ Ref.get_children (scene (currentTabInfo window_tree)) root_node
      = [sequence_node]
   /\ "tree.xml" <> EmptyString)
  /\ files (world (@on_actionSave_triggered Ref.external true ["tree.xml"]
                     true window_tree))
     = [("tree.xml",
         String.append
           (Ref.CStr (@build_save_document Ref.external scene_tree
                        sequence_node []))
           nl)].
Proof.
  assert (A : @findRoots Ref.external (scene (currentTabInfo window_tree))
              = [root_node]) by reflexivity.
  assert (B : @getChildren Ref.external (scene (currentTabInfo window_tree))
                root_node = [sequence_node]) by reflexivity.
  assert (C : "tree.xml" <> EmptyString) by discriminate.
  split; [split; [exact A|split; [exact B|exact C]]|].
  destruct (@save_writes_when_accepted Ref.external root_node sequence_node
              "tree.xml" true window_tree A B C) as (D & _).
  destruct (D eq_refl) as (F & _).
  exact (f_equal (fun x => files (world x)) F).
Defined.

(** X9 at a file whose model section has an entry of no known
    category: the critical message, and the models read so far. *)
Lemma load_stops_before_the_scene_witness :
  @ReadTreeNodesModel Ref.external
    (snd (@XMLDocument_Parse Ref.external odd_models_text
            (String.length odd_models_text)))
    (_model_registry window2) (_tree_nodes_model window2)
  = ("Fly" :: _model_registry window2,
     [("Fly", {| node_type := Ref.ACTION; params := [] |})],
     Some (runtime_error "malformed TreeNodesModel entry"))
  /\ @loadFromXML Ref.external odd_models_text window2
     = Returned
         (log (MsgCritical "Error" "malformed TreeNodesModel entry")
              (@set_models Ref.external ("Fly" :: _model_registry window2)
                 [("Fly", {| node_type := Ref.ACTION; params := [] |})]
                 window2)).
Proof.
  assert (A : @ReadTreeNodesModel Ref.external
                (snd (@XMLDocument_Parse Ref.external odd_models_text
                        (String.length odd_models_text)))
                (_model_registry window2) (_tree_nodes_model window2)
              = ("Fly" :: _model_registry window2,
                 [("Fly", {| node_type := Ref.ACTION; params := [] |})],
                 Some (runtime_error "malformed TreeNodesModel entry")))
    by (vm_compute; reflexivity).
  split; [exact A|].
  destruct (@load_stops_before_the_scene Ref.external odd_models_text window2)
    as (_ & B & _).
  apply (B _ _ _ ltac:(vm_compute; reflexivity) A).
Defined.

(** X10 at [good_text], loaded into [window2]. *)
Lemma load_replaces_document_witness :
  (@XMLDocument_Parse Ref.external (@toStdString Ref.external good_text)
                      (String.length good_text)
   = (0, Some good_root)
   /\ @ReadTreeNodesModel Ref.external (Some good_root)
        (_model_registry window2) (_tree_nodes_model window2)
      = (bad_registry, bad_models, None)
   /\ snd (@CreateTreeInSceneFromXML Ref.external
             (FirstChildElement good_root "BehaviorTree") bad_registry
             (final (@clearScene Ref.external
                       (scene (currentTabInfo window2)))))
      = None
   /\ _undo_enabled window2 = true)
  /\ exists s',
       @loadFromXML Ref.external good_text window2 = Returned s'
       /\ scene (currentTabInfo s') = good_scene
       /\ _tree_nodes_model s' = bad_models
       /\ _undo_stack s' = _current_state window2 :: _undo_stack window2
       /\ pushes s' = S (pushes window2).
Proof.
  assert (HP : @XMLDocument_Parse Ref.external
                 (@toStdString Ref.external good_text)
                 (String.length good_text)
               = (0, Some good_root)) by (vm_compute; reflexivity).
  assert (HR : @ReadTreeNodesModel Ref.external (Some good_root)
                 (_model_registry window2) (_tree_nodes_model window2)
               = (bad_registry, bad_models, None))
    by (vm_compute; reflexivity).
  assert (HC : snd (@CreateTreeInSceneFromXML Ref.external
                      (FirstChildElement good_root "BehaviorTree")
                      bad_registry
                      (final (@clearScene Ref.external
                                (scene (currentTabInfo window2)))))
               = None) by (vm_compute; reflexivity).
  split; [repeat split; assumption|].
  destruct (@load_replaces_document Ref.external good_text good_root
              bad_registry bad_models window2 HP HR HC eq_refl)
    as (s' & A & B & C & _ & _ & D & _ & F & _).
  exists s'. split; [exact A|]. split; [rewrite B; reflexivity|].
  split; [exact C|]. split; [|exact F].
  rewrite D, B. reflexivity.
Defined.

(** X13 at a file of three lines. *)
Lemma read_all_glues_lines_witness :
  Forall (fun l => no_line_end l = true) ["<root>"; "  <a/>"; "</root>"]
  /\ read_all (unlines (String LF EmptyString)
                       ["<root>"; "  <a/>"; "</root>"])
     = "<root>  <a/></root>".
Proof.
  assert (H : Forall (fun l => no_line_end l = true)
                     ["<root>"; "  <a/>"; "</root>"])
    by (repeat constructor).
  split; [exact H|].
  exact (proj1 (@read_all_glues_lines (String LF EmptyString)
                  ["<root>"; "  <a/>"; "</root>"] (or_introl eq_refl) H)).
Defined.

(** X14 at [window_loaded], whose models declare the action its tree
    uses: the file written by save is the text that load reads, and
    the load succeeds with the same document. *)
Lemma saved_file_is_loaded_witness :
  (@save_entry Ref.external (scene (currentTabInfo window_loaded))
   = Some fly_sequence
   /\ "tree.xml" <> EmptyString)
  /\ snd (@on_actionLoad_triggered Ref.external "tree.xml" true
            (@on_actionSave_triggered Ref.external true ["tree.xml"] true
               window_loaded))
     = Some "tree.xml"
  /\ option_map (fun s => (scene (currentTabInfo s), _tree_nodes_model s))
       (returned
          (fst (@on_actionLoad_triggered Ref.external "tree.xml" true
                  (@on_actionSave_triggered Ref.external true ["tree.xml"]
                     true window_loaded))))
     = Some (good_scene, bad_models).
Proof.
  assert (A : @save_entry Ref.external (scene (currentTabInfo window_loaded))
              = Some fly_sequence) by (vm_compute; reflexivity).
  assert (B : "tree.xml" <> EmptyString) by discriminate.
  split; [split; [exact A|exact B]|].
  destruct (@saved_file_is_loaded Ref.external fly_sequence "tree.xml"
              window_loaded A B) as (C & _).
  split.
  - exact (f_equal snd C).
  - vm_compute. reflexivity.
Defined.

(** X16 at a left pane of 500 with a maximum of 200. *)
Lemma splitter_caps_left_pane_witness :
  on_splitter_splitterMoved [500; 300; 40]%Z 200%Z
  = Some [200; 600; 40]%Z.
Proof.
  destruct (@splitter_caps_left_pane 500 300 200 [40%Z]
              ltac:(lia) ltac:(lia) ltac:(lia) ltac:(lia))
    as (a & b & A & B & C & _).
  rewrite A. subst a.
  assert (Q : b = 600%Z) by lia. rewrite Q. reflexivity.
Defined.

(** X17 at the document of [scene_tree] with the model of [Fly]:
    the whole [root] of the finished document. *)
Lemma models_section_written_witness :
  (nth_error (@document_with_tree Ref.external scene_tree sequence_node) 1
   = Some {| dom_kind := DomElement "root"; dom_attrs := [];
             dom_parent := Some 0; dom_children := [2; 3] |})
  /\ dom_tree 9 (@build_save_document Ref.external scene_tree sequence_node
                   bad_models) 1
     = Some (XMLElement "root" []
               [XMLComment dashes;
                XMLElement "BehaviorTree" []
                  [XMLElement "Sequence" []
                     [XMLElement "ActionA" [("speed", "3")] [];
                      XMLElement "ActionB" [] []]];
                XMLComment dashes;
                XMLElement "TreeNodesModel" []
                  [XMLElement "Action" [("ID", "Fly")]
                     [XMLElement "Parameter"
                                 [("label", "height"); ("type", "Int")] []]];
                XMLComment dashes]).
Proof.
  assert (H : nth_error (@document_with_tree Ref.external scene_tree
                           sequence_node) 1
              = Some {| dom_kind := DomElement "root"; dom_attrs := [];
                        dom_parent := Some 0; dom_children := [2; 3] |})
    by (vm_compute; reflexivity).
  split; [exact H|].
  destruct (@models_section_written Ref.external scene_tree sequence_node
              bad_models 5 _ H eq_refl) as (A & _).
  rewrite A. vm_compute. reflexivity.
Defined.

(** X5 at [window2]: undo moves the cursor, the timeline stays. *)
Lemma undo_redo_keep_timeline_witness :
  _current_mode window2 = EDITOR
  /\ @timeline Ref.external (@onUndoInvoked Ref.external window2)
     = [EmptyString; Ref.save scene_tree; Ref.save scene_childless_root]
  /\ length (_undo_stack (@onUndoInvoked Ref.external window2)) = 1.
Proof.
  destruct (@undo_redo_keep_timeline Ref.external window2) as (A & _ & B).
  split; [reflexivity|]. split.
  - rewrite A. vm_compute. reflexivity.
  - rewrite (proj1 (B eq_refl)). vm_compute. reflexivity.
Defined.

(** X7 at [window_vertical]: the undo of the toggle brings the
    orientation back with the document. *)
Lemma orientation_follows_witness :
  (_current_mode window_vertical = EDITOR
   /\ _undo_stack window_vertical <> []
   /\ _current_layout window_vertical = Vertical)
  /\ _current_layout (@onUndoInvoked Ref.external window_vertical)
     = Horizontal.
Proof.
  assert (N : _undo_stack window_vertical <> [])
    by (vm_compute; discriminate).
  split; [split; [reflexivity|split; [exact N|vm_compute; reflexivity]]|].
  destruct (@orientation_follows Ref.external window_vertical)
    as (_ & _ & _ & _ & A).
  rewrite (proj1 (A eq_refl) N). vm_compute. reflexivity.
Defined.

(** X12 at [window_tree]: the reference [nodeReorder] emits one
    signal. *)
Lemma auto_arrange_effect_witness :
  (signalsBlocked (currentTabInfo window_tree) = false
   /\ _undo_enabled window_tree = true
   /\ emitted (@nodeReorder Ref.external (scene (currentTabInfo window_tree)))
      = [scene_tree])
  /\ pushes (@on_actionAuto_arrange_triggered Ref.external window_tree)
     = S (pushes window_tree)
  /\ _current_state (@on_actionAuto_arrange_triggered Ref.external window_tree)
     = Ref.save scene_tree.
Proof.
  split; [repeat split|].
  destruct (@auto_arrange_effect Ref.external window_tree)
    as (_ & _ & _ & A).
  exact (A scene_tree eq_refl eq_refl eq_refl).
Defined.

(** X18 at a fresh window: the constructor and two more switches to
    the editor mode leave three connections to the load slot. *)
Lemma mode_action_panel_witness :
  loadFile_to_on_actionLoad
    (snd (Nat.iter 3 (@mode_action Ref.external EDITOR) (window0, panel0)))
  = 3
  /\ shown_panels (snd (@mode_action Ref.external REPLAY (window0, panel0)))
     = [REPLAY].
Proof.
  destruct (@mode_action_panel Ref.external REPLAY [] 3 (window0, panel0))
    as (_ & A & _ & _ & _ & B).
  split; [exact B|exact A].
Defined.
